(** * dump_extxyz: the extended-XYZ dump style of LAMMPS

    A shallow embedding of [src/dump_extxyz.cpp] (class [DumpEXTXYZ]) and the
    properties of its label table, record packing, header emission and
    buffered formatting.

    Conventions of the embedding
    - a C [int] is a [Z]; where the source adds two [int]s the 32-bit
      wrap-around is written out with [wrap_int], except for the counter of a
      loop [for (i = 0; i < n; i++)], which stays below the bound it is
      compared with; a [bigint] or [tagint] is a [Z] as well;
    - a C [double] is a primitive binary64 [float];
    - a C string is a [string]; the bytes of a [char] buffer and of the output
      file are [ascii] characters;
    - an array is a list read with [!!] and updated with [<[ _ := _ ]>]; a read
      or a write outside the array is undefined behaviour, which the
      embedding reports as [None];
    - the object is the record [DumpEXTXYZ]; member functions take the object
      and return the updated one. *)

From Stdlib Require Import ZArith Floats Lia Ascii String.
From Stdlib Require Uint63.
From stdpp Require Import base option list strings pretty.

Local Open Scope Z_scope.

(** ** Constants and machine integers *)

Definition ONELINE : Z := 128.
Definition DELTA : Z := 1048576.

(** Modelled from the spec: [MAXSMALLINT] of lmptype.h, which is not among the
    sources; "the maximum representable signed 32-bit size". *)
Definition MAXSMALLINT : Z := 2147483647.

Definition wrap_int (z : Z) : Z := (z + 2147483648) mod 4294967296 - 2147483648.

(** [a + b] on two C [int]s. *)
Definition int_add (a b : Z) : Z := wrap_int (a + b).

(** Array subscript with a C [int] index. *)
Definition at_index {A : Type} (l : list A) (i : Z) : option A :=
  if i <? 0 then None else l !! Z.to_nat i.

(** ** Doubles *)

(** Conversion of an integer ([int], [tagint]) to [double], as in
    [buf[m++] = tag[i]]. *)
Definition double_of_int (z : Z) : float :=
  if z <? 0 then PrimFloat.opp (PrimFloat.of_uint63 (Uint63.of_Z (- z)))
  else PrimFloat.of_uint63 (Uint63.of_Z z).

(** [static_cast<int>(d)]: truncation towards zero; undefined when the
    truncated value is not an [int] (or [d] is not finite). *)
Definition double_to_int (d : float) : option Z :=
  match Prim2SF d with
  | S754_zero _ => Some 0
  | S754_finite s m e =>
      let a := if 0 <=? e then Z.pos m * 2 ^ e else Z.pos m / 2 ^ (- e) in
      let v := if s then - a else a in
      if (- 2147483648 <=? v) && (v <=? 2147483647) then Some v else None
  | _ => None
  end.

(** ** A reference formatter

    The C library's [printf] family and the fmt library are not part of the
    repository; the development below is parametric in them.  The
    definitions here are one concrete formatter, used to run the embedding on
    examples: it renders a double that holds an integer the way ["%g"] and
    ["{}"] do for integers of fewer than seven digits, and understands the
    conversions [%s], [%g] and [%%]. *)

Definition demo_fmt_double (d : float) : string :=
  match double_to_int d with
  | Some z => pretty z
  | None => "nan"
  end.

Fixpoint demo_printf_go (fmt : list ascii) (label : option string)
    (ds : list float) : string :=
  match fmt with
  | [] => ""
  | "%"%char :: "s"%char :: rest =>
      default "" label +:+ demo_printf_go rest None ds
  | "%"%char :: "g"%char :: rest =>
      match ds with
      | d :: ds' => demo_fmt_double d +:+ demo_printf_go rest label ds'
      | [] => demo_printf_go rest label []
      end
  | "%"%char :: "%"%char :: rest => String "%" (demo_printf_go rest label ds)
  | c :: rest => String c (demo_printf_go rest label ds)
  end.

Definition demo_printf (fmt label : string) (x y z : float) : string :=
  demo_printf_go (list_ascii_of_string fmt) (Some label) [x; y; z].

(** ** The object *)

Inductive FnPtrHeader := Header_binary | Header_binary_triclinic.
Inductive FnPtrPack := Pack | Pack_triclinic.
Inductive FnPtrWrite := Write_string | Write_lines.

(** The members of [DumpEXTXYZ] and those of its base class [Dump] that
    dump_extxyz.cpp reads or writes.  [typenames] is [None] for [nullptr];
    a slot of the pointer array is [None] until a string is stored in it.
    [sbuf] has [maxsbuf] cells, a cell being [None] until it is written.
    [fp] is the sequence of bytes written to the output file so far. *)
Record DumpEXTXYZ := {
  me : Z;
  ntypes : Z;
  typenames : option (list (option string));
  format_default : string;
  format_line_user : option string;
  format : option string;
  buffer_flag : Z;
  size_one : Z;
  groupbit : Z;
  boxxlo : float; boxxhi : float;
  boxylo : float; boxyhi : float;
  boxzlo : float; boxzhi : float;
  boxxy : float; boxxz : float; boxyz : float;
  buf : list float;
  maxsbuf : Z;
  sbuf : list (option ascii);
  header_choice : option FnPtrHeader;
  pack_choice : option FnPtrPack;
  write_choice : option FnPtrWrite;
  fp : list ascii
}.

Definition set_typenames (v : option (list (option string))) (d : DumpEXTXYZ) :=
  {| me := me d; ntypes := ntypes d; typenames := v;
     format_default := format_default d; format_line_user := format_line_user d;
     format := format d; buffer_flag := buffer_flag d; size_one := size_one d;
     groupbit := groupbit d;
     boxxlo := boxxlo d; boxxhi := boxxhi d; boxylo := boxylo d;
     boxyhi := boxyhi d; boxzlo := boxzlo d; boxzhi := boxzhi d;
     boxxy := boxxy d; boxxz := boxxz d; boxyz := boxyz d;
     buf := buf d; maxsbuf := maxsbuf d; sbuf := sbuf d;
     header_choice := header_choice d; pack_choice := pack_choice d;
     write_choice := write_choice d; fp := fp d |}.

Definition set_format (v : option string) (d : DumpEXTXYZ) :=
  {| me := me d; ntypes := ntypes d; typenames := typenames d;
     format_default := format_default d; format_line_user := format_line_user d;
     format := v; buffer_flag := buffer_flag d; size_one := size_one d;
     groupbit := groupbit d;
     boxxlo := boxxlo d; boxxhi := boxxhi d; boxylo := boxylo d;
     boxyhi := boxyhi d; boxzlo := boxzlo d; boxzhi := boxzhi d;
     boxxy := boxxy d; boxxz := boxxz d; boxyz := boxyz d;
     buf := buf d; maxsbuf := maxsbuf d; sbuf := sbuf d;
     header_choice := header_choice d; pack_choice := pack_choice d;
     write_choice := write_choice d; fp := fp d |}.

Definition set_choices (h : option FnPtrHeader) (p : option FnPtrPack)
    (w : option FnPtrWrite) (d : DumpEXTXYZ) :=
  {| me := me d; ntypes := ntypes d; typenames := typenames d;
     format_default := format_default d; format_line_user := format_line_user d;
     format := format d; buffer_flag := buffer_flag d; size_one := size_one d;
     groupbit := groupbit d;
     boxxlo := boxxlo d; boxxhi := boxxhi d; boxylo := boxylo d;
     boxyhi := boxyhi d; boxzlo := boxzlo d; boxzhi := boxzhi d;
     boxxy := boxxy d; boxxz := boxxz d; boxyz := boxyz d;
     buf := buf d; maxsbuf := maxsbuf d; sbuf := sbuf d;
     header_choice := h; pack_choice := p; write_choice := w; fp := fp d |}.

Definition set_buf (v : list float) (d : DumpEXTXYZ) :=
  {| me := me d; ntypes := ntypes d; typenames := typenames d;
     format_default := format_default d; format_line_user := format_line_user d;
     format := format d; buffer_flag := buffer_flag d; size_one := size_one d;
     groupbit := groupbit d;
     boxxlo := boxxlo d; boxxhi := boxxhi d; boxylo := boxylo d;
     boxyhi := boxyhi d; boxzlo := boxzlo d; boxzhi := boxzhi d;
     boxxy := boxxy d; boxxz := boxxz d; boxyz := boxyz d;
     buf := v; maxsbuf := maxsbuf d; sbuf := sbuf d;
     header_choice := header_choice d; pack_choice := pack_choice d;
     write_choice := write_choice d; fp := fp d |}.

Definition set_sbuf (cap : Z) (v : list (option ascii)) (d : DumpEXTXYZ) :=
  {| me := me d; ntypes := ntypes d; typenames := typenames d;
     format_default := format_default d; format_line_user := format_line_user d;
     format := format d; buffer_flag := buffer_flag d; size_one := size_one d;
     groupbit := groupbit d;
     boxxlo := boxxlo d; boxxhi := boxxhi d; boxylo := boxylo d;
     boxyhi := boxyhi d; boxzlo := boxzlo d; boxzhi := boxzhi d;
     boxxy := boxxy d; boxxz := boxxz d; boxyz := boxyz d;
     buf := buf d; maxsbuf := cap; sbuf := v;
     header_choice := header_choice d; pack_choice := pack_choice d;
     write_choice := write_choice d; fp := fp d |}.

Definition set_fp (v : list ascii) (d : DumpEXTXYZ) :=
  {| me := me d; ntypes := ntypes d; typenames := typenames d;
     format_default := format_default d; format_line_user := format_line_user d;
     format := format d; buffer_flag := buffer_flag d; size_one := size_one d;
     groupbit := groupbit d;
     boxxlo := boxxlo d; boxxhi := boxxhi d; boxylo := boxylo d;
     boxyhi := boxyhi d; boxzlo := boxzlo d; boxzhi := boxzhi d;
     boxxy := boxxy d; boxxz := boxxz d; boxyz := boxyz d;
     buf := buf d; maxsbuf := maxsbuf d; sbuf := sbuf d;
     header_choice := header_choice d; pack_choice := pack_choice d;
     write_choice := write_choice d; fp := v |}.

(** [fmt::print(fp, s)], [fprintf(fp, ...)] and [fwrite(..., fp)] append. *)
Definition emit (s : list ascii) (d : DumpEXTXYZ) : DumpEXTXYZ :=
  set_fp (fp d ++ s) d.

(** What a member function that can call [error->all] does: it returns, or
    it raises the LAMMPS error with the object as it is at that point, or its
    behaviour is undefined. *)
Inductive outcome (A : Type) :=
| Returns (a : A) (d : DumpEXTXYZ)
| Throws (msg : string) (d : DumpEXTXYZ)
| Undefined.
Arguments Returns {A} a d.
Arguments Throws {A} msg d.
Arguments Undefined {A}.

(** The parts of the [Domain] and [Atom] objects that the dump reads. *)
Record Domain := { triclinic : Z }.

Record Atom := {
  tag : list Z;
  type : list Z;
  mask : list Z;
  x : list (list float);
  nlocal : Z
}.

(** ** The label table *)

(** [new char*[n]]: an array of [n] uninitialised pointers. *)
Definition new_table (n : Z) : list (option string) :=
  replicate (Z.to_nat n) None.

(** The loop of [init_style]:
    [for (itype = ...; itype <= ntypes; itype++) sprintf(typenames[itype],"%d",itype)],
    with [cnt] iterations left.  The counter passes the bound it is compared
    with, so its increment is an [int] addition. *)
Fixpoint init_style_loop (cnt : nat) (itype : Z) (tbl : list (option string))
    : list (option string) :=
  match cnt with
  | O => tbl
  | S cnt' =>
      init_style_loop cnt' (int_add itype 1)
        (<[Z.to_nat itype := Some (pretty itype)]> tbl)
  end.

(** [DumpEXTXYZ::init_style].  The final [openfile()] belongs to the base
    class and touches none of the members above. *)
Definition init_style (domain : Domain) (d : DumpEXTXYZ) : DumpEXTXYZ :=
  let d1 :=
    match format_line_user d with
    | Some user => set_format (Some (user +:+ String "010" "")) d
    | None => set_format (Some (format_default d +:+ String "010" "")) d
    end in
  let d2 :=
    match typenames d1 with
    | None =>
        set_typenames
          (Some (init_style_loop (Z.to_nat (ntypes d1)) 1
                   (new_table (int_add (ntypes d1) 1)))) d1
    | Some _ => d1
    end in
  let w := if buffer_flag d2 =? 1 then Write_string else Write_lines in
  if triclinic domain =? 0 then
    set_choices (Some Header_binary) (Some Pack) (Some w) d2
  else if triclinic domain =? 1 then
    set_choices (Some Header_binary_triclinic) (Some Pack_triclinic) (Some w) d2
  else
    set_choices (header_choice d2) (pack_choice d2) (Some w) d2.

(** The copying loop of [modify_param],
    [for (itype = ...; itype <= ntypes; itype++) typenames[itype] = utils::strdup(arg[itype])],
    with [cnt] iterations left. *)
Fixpoint modify_param_loop (cnt : nat) (itype : Z) (arg : list string)
    (tbl : list (option string)) : option (list (option string)) :=
  match cnt with
  | O => Some tbl
  | S cnt' =>
      s ← at_index arg itype;
      modify_param_loop cnt' (int_add itype 1) arg
        (<[Z.to_nat itype := Some s]> tbl)
  end.

(** [DumpEXTXYZ::modify_param].  The table that exists is released and the
    pointer reset; the loop that frees its strings is the one of the
    destructor, embedded with it below, and is not repeated here. *)
Definition modify_param (narg : Z) (arg : list string) (d : DumpEXTXYZ)
    : outcome Z :=
  match at_index arg 0 with
  | None => Undefined
  | Some arg0 =>
      if String.eqb arg0 "element" then
        if narg <? int_add (ntypes d) 1 then
          Throws "Dump modify element names do not match atom types" d
        else
          let d1 := match typenames d with
                    | Some _ => set_typenames None d
                    | None => d
                    end in
          match modify_param_loop (Z.to_nat (ntypes d1)) 1 arg
                  (new_table (int_add (ntypes d1) 1)) with
          | None => Undefined
          | Some tbl =>
              Returns (int_add (ntypes d1) 1) (set_typenames (Some tbl) d1)
          end
      else Returns 0 d
  end.

(** [typenames[t]] as the formatting functions read it. *)
Definition label (d : DumpEXTXYZ) (t : Z) : option string :=
  tbl ← typenames d; slot ← at_index tbl t; slot.

(** ** Arrays written in place *)

(** [a[i] = v] *)
Definition store {A : Type} (a : list A) (i : Z) (v : A) : option (list A) :=
  if (0 <=? i) && (i <? Z.of_nat (length a)) then Some (<[Z.to_nat i := v]> a)
  else None.

(** [memory->grow(a, n)]: the block is reallocated to [n] cells, the cells
    that were there keep their contents and the new ones are uninitialised. *)
Definition grow {A : Type} (a : list (option A)) (n : Z) : list (option A) :=
  take (Z.to_nat n) a ++ replicate (Z.to_nat n - length a)%nat None.

(** A [double *] argument: the same pointer type carries the packed records
    and, on the buffered path, the formatted characters. *)
Inductive pointer :=
| Null
| Doubles (a : list float)
| Chars (a : list (option ascii)).

(** ** Packing *)

(** The loop of [DumpEXTXYZ::pack], at atom [i] with [cnt] atoms left. *)
Fixpoint pack_loop (cnt : nat) (i m n : Z) (atom : Atom) (ids : option (list Z))
    (d : DumpEXTXYZ) : option (DumpEXTXYZ * option (list Z)) :=
  match cnt with
  | O => Some (d, ids)
  | S cnt' =>
      mk ← at_index (mask atom) i;
      if Z.land mk (groupbit d) =? 0 then
        pack_loop cnt' (i + 1) m n atom ids d
      else
        tg ← at_index (tag atom) i;
        ty ← at_index (type atom) i;
        xi ← at_index (x atom) i;
        x0 ← at_index xi 0;
        x1 ← at_index xi 1;
        x2 ← at_index xi 2;
        b ← store (buf d) m (double_of_int tg);
        let m := int_add m 1 in
        b ← store b m (double_of_int ty);
        let m := int_add m 1 in
        b ← store b m (x0 - boxxlo d)%float;
        let m := int_add m 1 in
        b ← store b m (x1 - boxylo d)%float;
        let m := int_add m 1 in
        b ← store b m (x2 - boxzlo d)%float;
        let m := int_add m 1 in
        match ids with
        | Some a =>
            a ← store a n tg;
            pack_loop cnt' (i + 1) m (int_add n 1) atom (Some a) (set_buf b d)
        | None => pack_loop cnt' (i + 1) m n atom None (set_buf b d)
        end
  end.

(** [DumpEXTXYZ::pack] *)
Definition pack (atom : Atom) (ids : option (list Z)) (d : DumpEXTXYZ)
    : option (DumpEXTXYZ * option (list Z)) :=
  pack_loop (Z.to_nat (nlocal atom)) 0 0 0 atom ids d.

(** The loop of [DumpEXTXYZ::pack_triclinic]. *)
Fixpoint pack_triclinic_loop (cnt : nat) (i m n : Z) (atom : Atom)
    (ids : option (list Z)) (d : DumpEXTXYZ)
    : option (DumpEXTXYZ * option (list Z)) :=
  match cnt with
  | O => Some (d, ids)
  | S cnt' =>
      mk ← at_index (mask atom) i;
      if Z.land mk (groupbit d) =? 0 then
        pack_triclinic_loop cnt' (i + 1) m n atom ids d
      else
        tg ← at_index (tag atom) i;
        ty ← at_index (type atom) i;
        xi ← at_index (x atom) i;
        x0 ← at_index xi 0;
        x1 ← at_index xi 1;
        x2 ← at_index xi 2;
        b ← store (buf d) m (double_of_int tg);
        let m := int_add m 1 in
        b ← store b m (double_of_int ty);
        let m := int_add m 1 in
        b ← store b m x0;
        let m := int_add m 1 in
        b ← store b m x1;
        let m := int_add m 1 in
        b ← store b m x2;
        let m := int_add m 1 in
        match ids with
        | Some a =>
            a ← store a n tg;
            pack_triclinic_loop cnt' (i + 1) m (int_add n 1) atom (Some a)
              (set_buf b d)
        | None => pack_triclinic_loop cnt' (i + 1) m n atom None (set_buf b d)
        end
  end.

(** [DumpEXTXYZ::pack_triclinic] *)
Definition pack_triclinic (atom : Atom) (ids : option (list Z))
    (d : DumpEXTXYZ) : option (DumpEXTXYZ * option (list Z)) :=
  pack_triclinic_loop (Z.to_nat (nlocal atom)) 0 0 0 atom ids d.

(** The atoms of the dump group, in the order of the engine's arrays: the
    indices [i < nlocal] with [mask[i] & groupbit] set.  (Specification side:
    "every particle record" of a step is one of these.) *)
Definition in_group (atom : Atom) (d : DumpEXTXYZ) (i : Z) : bool :=
  match at_index (mask atom) i with
  | Some mk => negb (Z.land mk (groupbit d) =? 0)
  | None => false
  end.

Definition group_atoms (atom : Atom) (d : DumpEXTXYZ) : list Z :=
  filter (λ i, in_group atom d i = true) (seqZ 0 (nlocal atom)).

(** The engine's arrays hold [nlocal] atoms with three coordinates each. *)
Definition atom_wf (atom : Atom) : Prop :=
  0 ≤ nlocal atom ∧
  nlocal atom ≤ Z.of_nat (length (tag atom)) ∧
  nlocal atom ≤ Z.of_nat (length (type atom)) ∧
  nlocal atom ≤ Z.of_nat (length (mask atom)) ∧
  nlocal atom ≤ Z.of_nat (length (x atom)) ∧
  Forall (λ xi : list float, (3 ≤ length xi)%nat) (x atom).

Section Formatting.

(** The formatting functions of the C library and of fmt:
    [c_printf fmt s x y z] is the text that [sprintf] and [fprintf] produce
    for the format [fmt] and the arguments [s], [x], [y], [z];
    [fmt_double v] is what [fmt::format] substitutes for a [{}] given the
    double [v]. *)
Variable c_printf : string → string → float → float → float → string.
Variable fmt_double : float → string.

(** ** The frame header *)

Definition quote : string := String "034" "".
Definition newline : string := String "010" "".

(** [DumpEXTXYZ::header_binary].  [fmt::format("{}", n)] of the [bigint] [n]
    is its decimal representation. *)
Definition header_binary (n : Z) (d : DumpEXTXYZ) : DumpEXTXYZ :=
  let header := pretty n in
  let header := header +:+ newline in
  let d := emit (list_ascii_of_string header) d in
  let header :=
    "Lattice=" +:+ quote +:+ fmt_double (boxxhi d - boxxlo d)%float
      +:+ " 0.0 0.0 0.0 " +:+ fmt_double (boxyhi d - boxylo d)%float
      +:+ " 0.0 0.0 0.0 " +:+ fmt_double (boxzhi d - boxzlo d)%float
      +:+ quote +:+ " " in
  let header := header +:+ newline in
  emit (list_ascii_of_string header) d.

(** [DumpEXTXYZ::header_binary_triclinic] *)
Definition header_binary_triclinic (n : Z) (d : DumpEXTXYZ) : DumpEXTXYZ :=
  let header := pretty n in
  let header := header +:+ newline in
  let d := emit (list_ascii_of_string header) d in
  let header :=
    "Lattice=" +:+ quote +:+ fmt_double (boxxhi d - boxxlo d)%float
      +:+ " 0.0 0.0 0.0 " +:+ fmt_double (boxyhi d - boxylo d)%float
      +:+ " 0.0 0.0 0.0 " +:+ fmt_double (boxzhi d - boxzlo d)%float
      +:+ quote +:+ " " in
  let header := header +:+ newline in
  emit (list_ascii_of_string header) d.

(** [DumpEXTXYZ::write_header]: the call through [header_choice] is undefined
    while the pointer is unset. *)
Definition write_header (n : Z) (d : DumpEXTXYZ) : option DumpEXTXYZ :=
  if me d =? 0 then
    match header_choice d with
    | Some Header_binary => Some (header_binary n d)
    | Some Header_binary_triclinic => Some (header_binary_triclinic n d)
    | None => None
    end
  else Some d.

(** ** Formatting the records *)

(** The text of one record: the [printf] call that [convert_string] and
    [write_lines] both make,
    [format, typenames[static_cast<int>(mybuf[m+1])], mybuf[m+2], mybuf[m+3], mybuf[m+4]]. *)
Definition record_line (m : Z) (mybuf : list float) (d : DumpEXTXYZ)
    : option string :=
  fmt ← format d;
  ty ← at_index mybuf (int_add m 1);
  t ← double_to_int ty;
  s ← label d t;
  x ← at_index mybuf (int_add m 2);
  y ← at_index mybuf (int_add m 3);
  z ← at_index mybuf (int_add m 4);
  Some (c_printf fmt s x y z).

(** Consecutive character stores starting at [pos]. *)
Fixpoint poke (cells : list (option ascii)) (pos : Z) (cs : list ascii)
    : option (list (option ascii)) :=
  match cs with
  | [] => Some cells
  | c :: cs' => cells' ← store cells pos (Some c); poke cells' (pos + 1) cs'
  end.

(** [sprintf(&cells[offset], ...)] producing [text]: the characters of the
    text and the terminating null character are stored from [offset] on. *)
Definition sprintf_at (cells : list (option ascii)) (offset : Z) (text : string)
    : option (list (option ascii)) :=
  poke cells offset (list_ascii_of_string text ++ [zero]).

(** The test that opens each iteration of [convert_string],
    [if (offset + ONELINE > maxsbuf) { if ((bigint) maxsbuf + DELTA >
    MAXSMALLINT) return -1; maxsbuf += DELTA; memory->grow(sbuf,maxsbuf); }]:
    [None] stands for the [return -1]. *)
Definition ensure_line (offset : Z) (d : DumpEXTXYZ) : option DumpEXTXYZ :=
  if int_add offset ONELINE >? maxsbuf d then
    if maxsbuf d + DELTA >? MAXSMALLINT then None
    else
      let cap := int_add (maxsbuf d) DELTA in
      Some (set_sbuf cap (grow (sbuf d) cap) d)
  else Some d.

(** The loop of [DumpEXTXYZ::convert_string] with [cnt] records left. *)
Fixpoint convert_string_loop (cnt : nat) (m offset : Z) (mybuf : list float)
    (d : DumpEXTXYZ) : option (Z * DumpEXTXYZ) :=
  match cnt with
  | O => Some (offset, d)
  | S cnt' =>
      match ensure_line offset d with
      | None => Some (-1, d)
      | Some d =>
          text ← record_line m mybuf d;
          cells ← sprintf_at (sbuf d) offset text;
          convert_string_loop cnt'
            (int_add m (size_one d))
            (int_add offset (Z.of_nat (String.length text)))
            mybuf (set_sbuf (maxsbuf d) cells d)
      end
  end.

(** [DumpEXTXYZ::convert_string]: the returned [int] and the object. *)
Definition convert_string (n : Z) (mybuf : list float) (d : DumpEXTXYZ)
    : option (Z * DumpEXTXYZ) :=
  convert_string_loop (Z.to_nat n) 0 0 mybuf d.

(** [fwrite(cells, sizeof(char), n, fp)] reads the first [n] cells. *)
Fixpoint read_cells (cells : list (option ascii)) (n : nat) {struct n}
    : option (list ascii) :=
  match n with
  | O => Some []
  | S n' =>
      match cells with
      | Some c :: cells' => cs ← read_cells cells' n'; Some (c :: cs)
      | _ => None
      end
  end.

(** [DumpEXTXYZ::write_string].  The base class calls it with the character
    buffer that [convert_string] filled.  The embedding does not carry the
    object representation of a double, so a call with a buffer of doubles,
    whose bytes [fwrite] would copy, is outside it and reported as [None]. *)
Definition write_string (n : Z) (mybuf : pointer) (d : DumpEXTXYZ)
    : option DumpEXTXYZ :=
  match mybuf with
  | Null => Some d
  | Chars cells =>
      if n <? 0 then None
      else cs ← read_cells cells (Z.to_nat n); Some (emit cs d)
  | Doubles _ => None
  end.

(** The loop of [DumpEXTXYZ::write_lines]. *)
Fixpoint write_lines_loop (cnt : nat) (m : Z) (mybuf : list float)
    (d : DumpEXTXYZ) : option DumpEXTXYZ :=
  match cnt with
  | O => Some d
  | S cnt' =>
      text ← record_line m mybuf d;
      write_lines_loop cnt' (int_add m (size_one d)) mybuf
        (emit (list_ascii_of_string text) d)
  end.

(** [DumpEXTXYZ::write_lines] *)
Definition write_lines (n : Z) (mybuf : pointer) (d : DumpEXTXYZ)
    : option DumpEXTXYZ :=
  match mybuf with
  | Doubles a => write_lines_loop (Z.to_nat n) 0 a d
  | _ => if n <=? 0 then Some d else None
  end.

(** [DumpEXTXYZ::write_data] *)
Definition write_data (n : Z) (mybuf : pointer) (d : DumpEXTXYZ)
    : option DumpEXTXYZ :=
  match write_choice d with
  | Some Write_string => write_string n mybuf d
  | Some Write_lines => write_lines n mybuf d
  | None => None
  end.

End Formatting.

(** ** Construction *)

(** The members of the base class [Dump] that only the constructor of
    [DumpEXTXYZ] reads or writes. *)
Record DumpFlags := {
  binary : Z;
  multiproc : Z;
  buffer_allow : Z;
  sort_flag : Z;
  sortcol : Z
}.

(** A constructor returns the object or raises. *)
Inductive construction :=
| Constructed (b : DumpFlags) (d : DumpEXTXYZ)
| Raised (msg : string).

(** [DumpEXTXYZ::DumpEXTXYZ(lmp, narg, arg)], run on the members [b] and [d]
    as the constructor of the base class leaves them; [atom_ntypes] is
    [atom->ntypes]. *)
Definition new_DumpEXTXYZ (narg : Z) (atom_ntypes : Z) (b : DumpFlags)
    (d : DumpEXTXYZ) : construction :=
  if negb (narg =? 5) then Raised "Illegal dump extxyz command"
  else if negb (binary b =? 0) || negb (multiproc b =? 0) then
    Raised "Invalid dump extxyz filename"
  else
    Constructed
      {| binary := binary b; multiproc := multiproc b;
         buffer_allow := 1; sort_flag := 1; sortcol := 0 |}
      {| me := me d; ntypes := atom_ntypes; typenames := None;
         format_default := "%s %g %g %g";
         format_line_user := format_line_user d;
         format := format d; buffer_flag := 1; size_one := 5;
         groupbit := groupbit d;
         boxxlo := boxxlo d; boxxhi := boxxhi d; boxylo := boxylo d;
         boxyhi := boxyhi d; boxzlo := boxzlo d; boxzhi := boxzhi d;
         boxxy := boxxy d; boxxz := boxxz d; boxyz := boxyz d;
         buf := buf d; maxsbuf := maxsbuf d; sbuf := sbuf d;
         header_choice := header_choice d; pack_choice := pack_choice d;
         write_choice := write_choice d; fp := fp d |}.

(** ** Destruction *)

(** The loop [for (int i = 1; i <= ntypes; i++) delete [] typenames[i]] of
    the destructor and of [modify_param], with [cnt] iterations left: it is
    undefined when a slot it reads lies outside the table or was never
    assigned. *)
Fixpoint delete_labels_loop (cnt : nat) (i : Z) (tbl : list (option string))
    : option unit :=
  match cnt with
  | O => Some ()
  | S cnt' =>
      slot ← at_index tbl i;
      _ ← slot;
      delete_labels_loop cnt' (int_add i 1) tbl
  end.

(** [DumpEXTXYZ::~DumpEXTXYZ()]: whether its behaviour is defined; the
    object does not outlive it.  [delete[] format_default] frees the string
    that the constructor duplicated. *)
Definition delete_DumpEXTXYZ (d : DumpEXTXYZ) : option unit :=
  match typenames d with
  | Some tbl => delete_labels_loop (Z.to_nat (ntypes d)) 1 tbl
  | None => Some ()
  end.

(** * Vocabulary of the properties *)

(** The number of line ends in a text. *)
Definition line_ends (s : string) : nat :=
  length (filter (λ c, c = "010"%char) (list_ascii_of_string s)).

(** The lattice descriptor line for three extents, without its line end. *)
Definition lattice_line (fmt_double : float → string) (ex ey ez : float)
    : string :=
  "Lattice=" +:+ quote +:+ fmt_double ex
    +:+ " 0.0 0.0 0.0 " +:+ fmt_double ey
    +:+ " 0.0 0.0 0.0 " +:+ fmt_double ez +:+ quote +:+ " ".

(** The five values [pack] stores for atom [i], and those of
    [pack_triclinic]; a missing array element reads as zero here, which
    [atom_wf] rules out. *)
Definition coord (atom : Atom) (i : Z) (k : Z) : float :=
  default 0%float (xi ← at_index (x atom) i; at_index xi k).

Definition packed (atom : Atom) (d : DumpEXTXYZ) (i : Z) : list float :=
  [ double_of_int (default 0 (at_index (tag atom) i));
    double_of_int (default 0 (at_index (type atom) i));
    (coord atom i 0 - boxxlo d)%float;
    (coord atom i 1 - boxylo d)%float;
    (coord atom i 2 - boxzlo d)%float ].

Definition packed_triclinic (atom : Atom) (i : Z) : list float :=
  [ double_of_int (default 0 (at_index (tag atom) i));
    double_of_int (default 0 (at_index (type atom) i));
    coord atom i 0; coord atom i 1; coord atom i 2 ].

Definition group_range (atom : Atom) (d : DumpEXTXYZ) (i : Z) (cnt : nat)
    : list Z :=
  filter (λ i, in_group atom d i = true) (seqZ i (Z.of_nat cnt)).

(** What the identifier array holds after the loop. *)
Definition ids_after (atom : Atom) (ids : option (list Z)) (ipre : list Z)
    (d : DumpEXTXYZ) (i : Z) (cnt : nat) (ipost : list Z) : option (list Z) :=
  match ids with
  | Some _ =>
      Some (ipre ++ ((λ j, default 0 (at_index (tag atom) j))
                       <$> group_range atom d i cnt) ++ ipost)
  | None => None
  end.

Definition ids_fit (ids : option (list Z)) (n : Z) (ipre imid ipost : list Z)
    (k : nat) : Prop :=
  ∀ a, ids = Some a →
    a = ipre ++ imid ++ ipost ∧ Z.of_nat (length ipre) = n ∧
    length imid = k ∧ Z.of_nat (length a) ≤ MAXSMALLINT.

(** The object is used with a buffer of [maxsbuf] cells, [maxsbuf] an
    [int]. *)
Definition sbuf_wf (d : DumpEXTXYZ) : Prop :=
  Z.of_nat (length (sbuf d)) = maxsbuf d ∧ maxsbuf d ≤ MAXSMALLINT.

(** The text of a sequence of lines, and its length in bytes. *)
Definition text_of (ts : list string) : list ascii :=
  ts ≫= list_ascii_of_string.

Definition total_length (ts : list string) : Z :=
  Z.of_nat (length (text_of ts)).

(** The texts of [cnt] consecutive records, the first one at index [m]. *)
Fixpoint record_lines
    (c_printf : string → string → float → float → float → string)
    (mybuf : list float) (cnt : nat) (m : Z) (d : DumpEXTXYZ)
    : option (list string) :=
  match cnt with
  | O => Some []
  | S cnt' =>
      t ← record_line c_printf m mybuf d;
      ts ← record_lines c_printf mybuf cnt' (int_add m (size_one d)) d;
      Some (t :: ts)
  end.

(** The index of the record reached after [k] iterations. *)
Definition advance (k : nat) (m stride : Z) : Z :=
  Nat.iter k (λ m, int_add m stride) m.

(** Every line, with the null character that ends it, fits the bound. *)
Definition lines_fit (ts : list string) : Prop :=
  Forall (λ t, Z.of_nat (String.length t) + 1 ≤ ONELINE) ts.

(** A capacity from which every capacity reached by [DELTA] increments below
    the ceiling leaves [offset + ONELINE] an [int]; the capacities
    0, DELTA, 2 DELTA, ... of a buffer that only [convert_string] resizes are
    of this kind. *)
Definition sbuf_aligned (d : DumpEXTXYZ) : Prop :=
  maxsbuf d mod DELTA + ONELINE < DELTA.

(** [n] copies of one packed record. *)
Definition batch (n : Z) (rec : list float) : list float :=
  seqZ 0 n ≫= λ _, rec.

(** The label of the type of atom [i], and the line of the atom
    under the format [f] with the coordinates [pack] stores, and with those
    [pack_triclinic] stores. *)
Definition atom_label (atom : Atom) (d : DumpEXTXYZ) (i : Z) : string :=
  default "" (ty ← at_index (type atom) i; label d ty).

Definition atom_line
    (c_printf : string → string → float → float → float → string)
    (atom : Atom) (d : DumpEXTXYZ) (f : string) (i : Z) : string :=
  c_printf f (atom_label atom d i)
    (coord atom i 0 - boxxlo d)%float (coord atom i 1 - boxylo d)%float
    (coord atom i 2 - boxzlo d)%float.

Definition atom_line_triclinic
    (c_printf : string → string → float → float → float → string)
    (atom : Atom) (d : DumpEXTXYZ) (f : string) (i : Z) : string :=
  c_printf f (atom_label atom d i)
    (coord atom i 0) (coord atom i 1) (coord atom i 2).

(** The identifiers of the atoms of the dump group, in the order of the
    engine's arrays. *)
Definition group_tags (atom : Atom) (d : DumpEXTXYZ) : list Z :=
  (λ i, default 0 (at_index (tag atom) i)) <$> group_atoms atom d.

(** The type code of every atom of the group is an [int] that has a label. *)
Definition group_labelled (atom : Atom) (d : DumpEXTXYZ) : Prop :=
  Forall (λ i, ∃ ty s, at_index (type atom) i = Some ty ∧
                       - 2147483648 ≤ ty ≤ 2147483647 ∧ label d ty = Some s)
    (group_atoms atom d).

(** The two header lines of a frame of [n] particles. *)
Definition header_text (fmt_double : float → string) (n : Z) (d : DumpEXTXYZ)
    : list ascii :=
  list_ascii_of_string (pretty n +:+ newline)
    ++ list_ascii_of_string
         (lattice_line fmt_double (boxxhi d - boxxlo d) (boxyhi d - boxylo d)
            (boxzhi d - boxzlo d) +:+ newline).

(** A function of the object applied to the object an outcome carries. *)
Definition outcome_map {A : Type} (f : DumpEXTXYZ → DumpEXTXYZ) (o : outcome A)
    : outcome A :=
  match o with
  | Returns a d => Returns a (f d)
  | Throws msg d => Throws msg (f d)
  | Undefined => Undefined
  end.

(** The buffer can be grown, below the ceiling, to a capacity that leaves
    [ONELINE] bytes after the whole text of the lines [ts], each of which
    fits the bound with its null character. *)
Definition buffer_can_hold (d : DumpEXTXYZ) (ts : list string) : Prop :=
  sbuf_wf d ∧ lines_fit ts ∧
  ∃ j, 0 ≤ j ∧ maxsbuf d + j * DELTA ≤ MAXSMALLINT ∧
       total_length ts + ONELINE ≤ maxsbuf d + j * DELTA.

(** * Worked instances *)

(** The object as the constructor leaves it for a system with two atom
    types, on process 0, with the given box and tilt factors, and a buffer
    [buf] of ten doubles. *)
Definition fresh_dump (xlo xhi ylo yhi zlo zhi xy xz yz : float)
    : DumpEXTXYZ :=
  {| me := 0; ntypes := 2; typenames := None;
     format_default := "%s %g %g %g"; format_line_user := None;
     format := None; buffer_flag := 1; size_one := 5; groupbit := 1;
     boxxlo := xlo; boxxhi := xhi; boxylo := ylo; boxyhi := yhi;
     boxzlo := zlo; boxzhi := zhi; boxxy := xy; boxxz := xz; boxyz := yz;
     buf := replicate 10 0%float; maxsbuf := 0; sbuf := [];
     header_choice := None; pack_choice := None; write_choice := None;
     fp := [] |}.

Definition orthogonal : Domain := {| triclinic := 0 |}.

(** After [init_style], in the box (0,0,0)-(10,5,2). *)
Definition dump1 : DumpEXTXYZ :=
  init_style orthogonal (fresh_dump 0 10 0 5 0 2 0 0 0).

(** The same box with tilt factors. *)
Definition dump1_tilted : DumpEXTXYZ :=
  init_style {| triclinic := 1 |} (fresh_dump 0 10 0 5 0 2 1 2 3).

(** After [init_style], with lower bounds (1,-2,0). *)
Definition dump_shifted : DumpEXTXYZ :=
  init_style orthogonal (fresh_dump 1 11 (-2) 3 0 2 0 0 0).

(** Three atoms, the first and the third in the dump group. *)
Definition three_atoms : Atom :=
  {| tag := [7; 8; 9]; type := [1; 2; 2]; mask := [1; 2; 3];
     x := [[3; 3; 3]; [4; 4; 4]; [5; 6; 7]]%float; nlocal := 3 |}.

(** Two packed records. *)
Definition two_records : list float := [7; 1; 2; 5; 3; 9; 2; 5; 6; 7]%float.

(** [dump1] with a buffer of 300 cells. *)
Definition dump_small : DumpEXTXYZ := set_sbuf 300 (replicate 300 None) dump1.

(** The texts of [two_records] under the default format and labels. *)
Definition two_lines : list string :=
  ["1 2 5 3" +:+ newline; "2 5 6 7" +:+ newline].

(** One atom of type 1 at (1,1,1), its line under the default format and
    labels, and a batch of 300 million such records: 2.4 GB of text. *)
Definition one_record : list float := [1; 1; 1; 1; 1]%float.
Definition one_line : string := "1 1 1 1" +:+ newline.
Definition big_n : Z := 300000000.
Definition big_batch : list float := batch big_n one_record.

(** A label of 121 characters for type 1, set with [dump_modify element];
    the line of [one_record] then has 128 characters. *)
Definition long_label : string := string_of_list_ascii (replicate 121 "C"%char).

Definition dump_long : DumpEXTXYZ :=
  match modify_param 3 ["element"; long_label; "O"]%string dump1 with
  | Returns _ d => d
  | _ => dump1
  end.

Definition full_line : string := long_label +:+ " 1 1 1" +:+ newline.

(** The object of [dump_shifted] when the base class has cleared
    [buffer_flag] before [init_style] runs: the records are then written
    line by line. *)
Definition unbuffered (d : DumpEXTXYZ) : DumpEXTXYZ :=
  {| me := me d; ntypes := ntypes d; typenames := typenames d;
     format_default := format_default d; format_line_user := format_line_user d;
     format := format d; buffer_flag := 0; size_one := size_one d;
     groupbit := groupbit d;
     boxxlo := boxxlo d; boxxhi := boxxhi d; boxylo := boxylo d;
     boxyhi := boxyhi d; boxzlo := boxzlo d; boxzhi := boxzhi d;
     boxxy := boxxy d; boxxz := boxxz d; boxyz := boxyz d;
     buf := buf d; maxsbuf := maxsbuf d; sbuf := sbuf d;
     header_choice := header_choice d; pack_choice := pack_choice d;
     write_choice := write_choice d; fp := fp d |}.

Definition dump_direct : DumpEXTXYZ :=
  init_style orthogonal (unbuffered (fresh_dump 1 11 (-2) 3 0 2 0 0 0)).

(** The frame of the two atoms of [three_atoms] that are in the dump group,
    in the box of [dump_shifted], announced with the count 2. *)
Definition frame_of_three_atoms : string :=
  "2" +:+ newline +:+ "Lattice=" +:+ quote
    +:+ "10 0.0 0.0 0.0 5 0.0 0.0 0.0 2" +:+ quote +:+ " " +:+ newline
    +:+ "1 2 5 3" +:+ newline +:+ "2 4 8 7" +:+ newline.

(** * Properties *)

(** ** Machine integers and subscripts *)

Lemma wrap_int_small z :
  - 2147483648 ≤ z ≤ 2147483647 → wrap_int z = z.
Proof.
  intros Hz. unfold wrap_int.
  rewrite Z.mod_small by lia. lia.
Qed.

Lemma int_add_small a b :
  - 2147483648 ≤ a + b ≤ 2147483647 → int_add a b = a + b.
Proof. apply wrap_int_small. Qed.

Lemma wrap_int_range z : - 2147483648 ≤ wrap_int z ≤ 2147483647.
Proof.
  unfold wrap_int.
  pose proof (Z.mod_pos_bound (z + 2147483648) 4294967296 ltac:(lia)). lia.
Qed.

Lemma at_index_nat {A} (l : list A) (i : nat) :
  at_index l (Z.of_nat i) = l !! i.
Proof.
  unfold at_index. destruct (Z.ltb_spec (Z.of_nat i) 0); [lia|].
  by rewrite Nat2Z.id.
Qed.

Lemma at_index_Some {A} (l : list A) i v :
  at_index l i = Some v → 0 ≤ i < Z.of_nat (length l).
Proof.
  unfold at_index. destruct (Z.ltb_spec i 0); [done|].
  intros Hl%lookup_lt_Some. lia.
Qed.

Lemma at_index_lt {A} (l : list A) i :
  0 ≤ i < Z.of_nat (length l) → ∃ v, at_index l i = Some v.
Proof.
  intros Hi. unfold at_index. destruct (Z.ltb_spec i 0); [lia|].
  apply lookup_lt_is_Some. lia.
Qed.

(** ** The label table *)

Lemma new_table_succ n :
  0 ≤ n → new_table (n + 1) = None :: replicate (Z.to_nat n) None.
Proof.
  intros Hn. unfold new_table.
  replace (Z.to_nat (n + 1)) with (S (Z.to_nat n)) by lia. done.
Qed.

(** The default loop fills the slots from [itype] on with the decimal
    strings of their indices and leaves the slots before [itype] alone. *)
Lemma init_style_loop_fill cnt : ∀ itype pre,
  0 ≤ itype → itype + Z.of_nat cnt ≤ MAXSMALLINT →
  length pre = Z.to_nat itype →
  init_style_loop cnt itype (pre ++ replicate cnt None)
  = pre ++ ((λ t : Z, Some (pretty t)) <$> seqZ itype (Z.of_nat cnt)).
Proof.
  unfold MAXSMALLINT.
  induction cnt as [|cnt IH]; intros itype pre Hi Hmax Hlen.
  - by rewrite seqZ_nil by lia.
  - cbn [init_style_loop replicate]. rewrite int_add_small by lia.
    rewrite <- Hlen, insert_app_r_alt, Nat.sub_diag by lia. cbn [insert list_insert].
    rewrite (cons_middle _ pre), app_assoc.
    rewrite IH by (rewrite ?length_app; simpl; lia).
    rewrite <- app_assoc. f_equal.
    rewrite (seqZ_cons itype) by lia. cbn [fmap list_fmap]. do 3 f_equal; lia.
Qed.

Lemma init_style_typenames domain d :
  typenames (init_style domain d)
  = match typenames d with
    | None => Some (init_style_loop (Z.to_nat (ntypes d)) 1
                      (new_table (int_add (ntypes d) 1)))
    | Some tbl => Some tbl
    end.
Proof.
  unfold init_style.
  destruct (format_line_user d), (typenames d) eqn:Ht; cbn;
    rewrite ?Ht; cbn;
    repeat (match goal with |- context [if ?b then _ else _] => destruct b end);
    cbn; by rewrite ?Ht.
Qed.

Lemma init_style_table domain d :
  0 ≤ ntypes d < MAXSMALLINT → typenames d = None →
  typenames (init_style domain d)
  = Some (None :: ((λ t : Z, Some (pretty t)) <$> seqZ 1 (ntypes d))).
Proof.
  intros Hn Hnone. rewrite init_style_typenames, Hnone. f_equal.
  unfold MAXSMALLINT in Hn.
  rewrite int_add_small, new_table_succ by lia.
  change (None :: replicate (Z.to_nat (ntypes d)) None)
    with ([None] ++ replicate (Z.to_nat (ntypes d)) (@None string)).
  rewrite init_style_loop_fill by (unfold MAXSMALLINT; done || lia).
  by rewrite Z2Nat.id by lia.
Qed.

Lemma label_tail d (l : list (option string)) t :
  typenames d = Some (None :: l) → 1 ≤ t →
  label d t = l !! Z.to_nat (t - 1) ≫= id.
Proof.
  intros Htbl Ht. unfold label. rewrite Htbl. cbn.
  replace t with (Z.of_nat (S (Z.to_nat (t - 1)))) at 1 by lia.
  by rewrite at_index_nat.
Qed.

(** C6. For every type count T >= 1 for which [ntypes + 1] is an [int], the
    default initialisation of [init_style] gives each type code t in 1..T
    the decimal string of t as its label (the table is the slots "1".."T" in
    order, after the unused slot 0), and it leaves a table that already
    exists as it is. *)
Theorem init_style_default_labels domain d :
  1 ≤ ntypes d < MAXSMALLINT →
  (typenames d = None →
     typenames (init_style domain d)
       = Some (None :: ((λ t : Z, Some (pretty t)) <$> seqZ 1 (ntypes d))) ∧
     ∀ t, 1 ≤ t ≤ ntypes d → label (init_style domain d) t = Some (pretty t)) ∧
  (∀ tbl, typenames d = Some tbl →
     typenames (init_style domain d) = Some tbl).
Proof.
  intros HT. split.
  - intros Hnone. pose proof (init_style_table domain d ltac:(lia) Hnone) as Htbl.
    split; [done|]. intros t Ht.
    rewrite (label_tail _ _ _ Htbl) by lia.
    rewrite list_lookup_fmap, lookup_seqZ_lt by lia. cbn.
    do 2 f_equal. lia.
  - intros tbl Htbl. by rewrite init_style_typenames, Htbl.
Qed.

(** The copying loop fills the slots from [itype] on with the arguments of
    the same indices. *)
Lemma modify_param_loop_fill cnt : ∀ itype arg pre,
  0 ≤ itype → itype + Z.of_nat cnt ≤ MAXSMALLINT →
  length pre = Z.to_nat itype →
  (Z.to_nat itype + cnt ≤ length arg)%nat →
  modify_param_loop cnt itype arg (pre ++ replicate cnt None)
  = Some (pre ++ (Some <$> take cnt (drop (Z.to_nat itype) arg))).
Proof.
  unfold MAXSMALLINT.
  induction cnt as [|cnt IH]; intros itype arg pre Hi Hmax Hlen Harg.
  - by rewrite take_0.
  - cbn [modify_param_loop replicate].
    destruct (at_index_lt arg itype ltac:(lia)) as [s Hs]. rewrite Hs.
    cbn [mbind option_bind]. rewrite int_add_small by lia.
    rewrite <- Hlen, insert_app_r_alt, Nat.sub_diag by lia. cbn [insert list_insert].
    rewrite (cons_middle _ pre), app_assoc.
    rewrite IH by (rewrite ?length_app; simpl; lia).
    rewrite <- app_assoc. do 2 f_equal.
    unfold at_index in Hs. destruct (Z.ltb_spec itype 0); [lia|].
    rewrite Hlen, (drop_S _ _ _ Hs). cbn. do 3 f_equal.
    replace (Z.to_nat (itype + 1)) with (S (Z.to_nat itype)) by lia. done.
Qed.

(** C7. When the request holds fewer than [ntypes] labels after the keyword,
    [modify_param] raises the configuration error and the object, its label
    table included, is the one it was given. *)
Theorem modify_param_too_few_labels narg arg d :
  at_index arg 0 = Some "element"%string →
  0 ≤ ntypes d < MAXSMALLINT →
  narg - 1 < ntypes d →
  modify_param narg arg d
  = Throws "Dump modify element names do not match atom types" d.
Proof.
  intros Harg Hn Hfew. unfold modify_param, MAXSMALLINT in *.
  rewrite Harg. cbn.
  rewrite int_add_small by lia.
  destruct (Z.ltb_spec narg (ntypes d + 1)); [done|lia].
Qed.

(** C8. When the request holds at least [ntypes] labels after the keyword,
    [modify_param] returns [ntypes + 1] and the table of the object it leaves
    is built from the request alone: slot t holds the t-th token for every t
    in 1..ntypes, whatever the table was before; no other member changes. *)
Theorem modify_param_replaces_labels narg arg d :
  at_index arg 0 = Some "element"%string →
  0 ≤ ntypes d < MAXSMALLINT →
  narg = Z.of_nat (length arg) →
  ntypes d ≤ narg - 1 →
  ∃ d',
    modify_param narg arg d = Returns (ntypes d + 1) d' ∧
    typenames d'
      = Some (None :: (Some <$> take (Z.to_nat (ntypes d)) (drop 1 arg))) ∧
    (∀ t, 1 ≤ t ≤ ntypes d → label d' t = at_index arg t) ∧
    d' = set_typenames (typenames d') d.
Proof.
  intros Harg Hn Hnarg Hlen. unfold modify_param, MAXSMALLINT in *.
  rewrite Harg. cbn.
  assert (ntypes (match typenames d with
                  | Some _ => set_typenames None d | None => d end)
          = ntypes d) as -> by (by destruct (typenames d)).
  rewrite int_add_small by lia.
  destruct (Z.ltb_spec narg (ntypes d + 1)); [lia|].
  rewrite new_table_succ by lia.
  change (None :: replicate (Z.to_nat (ntypes d)) None)
    with ([None] ++ replicate (Z.to_nat (ntypes d)) (@None string)).
  rewrite modify_param_loop_fill by (unfold MAXSMALLINT; simpl; lia).
  eexists. split; [done|]. split; [by destruct (typenames d)|]. split.
  - intros t Ht.
    rewrite (label_tail _ (Some <$> take (Z.to_nat (ntypes d)) (drop 1 arg)))
      by (done || lia).
    rewrite list_lookup_fmap, lookup_take_lt, lookup_drop by lia.
    replace (1 + Z.to_nat (t - 1))%nat with (Z.to_nat t) by lia.
    unfold at_index. destruct (Z.ltb_spec t 0); [lia|].
    destruct (arg !! Z.to_nat t) eqn:Hs; [done|].
    apply lookup_ge_None in Hs. lia.
  - by destruct (typenames d), d.
Qed.

(** ** The frame header *)

Lemma list_ascii_of_string_app s t :
  list_ascii_of_string (s +:+ t)
  = list_ascii_of_string s ++ list_ascii_of_string t.
Proof. induction s as [|c s IH]; simpl; [done|by f_equal]. Qed.

Lemma line_ends_app s t : line_ends (s +:+ t) = (line_ends s + line_ends t)%nat.
Proof.
  unfold line_ends. by rewrite list_ascii_of_string_app, filter_app, length_app.
Qed.

Lemma pretty_N_go_line_ends x : ∀ s,
  line_ends (pretty_N_go x s) = line_ends s.
Proof.
  induction (N.lt_wf_0 x) as [x _ IH]. intros s.
  destruct (decide (x = 0%N)) as [->|Hx].
  - by rewrite pretty_N_go_0.
  - rewrite pretty_N_go_step by lia.
    rewrite IH by (apply N.div_lt; lia).
    unfold line_ends. cbn [list_ascii_of_string].
    rewrite filter_cons_False; [done|].
    unfold pretty_N_char. by repeat case_match.
Qed.

Lemma pretty_Z_line_ends (n : Z) : line_ends (pretty n) = 0%nat.
Proof.
  unfold pretty, pretty_Z.
  assert (∀ p : positive, line_ends (pretty p) = 0%nat) as Hpos.
  { intros p. unfold pretty, pretty_positive, pretty, pretty_N.
    rewrite decide_False by done. apply pretty_N_go_line_ends. }
  destruct n as [|p|p]; [done|apply Hpos|].
  by rewrite line_ends_app, Hpos.
Qed.

Section Header.

Variable fmt_double : float → string.

Lemma header_binary_fp n d :
  header_binary fmt_double n d
  = set_fp (fp d ++ list_ascii_of_string (pretty n +:+ newline)
              ++ list_ascii_of_string
                   (lattice_line fmt_double (boxxhi d - boxxlo d) (boxyhi d - boxylo d)
                      (boxzhi d - boxzlo d) +:+ newline)) d.
Proof.
  unfold header_binary, emit, set_fp, lattice_line. cbn.
  by rewrite <- (assoc_L (++)).
Qed.

Lemma lattice_line_ends ex ey ez :
  (∀ v, line_ends (fmt_double v) = 0%nat) →
  line_ends (lattice_line fmt_double ex ey ez) = 0%nat.
Proof.
  intros Hfmt. unfold lattice_line. by rewrite !line_ends_app, !Hfmt.
Qed.

(** C5. On the coordinating process ([me = 0]) [write_header n] appends to
    the file the decimal particle count and a line end, then the lattice
    descriptor, whose diagonal entries are the formatted extents
    [hi - lo] of the three axes and whose off-diagonal entries are the
    literal 0.0, and a line end: two lines when no formatted number holds a
    line end.  On any other process it leaves the object, and so the file,
    as it is. *)
Theorem write_header_emits n d h :
  header_choice d = Some h →
  (me d = 0 →
     ∃ d', write_header fmt_double n d = Some d' ∧
       fp d' = fp d
               ++ list_ascii_of_string (pretty n) ++ ["010"%char]
               ++ list_ascii_of_string
                    (lattice_line fmt_double (boxxhi d - boxxlo d) (boxyhi d - boxylo d)
                       (boxzhi d - boxzlo d)) ++ ["010"%char] ∧
       d' = set_fp (fp d') d ∧
       ((∀ v, line_ends (fmt_double v) = 0%nat) →
        line_ends (pretty n) = 0%nat ∧
        line_ends (lattice_line fmt_double (boxxhi d - boxxlo d) (boxyhi d - boxylo d)
                     (boxzhi d - boxzlo d)) = 0%nat)) ∧
  (me d ≠ 0 → write_header fmt_double n d = Some d).
Proof.
  intros Hh. split.
  - intros Hme. unfold write_header. rewrite Hme, Hh. cbn.
    exists (header_binary fmt_double n d). split; [by destruct h|].
    rewrite header_binary_fp. cbn. split; [|split; [done|]].
    + unfold newline. rewrite !list_ascii_of_string_app. cbn.
      by rewrite <- !(assoc_L (++)).
    + intros Hfmt. split; [apply pretty_Z_line_ends|by apply lattice_line_ends].
  - intros Hme. unfold write_header.
    by destruct (Z.eqb_spec (me d) 0).
Qed.

(** C9. The two header functions are the same function of the particle count
    and the object, and what they append is determined by the count and the
    six box bounds: two objects that differ in their tilt factors (or in any
    member other than the bounds and the file) get the same text. *)
Theorem header_variants_agree n d1 d2 :
  fp d1 = fp d2 →
  boxxlo d1 = boxxlo d2 → boxxhi d1 = boxxhi d2 →
  boxylo d1 = boxylo d2 → boxyhi d1 = boxyhi d2 →
  boxzlo d1 = boxzlo d2 → boxzhi d1 = boxzhi d2 →
  header_binary_triclinic fmt_double n d1 = header_binary fmt_double n d1 ∧
  fp (header_binary_triclinic fmt_double n d1)
  = fp (header_binary fmt_double n d2) ∧
  fp (header_binary fmt_double n d2)
  = fp d2 ++ list_ascii_of_string (pretty n +:+ newline)
      ++ list_ascii_of_string
           (lattice_line fmt_double (boxxhi d2 - boxxlo d2) (boxyhi d2 - boxylo d2)
              (boxzhi d2 - boxzlo d2) +:+ newline).
Proof.
  intros Hfp Hxl Hxh Hyl Hyh Hzl Hzh.
  change (header_binary_triclinic fmt_double n d1)
    with (header_binary fmt_double n d1).
  rewrite !header_binary_fp. cbn.
  by rewrite Hfp, Hxl, Hxh, Hyl, Hyh, Hzl, Hzh.
Qed.

End Header.

(** ** Packing *)

Lemma store_mid {A} (pre done : list A) c post m v :
  Z.of_nat (length pre + length done) = m →
  store (pre ++ done ++ c :: post) m v = Some (pre ++ (done ++ [v]) ++ post).
Proof.
  intros <-. unfold store.
  rewrite !length_app. cbn [length].
  destruct (Z.leb_spec 0 (Z.of_nat (length pre + length done))); [|lia].
  destruct (Z.ltb_spec (Z.of_nat (length pre + length done))
              (Z.of_nat (length pre + (length done + S (length post)))));
    [|lia].
  cbn. f_equal. rewrite Nat2Z.id.
  rewrite insert_app_r_alt by lia.
  rewrite insert_app_r_alt by lia.
  replace (length pre + length done - length pre - length done)%nat
    with 0%nat by lia.
  cbn. by rewrite <- (assoc_L (++)).
Qed.

Lemma group_range_0 atom d i : group_range atom d i 0 = [].
Proof. done. Qed.

Lemma group_range_S atom d i cnt :
  group_range atom d i (S cnt)
  = if in_group atom d i then i :: group_range atom d (i + 1) cnt
    else group_range atom d (i + 1) cnt.
Proof.
  unfold group_range. rewrite seqZ_cons by lia.
  replace (Z.pred (Z.of_nat (S cnt))) with (Z.of_nat cnt) by lia.
  replace (Z.succ i) with (i + 1) by lia.
  rewrite filter_cons. destruct (in_group atom d i); by case_decide.
Qed.

Lemma group_range_set_buf atom b d :
  group_range atom (set_buf b d) = group_range atom d.
Proof. done. Qed.

Lemma packed_set_buf atom b d : packed atom (set_buf b d) = packed atom d.
Proof. done. Qed.

Lemma set_buf_set_buf b b' d : set_buf b (set_buf b' d) = set_buf b d.
Proof. done. Qed.

Lemma atom_wf_row atom i :
  atom_wf atom → 0 ≤ i < nlocal atom →
  ∃ mk tg ty x0 x1 x2 rest,
    at_index (mask atom) i = Some mk ∧ at_index (tag atom) i = Some tg ∧
    at_index (type atom) i = Some ty ∧
    at_index (x atom) i = Some (x0 :: x1 :: x2 :: rest).
Proof.
  intros (Hn & Htag & Htype & Hmask & Hx & Hrows) Hi.
  destruct (at_index_lt (mask atom) i ltac:(lia)) as [mk Hmk].
  destruct (at_index_lt (tag atom) i ltac:(lia)) as [tg Htg].
  destruct (at_index_lt (type atom) i ltac:(lia)) as [ty Hty].
  destruct (at_index_lt (x atom) i ltac:(lia)) as [xi Hxi].
  assert (3 ≤ length xi)%nat as Hlen.
  { unfold at_index in Hxi. destruct (i <? 0); [done|].
    eapply Forall_lookup_1 in Hrows; eauto. }
  destruct xi as [|x0 [|x1 [|x2 rest]]]; cbn in Hlen; try lia.
  by exists mk, tg, ty, x0, x1, x2, rest.
Qed.

Section Pack.

Variable atom : Atom.
Hypothesis Hwf : atom_wf atom.

Ltac store_now pre done c :=
  let H := fresh in
  match goal with
  | |- context [store ?b ?m ?v] =>
      eassert (store b m v = Some _) as H
        by (apply (store_mid pre done c); cbn; lia);
      cbn [app] in H; rewrite H; clear H; cbn [mbind option_bind]
  end.

Ltac pack_side rec :=
  try (rewrite ?group_range_set_buf; cbn [buf set_buf]; subst rec;
       rewrite <- ?(assoc_L (++)); cbn [app];
       rewrite ?length_app; cbn [length]; rewrite ?length_app;
       unfold MAXSMALLINT;
       first [done | lia]).

Ltac pack_step Hrow :=
  cbn [pack_loop pack_triclinic_loop];
  destruct Hrow as (mk & tg & ty & x0 & x1 & x2 & rest & Hmk & Htg & Hty & Hxi);
  rewrite Hmk; cbn [mbind option_bind].

Lemma pack_loop_spec cnt : ∀ i m n ids d pre mid post ipre imid ipost,
  0 ≤ i → i + Z.of_nat cnt ≤ nlocal atom →
  buf d = pre ++ mid ++ post → Z.of_nat (length pre) = m →
  length mid = (5 * length (group_range atom d i cnt))%nat →
  Z.of_nat (length (buf d)) ≤ MAXSMALLINT →
  ids_fit ids n ipre imid ipost (length (group_range atom d i cnt)) →
  pack_loop cnt i m n atom ids d
  = Some (set_buf (pre ++ (group_range atom d i cnt ≫= packed atom d) ++ post) d,
          ids_after atom ids ipre d i cnt ipost).
Proof.
  induction cnt as [|cnt IH];
    intros i m n ids d pre mid post ipre imid ipost Hi Hcnt Hbuf Hm Hmid Hcap Hids.
  - unfold ids_after. rewrite group_range_0 in *.
    cbn in *. destruct mid; [|done]. cbn in Hbuf. rewrite <- Hbuf.
    f_equal. f_equal; [by destruct d|].
    unfold ids_after. destruct ids as [a|]; [|done].
    destruct (Hids a eq_refl) as (-> & _ & Himid & _).
    by destruct imid.
  - pose proof (atom_wf_row atom i Hwf ltac:(lia)) as Hrow.
    pack_step Hrow.
    rewrite group_range_S in *. unfold ids_after in *.
    rewrite group_range_S.
    unfold in_group in *. rewrite Hmk in *.
    destruct (Z.land mk (groupbit d) =? 0) eqn:Hbit; cbn [negb] in *.
    + eapply IH; eauto; lia.
    + rewrite Htg, Hty, Hxi. cbn [mbind option_bind].
      change (at_index (x0 :: x1 :: x2 :: rest) 0) with (Some x0).
      change (at_index (x0 :: x1 :: x2 :: rest) 1) with (Some x1).
      change (at_index (x0 :: x1 :: x2 :: rest) 2) with (Some x2).
      cbn [mbind option_bind].
      destruct mid as [|c0 [|c1 [|c2 [|c3 [|c4 mid']]]]]; cbn in Hmid; try lia.
      rewrite Hbuf in *. rewrite !length_app in Hcap. cbn in Hcap.
      unfold MAXSMALLINT in *. cbn [app].
      rewrite (int_add_small m 1), (int_add_small (m + 1) 1),
        (int_add_small (m + 1 + 1) 1), (int_add_small (m + 1 + 1 + 1) 1),
        (int_add_small (m + 1 + 1 + 1 + 1) 1) by lia.
      store_now pre (@nil float) c0.
      store_now pre [double_of_int tg] c1.
      store_now pre [double_of_int tg; double_of_int ty] c2.
      store_now pre [double_of_int tg; double_of_int ty; (x0 - boxxlo d)%float] c3.
      store_now pre [double_of_int tg; double_of_int ty; (x0 - boxxlo d)%float;
                     (x1 - boxylo d)%float] c4.
      set (rec := [double_of_int tg; double_of_int ty; (x0 - boxxlo d)%float;
                   (x1 - boxylo d)%float; (x2 - boxzlo d)%float]).
      assert (packed atom d i = rec) as Hrec.
      { unfold packed, coord. rewrite Htg, Hty, Hxi. done. }
      destruct ids as [a|].
      * destruct (Hids a eq_refl) as (-> & Hn & Himid & Ha).
        destruct imid as [|j0 imid']; [done|].
        rewrite !length_app in Ha. cbn in Ha, Himid. unfold MAXSMALLINT in Ha.
        rewrite int_add_small by lia. cbn [app].
        store_now ipre (@nil Z) j0.
        erewrite (IH (i + 1) (m + 1 + 1 + 1 + 1 + 1) (n + 1) _ _ (pre ++ rec) mid' post
                    (ipre ++ [tg]) imid' ipost);
          [rewrite !group_range_set_buf, packed_set_buf, set_buf_set_buf;
           rewrite bind_cons, Hrec, fmap_cons, Htg; cbn [default];
           by rewrite <- !(assoc_L (++))
          | pack_side rec ..].
        intros a' [= <-]. rewrite <- (assoc_L (++)). cbn [app].
        rewrite !length_app. cbn [length]. rewrite ?length_app.
        rewrite group_range_set_buf.
        unfold MAXSMALLINT. repeat split; (done || lia).
      * erewrite (IH (i + 1) (m + 1 + 1 + 1 + 1 + 1) n None _ (pre ++ rec) mid' post
                    ipre imid ipost);
          [rewrite !group_range_set_buf, packed_set_buf, set_buf_set_buf;
           rewrite bind_cons, Hrec;
           by rewrite <- !(assoc_L (++))
          | pack_side rec ..].
Qed.

Lemma pack_triclinic_loop_spec cnt : ∀ i m n ids d pre mid post ipre imid ipost,
  0 ≤ i → i + Z.of_nat cnt ≤ nlocal atom →
  buf d = pre ++ mid ++ post → Z.of_nat (length pre) = m →
  length mid = (5 * length (group_range atom d i cnt))%nat →
  Z.of_nat (length (buf d)) ≤ MAXSMALLINT →
  ids_fit ids n ipre imid ipost (length (group_range atom d i cnt)) →
  pack_triclinic_loop cnt i m n atom ids d
  = Some (set_buf (pre ++ (group_range atom d i cnt ≫= packed_triclinic atom) ++ post) d,
          ids_after atom ids ipre d i cnt ipost).
Proof.
  induction cnt as [|cnt IH];
    intros i m n ids d pre mid post ipre imid ipost Hi Hcnt Hbuf Hm Hmid Hcap Hids.
  - unfold ids_after. rewrite group_range_0 in *.
    cbn in *. destruct mid; [|done]. cbn in Hbuf. rewrite <- Hbuf.
    f_equal. f_equal; [by destruct d|].
    unfold ids_after. destruct ids as [a|]; [|done].
    destruct (Hids a eq_refl) as (-> & _ & Himid & _).
    by destruct imid.
  - pose proof (atom_wf_row atom i Hwf ltac:(lia)) as Hrow.
    pack_step Hrow.
    rewrite group_range_S in *. unfold ids_after in *.
    rewrite group_range_S.
    unfold in_group in *. rewrite Hmk in *.
    destruct (Z.land mk (groupbit d) =? 0) eqn:Hbit; cbn [negb] in *.
    + eapply IH; eauto; lia.
    + rewrite Htg, Hty, Hxi. cbn [mbind option_bind].
      change (at_index (x0 :: x1 :: x2 :: rest) 0) with (Some x0).
      change (at_index (x0 :: x1 :: x2 :: rest) 1) with (Some x1).
      change (at_index (x0 :: x1 :: x2 :: rest) 2) with (Some x2).
      cbn [mbind option_bind].
      destruct mid as [|c0 [|c1 [|c2 [|c3 [|c4 mid']]]]]; cbn in Hmid; try lia.
      rewrite Hbuf in *. rewrite !length_app in Hcap. cbn in Hcap.
      unfold MAXSMALLINT in *. cbn [app].
      rewrite (int_add_small m 1), (int_add_small (m + 1) 1),
        (int_add_small (m + 1 + 1) 1), (int_add_small (m + 1 + 1 + 1) 1),
        (int_add_small (m + 1 + 1 + 1 + 1) 1) by lia.
      store_now pre (@nil float) c0.
      store_now pre [double_of_int tg] c1.
      store_now pre [double_of_int tg; double_of_int ty] c2.
      store_now pre [double_of_int tg; double_of_int ty; x0] c3.
      store_now pre [double_of_int tg; double_of_int ty; x0; x1] c4.
      set (rec := [double_of_int tg; double_of_int ty; x0; x1; x2]).
      assert (packed_triclinic atom i = rec) as Hrec.
      { unfold packed_triclinic, coord. rewrite Htg, Hty, Hxi. done. }
      destruct ids as [a|].
      * destruct (Hids a eq_refl) as (-> & Hn & Himid & Ha).
        destruct imid as [|j0 imid']; [done|].
        rewrite !length_app in Ha. cbn in Ha, Himid. unfold MAXSMALLINT in Ha.
        rewrite int_add_small by lia. cbn [app].
        store_now ipre (@nil Z) j0.
        erewrite (IH (i + 1) (m + 1 + 1 + 1 + 1 + 1) (n + 1) _ _ (pre ++ rec) mid' post
                    (ipre ++ [tg]) imid' ipost);
          [rewrite !group_range_set_buf, set_buf_set_buf;
           rewrite bind_cons, Hrec, fmap_cons, Htg; cbn [default];
           by rewrite <- !(assoc_L (++))
          | pack_side rec ..].
        intros a' [= <-]. rewrite <- (assoc_L (++)). cbn [app].
        rewrite !length_app. cbn [length]. rewrite ?length_app.
        rewrite group_range_set_buf.
        unfold MAXSMALLINT. repeat split; (done || lia).
      * erewrite (IH (i + 1) (m + 1 + 1 + 1 + 1 + 1) n None _ (pre ++ rec) mid' post
                    ipre imid ipost);
          [rewrite !group_range_set_buf, set_buf_set_buf;
           rewrite bind_cons, Hrec;
           by rewrite <- !(assoc_L (++))
          | pack_side rec ..].
Qed.

Lemma lookup_records (f : Z → list float) (l : list Z) post : ∀ k i j,
  (∀ i, length (f i) = 5%nat) →
  l !! k = Some i → (j < 5)%nat →
  ((l ≫= f) ++ post) !! (5 * k + j)%nat = f i !! j.
Proof.
  induction l as [|i' l IH]; intros k i j Hf Hk Hj; [done|].
  rewrite bind_cons, <- (assoc_L (++)).
  destruct k as [|k]; cbn in Hk.
  - injection Hk as ->. rewrite lookup_app_l by (rewrite Hf; lia). done.
  - rewrite lookup_app_r by (rewrite Hf; lia). rewrite Hf.
    replace (5 * S k + j - 5)%nat with (5 * k + j)%nat by lia.
    by apply IH.
Qed.

Lemma group_atoms_range d :
  group_atoms atom d = group_range atom d 0 (Z.to_nat (nlocal atom)).
Proof.
  unfold group_atoms, group_range. destruct Hwf as [Hn _].
  by rewrite Z2Nat.id.
Qed.

Lemma slot_index k j :
  5 * Z.of_nat k + Z.of_nat j = Z.of_nat (5 * k + j).
Proof. lia. Qed.

(** C4. With room in [buf] for five values per atom of the group (and in
    [ids], when given, for one), both pack functions return, and the record
    of the k-th atom of the group occupies the slots 5k..5k+4: the
    identifier and the type code converted to double, then for [pack] each
    coordinate minus the lower box bound of its axis and for
    [pack_triclinic] each coordinate as it is. *)
Theorem pack_record_slots ids d :
  Z.of_nat (5 * length (group_atoms atom d)) ≤ Z.of_nat (length (buf d)) →
  Z.of_nat (length (buf d)) ≤ MAXSMALLINT →
  (∀ a, ids = Some a →
     (length (group_atoms atom d) ≤ length a)%nat ∧
     Z.of_nat (length a) ≤ MAXSMALLINT) →
  ∃ d1 ids1 d2 ids2,
    pack atom ids d = Some (d1, ids1) ∧
    pack_triclinic atom ids d = Some (d2, ids2) ∧
    d1 = set_buf (buf d1) d ∧ d2 = set_buf (buf d2) d ∧
    ∀ k i tg ty x0 x1 x2 rest,
      group_atoms atom d !! k = Some i →
      at_index (tag atom) i = Some tg →
      at_index (type atom) i = Some ty →
      at_index (x atom) i = Some (x0 :: x1 :: x2 :: rest) →
      let m := 5 * Z.of_nat k in
      (at_index (buf d1) m = Some (double_of_int tg) ∧
       at_index (buf d1) (m + 1) = Some (double_of_int ty) ∧
       at_index (buf d1) (m + 2) = Some (x0 - boxxlo d)%float ∧
       at_index (buf d1) (m + 3) = Some (x1 - boxylo d)%float ∧
       at_index (buf d1) (m + 4) = Some (x2 - boxzlo d)%float) ∧
      (at_index (buf d2) m = Some (double_of_int tg) ∧
       at_index (buf d2) (m + 1) = Some (double_of_int ty) ∧
       at_index (buf d2) (m + 2) = Some x0 ∧
       at_index (buf d2) (m + 3) = Some x1 ∧
       at_index (buf d2) (m + 4) = Some x2).
Proof.
  intros Hroom Hcap Hids.
  set (K := length (group_atoms atom d)) in *.
  assert (ids_fit ids 0 [] (take K (default [] ids)) (drop K (default [] ids))
            (length (group_range atom d 0 (Z.to_nat (nlocal atom))))) as Hfit.
  { intros a ->. destruct (Hids a eq_refl) as [HK Ha]. cbn.
    rewrite take_drop, <- group_atoms_range, length_take. fold K.
    repeat split; (done || lia). }
  destruct Hwf as [Hn _].
  assert (buf d = [] ++ take (5 * K) (buf d) ++ drop (5 * K) (buf d)) as Hbuf
    by (by rewrite take_drop).
  assert (length (take (5 * K) (buf d))
          = (5 * length (group_range atom d 0 (Z.to_nat (nlocal atom))))%nat)
    as Hmid by (rewrite <- group_atoms_range, length_take; fold K; lia).
  eexists _, _, _, _. unfold pack, pack_triclinic.
  erewrite pack_loop_spec, pack_triclinic_loop_spec; eauto; try lia.
  split; [done|]. split; [done|]. split; [done|]. split; [done|].
  rewrite <- group_atoms_range. cbn [buf set_buf app].
  intros k i tg ty x0 x1 x2 rest Hk Htg Hty Hxi.
  assert (packed atom d i
          = [double_of_int tg; double_of_int ty; (x0 - boxxlo d)%float;
             (x1 - boxylo d)%float; (x2 - boxzlo d)%float]) as Hrec
    by (unfold packed, coord; by rewrite Htg, Hty, Hxi).
  assert (packed_triclinic atom i
          = [double_of_int tg; double_of_int ty; x0; x1; x2]) as Hrec'
    by (unfold packed_triclinic, coord; by rewrite Htg, Hty, Hxi).
  replace (5 * Z.of_nat k) with (5 * Z.of_nat k + Z.of_nat 0) at 1 6 by lia.
  change 1 with (Z.of_nat 1). change 2 with (Z.of_nat 2).
  change 3 with (Z.of_nat 3). change 4 with (Z.of_nat 4).
  rewrite !slot_index, !at_index_nat.
  rewrite !(lookup_records (packed atom d) _ _ k i) by (done || lia).
  rewrite !(lookup_records (packed_triclinic atom) _ _ k i) by (done || lia).
  rewrite Hrec, Hrec'. done.
Qed.

End Pack.

(** ** Character buffers *)

Lemma length_list_ascii_of_string s :
  length (list_ascii_of_string s) = String.length s.
Proof. induction s as [|c s IH]; simpl; [done|by f_equal]. Qed.

Lemma store_Some {A} (a : list A) i v a' :
  store a i v = Some a' →
  0 ≤ i < Z.of_nat (length a) ∧ a' = <[Z.to_nat i := v]> a.
Proof.
  unfold store.
  destruct (Z.leb_spec 0 i), (Z.ltb_spec i (Z.of_nat (length a)));
    cbn; intros [= <-]; split; (done || lia).
Qed.

Lemma store_None {A} (a : list A) i v :
  store a i v = None → i < 0 ∨ Z.of_nat (length a) ≤ i.
Proof.
  unfold store.
  destruct (Z.leb_spec 0 i), (Z.ltb_spec i (Z.of_nat (length a)));
    cbn; intros; (done || lia).
Qed.

(** Storing characters in range rewrites exactly the cells they cover. *)
Lemma poke_in_range cs : ∀ cells pos,
  0 ≤ pos → pos + Z.of_nat (length cs) ≤ Z.of_nat (length cells) →
  poke cells pos cs
  = Some (take (Z.to_nat pos) cells ++ (Some <$> cs)
            ++ drop (Z.to_nat pos + length cs) cells).
Proof.
  induction cs as [|c cs IH]; intros cells pos Hpos Hfit.
  - cbn. by rewrite Nat.add_0_r, take_drop.
  - cbn [poke length] in *. unfold store.
    destruct (Z.leb_spec 0 pos); [|lia].
    destruct (Z.ltb_spec pos (Z.of_nat (length cells))); [|lia].
    cbn. rewrite IH by (rewrite ?length_insert; lia). f_equal.
    replace (Z.to_nat (pos + 1)) with (S (Z.to_nat pos)) by lia.
    destruct (lookup_lt_is_Some_2 cells (Z.to_nat pos) ltac:(lia)) as [old Hold].
    rewrite (take_S_r _ _ (Some c)) by (apply list_lookup_insert_eq; lia).
    rewrite take_insert_ge by lia.
    rewrite drop_insert_lt by lia.
    rewrite <- (assoc_L (++)). cbn.
    by replace (Z.to_nat pos + S (length cs))%nat
      with (S (Z.to_nat pos + length cs)) by lia.
Qed.

(** Storing at least one character succeeds only in range. *)
Lemma poke_Some cs : ∀ cells pos cells',
  cs ≠ [] → poke cells pos cs = Some cells' →
  0 ≤ pos ∧ pos + Z.of_nat (length cs) ≤ Z.of_nat (length cells).
Proof.
  induction cs as [|c cs IH]; intros cells pos cells' Hne Hpoke; [done|].
  cbn [poke length] in *.
  destruct (store cells pos (Some c)) as [c1|] eqn:Hst; [|done].
  apply store_Some in Hst as [Hpos ->]. cbn in Hpoke.
  destruct cs as [|c' cs]; [cbn; lia|].
  apply IH in Hpoke; [|done]. rewrite length_insert in Hpoke.
  cbn [length] in *. lia.
Qed.

Lemma sprintf_at_in_range cells offset text :
  0 ≤ offset →
  offset + Z.of_nat (String.length text) + 1 ≤ Z.of_nat (length cells) →
  sprintf_at cells offset text
  = Some (take (Z.to_nat offset) cells
            ++ (Some <$> list_ascii_of_string text)
            ++ Some zero
               :: drop (Z.to_nat offset + String.length text + 1) cells).
Proof.
  intros Hpos Hfit. unfold sprintf_at.
  rewrite poke_in_range
    by (rewrite ?length_app, ?length_list_ascii_of_string; cbn; lia).
  rewrite length_app, length_list_ascii_of_string, fmap_app. cbn [length].
  rewrite <- !(assoc_L (++)), Nat.add_assoc. done.
Qed.

Lemma sprintf_at_Some cells offset text cells' :
  sprintf_at cells offset text = Some cells' →
  0 ≤ offset ∧
  offset + Z.of_nat (String.length text) + 1 ≤ Z.of_nat (length cells).
Proof.
  unfold sprintf_at. intros Hpoke.
  apply poke_Some in Hpoke; [|by destruct (list_ascii_of_string text)].
  rewrite length_app, length_list_ascii_of_string in Hpoke. cbn in Hpoke. lia.
Qed.

(** [sprintf] past the end of the block is undefined. *)
Lemma sprintf_at_overflow cells offset text :
  0 ≤ offset →
  Z.of_nat (length cells) < offset + Z.of_nat (String.length text) + 1 →
  sprintf_at cells offset text = None.
Proof.
  intros Hpos Hover.
  destruct (sprintf_at cells offset text) as [cells'|] eqn:Hs; [|done].
  apply sprintf_at_Some in Hs. lia.
Qed.

Lemma length_grow {A} (a : list (option A)) n :
  length (grow a n) = Z.to_nat n.
Proof. unfold grow. rewrite length_app, length_take, length_replicate. lia. Qed.

Lemma take_grow {A} (a : list (option A)) n k :
  (k ≤ length a)%nat → Z.of_nat (length a) ≤ n →
  take k (grow a n) = take k a.
Proof.
  intros Hk Hn. unfold grow.
  rewrite take_app_le by (rewrite length_take; lia).
  rewrite take_take. f_equal. lia.
Qed.

Lemma read_cells_Some cs : ∀ rest,
  read_cells ((Some <$> cs) ++ rest) (length cs) = Some cs.
Proof.
  induction cs as [|c cs IH]; intros rest; [done|].
  rewrite fmap_cons. cbn [app length read_cells]. by rewrite IH.
Qed.

Lemma read_cells_take cs : ∀ cells,
  take (length cs) cells = Some <$> cs → read_cells cells (length cs) = Some cs.
Proof.
  intros cells Htake. rewrite <- (take_drop (length cs) cells), Htake.
  apply read_cells_Some.
Qed.

(** ** Formatting the records *)

Lemma text_of_cons t ts :
  text_of (t :: ts) = list_ascii_of_string t ++ text_of ts.
Proof. done. Qed.

Lemma text_of_app ts1 ts2 : text_of (ts1 ++ ts2) = text_of ts1 ++ text_of ts2.
Proof. unfold text_of. apply bind_app. Qed.

Lemma total_length_cons t ts :
  total_length (t :: ts) = Z.of_nat (String.length t) + total_length ts.
Proof.
  unfold total_length.
  rewrite text_of_cons, length_app, length_list_ascii_of_string. lia.
Qed.

Lemma total_length_nonneg ts : 0 ≤ total_length ts.
Proof. unfold total_length. lia. Qed.

Lemma total_length_app ts1 ts2 :
  total_length (ts1 ++ ts2) = total_length ts1 + total_length ts2.
Proof. unfold total_length. rewrite text_of_app, length_app. lia. Qed.

Lemma ensure_line_Some offset d d1 :
  sbuf_wf d → ensure_line offset d = Some d1 →
  ∃ cap cells,
    d1 = set_sbuf cap cells d ∧
    Z.of_nat (length cells) = cap ∧ cap ≤ MAXSMALLINT ∧
    ((cap = maxsbuf d ∧ int_add offset ONELINE ≤ cap) ∨
     (cap = maxsbuf d + DELTA ∧ maxsbuf d < int_add offset ONELINE)) ∧
    (∀ k, (k ≤ length (sbuf d))%nat → take k cells = take k (sbuf d)).
Proof.
  intros [Hlen Hmax] Hens. unfold ensure_line in Hens.
  destruct (Z.gtb_spec (int_add offset ONELINE) (maxsbuf d)) as [Hg|Hg].
  - destruct (Z.gtb_spec (maxsbuf d + DELTA) MAXSMALLINT) as [Hc|Hc]; [done|].
    injection Hens as <-. unfold MAXSMALLINT, DELTA in *.
    rewrite int_add_small by lia.
    eexists _, _. split; [done|]. rewrite length_grow.
    split; [lia|]. split; [lia|]. split; [right; lia|].
    intros k Hk. apply take_grow; lia.
  - injection Hens as <-. exists (maxsbuf d), (sbuf d).
    split; [by destruct d|]. split; [done|]. split; [done|].
    split; [left; lia|done].
Qed.

Lemma ensure_line_None offset d :
  ensure_line offset d = None →
  maxsbuf d < int_add offset ONELINE ∧ MAXSMALLINT < maxsbuf d + DELTA.
Proof.
  unfold ensure_line.
  destruct (Z.gtb_spec (int_add offset ONELINE) (maxsbuf d)) as [Hg|Hg];
    [|done].
  by destruct (Z.gtb_spec (maxsbuf d + DELTA) MAXSMALLINT).
Qed.

Section Convert.

Variable c_printf : string → string → float → float → float → string.
Variable mybuf : list float.

Lemma record_line_set_sbuf m cap cells d :
  record_line c_printf m mybuf (set_sbuf cap cells d)
  = record_line c_printf m mybuf d.
Proof. done. Qed.

Lemma record_lines_set_sbuf cnt : ∀ m cap cells d,
  record_lines c_printf mybuf cnt m (set_sbuf cap cells d) = record_lines c_printf mybuf cnt m d.
Proof.
  induction cnt as [|cnt IH]; intros m cap cells d; [done|].
  cbn [record_lines]. by rewrite record_line_set_sbuf, IH.
Qed.

Lemma set_sbuf_set_sbuf cap cells cap' cells' d :
  set_sbuf cap cells (set_sbuf cap' cells' d) = set_sbuf cap cells d.
Proof. done. Qed.

(** What a run of the loop that does not end in [return -1] leaves: every
    record was formatted, the returned offset is the length of the text, and
    the buffer holds the text after what it held below the initial
    offset. *)
Lemma convert_string_loop_content cnt : ∀ m offset d pre r d',
  sbuf_wf d →
  Z.of_nat (length pre) = offset →
  take (length pre) (sbuf d) = Some <$> pre →
  convert_string_loop c_printf cnt m offset mybuf d = Some (r, d') → r ≠ -1 →
  ∃ ts,
    record_lines c_printf mybuf cnt m d = Some ts ∧
    r = offset + total_length ts ∧
    r ≤ maxsbuf d' ∧
    sbuf_wf d' ∧
    take (length (pre ++ text_of ts)) (sbuf d') = Some <$> (pre ++ text_of ts) ∧
    (∃ i, 0 ≤ i ∧ maxsbuf d' = maxsbuf d + i * DELTA) ∧
    d' = set_sbuf (maxsbuf d') (sbuf d') d.
Proof.
  induction cnt as [|cnt IH]; intros m offset d pre r d' Hwf Hoff Hpre Hrun Hr.
  - cbn in Hrun. injection Hrun as <- <-. exists [].
    change (text_of []) with (@nil ascii). rewrite (right_id_L [] (++)).
    unfold total_length. cbn [text_of length].
    split; [done|]. split; [cbn; lia|]. split; [|split; [done|]].
    + apply (f_equal length) in Hpre. rewrite length_take, length_fmap in Hpre.
      destruct Hwf as [Hlen _]. lia.
    + split; [done|]. split; [exists 0; lia|]. by destruct d.
  - cbn [convert_string_loop] in Hrun.
    destruct (ensure_line offset d) as [d1|] eqn:Hens;
      [|injection Hrun as <- <-; done].
    destruct (ensure_line_Some _ _ _ Hwf Hens)
      as (cap & cells1 & -> & Hlen1 & Hmax1 & Hcap & Htake).
    assert (length pre ≤ length (sbuf d))%nat as Hle.
    { apply (f_equal length) in Hpre. rewrite length_take, length_fmap in Hpre.
      lia. }
    rewrite record_line_set_sbuf in Hrun.
    cbn [sbuf maxsbuf size_one set_sbuf] in Hrun.
    destruct (record_line c_printf m mybuf d) as [text|] eqn:Hline; [|done].
    cbn [mbind option_bind] in Hrun.
    destruct (sprintf_at cells1 offset text) as [cells|] eqn:Hcells; [|done].
    cbn [mbind option_bind] in Hrun.
    pose proof (sprintf_at_Some _ _ _ _ Hcells) as [Hpos Hfit].
    rewrite sprintf_at_in_range in Hcells by done. injection Hcells as <-.
    unfold MAXSMALLINT in *.
    rewrite (int_add_small offset) in Hrun by lia.
    set (chars := list_ascii_of_string text) in *.
    assert (Z.to_nat offset = length pre) as Hoff' by lia.
    rewrite Hoff' in Hrun.
    rewrite Htake, Hpre in Hrun by done.
    rewrite set_sbuf_set_sbuf in Hrun.
    eapply (IH _ _ _ (pre ++ chars)) in Hrun as
      (ts & Hts & -> & Hr' & Hwf' & Hbuf & (i & Hi & Hmax') & Hd'); [| | | |done].
    + exists (text :: ts).
      rewrite record_lines_set_sbuf in Hts.
      cbn [record_lines]. rewrite Hline. cbn [mbind option_bind].
      rewrite Hts. cbn [mbind option_bind].
      rewrite total_length_cons, text_of_cons.
      rewrite <- (assoc_L (++)) in Hbuf.
      cbn [maxsbuf set_sbuf] in Hmax'.
      split; [done|]. split; [lia|]. split; [done|]. split; [done|].
      split; [done|]. split; [|by rewrite Hd'].
      destruct Hcap as [[-> _]|[-> _]]; [exists i|exists (i + 1)]; lia.
    + split; cbn [sbuf maxsbuf set_sbuf]; [|done].
      rewrite !length_app, !length_fmap. cbn [length].
      rewrite length_drop. unfold chars.
      rewrite length_list_ascii_of_string. lia.
    + rewrite length_app. unfold chars.
      rewrite length_list_ascii_of_string. lia.
    + cbn [sbuf set_sbuf]. rewrite (assoc_L (++)), <- fmap_app.
      rewrite take_app_length'; [done|]. by rewrite length_fmap.
Qed.

(** One iteration, case by case. *)
Lemma convert_string_loop_refused cnt m offset d :
  ensure_line offset d = None →
  convert_string_loop c_printf (S cnt) m offset mybuf d = Some (-1, d).
Proof. intros Hens. cbn [convert_string_loop]. by rewrite Hens. Qed.

Lemma convert_string_loop_formats cnt m offset d cap cells text :
  ensure_line offset d = Some (set_sbuf cap cells d) →
  record_line c_printf m mybuf d = Some text →
  0 ≤ offset →
  offset + Z.of_nat (String.length text) + 1 ≤ Z.of_nat (length cells) →
  Z.of_nat (length cells) ≤ MAXSMALLINT →
  convert_string_loop c_printf (S cnt) m offset mybuf d
  = convert_string_loop c_printf cnt (int_add m (size_one d))
      (offset + Z.of_nat (String.length text)) mybuf
      (set_sbuf cap
         (take (Z.to_nat offset) cells
            ++ (Some <$> list_ascii_of_string text)
            ++ Some zero
               :: drop (Z.to_nat offset + String.length text + 1) cells) d).
Proof.
  intros Hens Hline Hpos Hfit Hmax. cbn [convert_string_loop].
  rewrite Hens, record_line_set_sbuf, Hline. cbn [mbind option_bind].
  cbn [sbuf maxsbuf size_one set_sbuf].
  rewrite sprintf_at_in_range by done. cbn [mbind option_bind].
  unfold MAXSMALLINT in *. rewrite (int_add_small offset) by lia. done.
Qed.

Lemma convert_string_loop_overflows cnt m offset d cap cells text :
  ensure_line offset d = Some (set_sbuf cap cells d) →
  record_line c_printf m mybuf d = Some text →
  0 ≤ offset →
  Z.of_nat (length cells) < offset + Z.of_nat (String.length text) + 1 →
  convert_string_loop c_printf (S cnt) m offset mybuf d = None.
Proof.
  intros Hens Hline Hpos Hover. cbn [convert_string_loop].
  rewrite Hens, record_line_set_sbuf, Hline. cbn [mbind option_bind].
  cbn [sbuf set_sbuf]. by rewrite sprintf_at_overflow.
Qed.

Lemma advance_S k m stride :
  advance (S k) m stride = advance k (int_add m stride) stride.
Proof. unfold advance. by rewrite Nat.iter_succ_r. Qed.

Lemma ensure_line_config offset d d1 :
  ensure_line offset d = Some d1 → ∃ cap cells, d1 = set_sbuf cap cells d.
Proof.
  unfold ensure_line. intros Hens.
  destruct (int_add offset ONELINE >? maxsbuf d).
  - destruct (maxsbuf d + DELTA >? MAXSMALLINT); [done|].
    injection Hens as <-. by eexists _, _.
  - injection Hens as <-. exists (maxsbuf d), (sbuf d). by destruct d.
Qed.

(** A run over [k + j] records that gets through its first [k] records
    continues from the state they leave. *)
Lemma convert_string_loop_add k : ∀ j m offset d o dk,
  convert_string_loop c_printf k m offset mybuf d = Some (o, dk) → o ≠ -1 →
  convert_string_loop c_printf (k + j) m offset mybuf d
  = convert_string_loop c_printf j (advance k m (size_one d)) o mybuf dk.
Proof.
  induction k as [|k IH]; intros j m offset d o dk Hrun Ho.
  - cbn in Hrun. by injection Hrun as <- <-.
  - cbn [convert_string_loop Nat.add] in *.
    destruct (ensure_line offset d) as [d1|] eqn:Hens;
      [|by injection Hrun as <- <-].
    destruct (ensure_line_config _ _ _ Hens) as (cap & cells1 & ->).
    rewrite record_line_set_sbuf in *.
    destruct (record_line c_printf m mybuf d) as [text|]; [|done].
    cbn [mbind option_bind] in *.
    destruct (sprintf_at _ offset text) as [cells|]; [|done].
    cbn [mbind option_bind] in *.
    rewrite (IH _ _ _ _ _ _ Hrun Ho). by rewrite advance_S.
Qed.

(** The line-by-line path appends the texts of the records in order. *)
Lemma emit_nil d : emit [] d = d.
Proof. unfold emit. rewrite (right_id_L [] (++)). by destruct d. Qed.

Lemma emit_emit a b d : emit a (emit b d) = emit (b ++ a) d.
Proof. unfold emit. cbn. by rewrite <- (assoc_L (++)). Qed.

Lemma record_lines_emit cnt : ∀ m cs d,
  record_lines c_printf mybuf cnt m (emit cs d) = record_lines c_printf mybuf cnt m d.
Proof.
  induction cnt as [|cnt IH]; intros m cs d; [done|].
  cbn [record_lines].
  change (record_line c_printf m mybuf (emit cs d))
    with (record_line c_printf m mybuf d).
  change (size_one (emit cs d)) with (size_one d). by rewrite IH.
Qed.

Lemma write_lines_loop_spec cnt : ∀ m d,
  write_lines_loop c_printf cnt m mybuf d
  = ts ← record_lines c_printf mybuf cnt m d; Some (emit (text_of ts) d).
Proof.
  induction cnt as [|cnt IH]; intros m d.
  - cbn. by rewrite emit_nil.
  - cbn [write_lines_loop record_lines].
    destruct (record_line c_printf m mybuf d) as [t|]; [|done].
    cbn [mbind option_bind]. rewrite IH, record_lines_emit.
    change (size_one (emit (list_ascii_of_string t) d)) with (size_one d).
    destruct (record_lines c_printf mybuf cnt (int_add m (size_one d)) d) as [ts|]; [|done].
    cbn [mbind option_bind]. by rewrite emit_emit, text_of_cons.
Qed.

(** The same for the whole call. *)
Lemma convert_string_content n d r d' :
  sbuf_wf d →
  convert_string c_printf n mybuf d = Some (r, d') → r ≠ -1 →
  ∃ ts,
    record_lines c_printf mybuf (Z.to_nat n) 0 d = Some ts ∧
    r = total_length ts ∧
    r ≤ maxsbuf d' ∧
    sbuf_wf d' ∧
    take (length (text_of ts)) (sbuf d') = Some <$> text_of ts ∧
    read_cells (sbuf d') (Z.to_nat r) = Some (text_of ts) ∧
    (∃ i, 0 ≤ i ∧ maxsbuf d' = maxsbuf d + i * DELTA) ∧
    d' = set_sbuf (maxsbuf d') (sbuf d') d.
Proof.
  intros Hwf Hrun Hr. unfold convert_string in Hrun.
  eapply (convert_string_loop_content _ _ _ _ []) in Hrun
    as (ts & Hts & -> & Hle & Hwf' & Hbuf & Hcap & Hd'); [|done..].
  exists ts. cbn [app] in Hbuf. rewrite Z.add_0_l in *.
  do 5 (split; [done|]). split; [|done].
  unfold total_length. rewrite Nat2Z.id. by apply read_cells_take.
Qed.

(** C1. Whenever [convert_string] formats a batch without reporting -1, the
    returned offset is the length of the text that [write_lines] appends to
    the file for the same batch, the first [offset] cells of the buffer hold
    exactly that text, and writing them out with [write_string] leaves in the
    file the same bytes as [write_lines] does. *)
Theorem convert_string_matches_write_lines n d r d' :
  sbuf_wf d →
  convert_string c_printf n mybuf d = Some (r, d') → r ≠ -1 →
  ∃ ts,
    record_lines c_printf mybuf (Z.to_nat n) 0 d = Some ts ∧
    r = total_length ts ∧
    read_cells (sbuf d') (Z.to_nat r) = Some (text_of ts) ∧
    write_lines c_printf n (Doubles mybuf) d = Some (emit (text_of ts) d) ∧
    write_string r (Chars (sbuf d')) d' = Some (emit (text_of ts) d') ∧
    fp (emit (text_of ts) d') = fp (emit (text_of ts) d).
Proof.
  intros Hwf Hrun Hr.
  destruct (convert_string_content _ _ _ _ Hwf Hrun Hr)
    as (ts & Hts & -> & _ & _ & _ & Hread & _ & Hd').
  exists ts. split; [done|]. split; [lia|]. split; [done|].
  split; [|split].
  - unfold write_lines. by rewrite write_lines_loop_spec, Hts.
  - unfold write_string.
    destruct (Z.ltb_spec (total_length ts) 0);
      [pose proof (total_length_nonneg ts); lia|].
    by rewrite Hread.
  - by rewrite Hd'.
Qed.

(** C2. When, after [k] records of a call, the next line needs the buffer to
    grow and the grown capacity would exceed [MAXSMALLINT], the call returns
    -1 and the object it leaves is the one those [k] records left: the
    capacity is unchanged and the buffer still begins with their text. *)
Theorem convert_string_ceiling n k d o dk :
  sbuf_wf d →
  0 ≤ k < n →
  convert_string c_printf k mybuf d = Some (o, dk) → o ≠ -1 →
  maxsbuf dk < int_add o ONELINE →
  MAXSMALLINT < maxsbuf dk + DELTA →
  convert_string c_printf n mybuf d = Some (-1, dk) ∧
  ∃ ts,
    record_lines c_printf mybuf (Z.to_nat k) 0 d = Some ts ∧
    o = total_length ts ∧
    read_cells (sbuf dk) (Z.to_nat o) = Some (text_of ts) ∧
    dk = set_sbuf (maxsbuf dk) (sbuf dk) d.
Proof.
  intros Hwf Hk Hrun Ho Hgrow Hceil. split.
  - unfold convert_string in *.
    replace (Z.to_nat n) with (Z.to_nat k + S (Z.to_nat (n - k - 1)))%nat by lia.
    rewrite (convert_string_loop_add _ _ _ _ _ _ _ Hrun Ho).
    apply convert_string_loop_refused. unfold ensure_line.
    destruct (Z.gtb_spec (int_add o ONELINE) (maxsbuf dk)); [|lia].
    by destruct (Z.gtb_spec (maxsbuf dk + DELTA) MAXSMALLINT); [|lia].
  - destruct (convert_string_content _ _ _ _ Hwf Hrun Ho)
      as (ts & Hts & -> & _ & _ & _ & Hread & _ & Hd').
    by exists ts.
Qed.

(** ** Runs that stay inside the buffer *)

Lemma sbuf_aligned_room d :
  sbuf_wf d → sbuf_aligned d → maxsbuf d + ONELINE ≤ MAXSMALLINT.
Proof.
  unfold sbuf_wf, sbuf_aligned, MAXSMALLINT, DELTA, ONELINE.
  intros [Hlen Hmax] Hal.
  pose proof (Z.div_mod (maxsbuf d) 1048576 ltac:(lia)).
  pose proof (Z.mod_pos_bound (maxsbuf d) 1048576 ltac:(lia)).
  assert (maxsbuf d `div` 1048576 ≤ 2047) by lia. lia.
Qed.

Lemma sbuf_aligned_step d i :
  sbuf_aligned d → (maxsbuf d + i * DELTA) mod DELTA + ONELINE < DELTA.
Proof. unfold sbuf_aligned. by rewrite Z_mod_plus_full. Qed.

Lemma length_written (cells : list (option ascii)) offset text :
  0 ≤ offset →
  offset + Z.of_nat (String.length text) + 1 ≤ Z.of_nat (length cells) →
  length (take (Z.to_nat offset) cells
            ++ (Some <$> list_ascii_of_string text)
            ++ Some zero
               :: drop (Z.to_nat offset + String.length text + 1) cells)
  = length cells.
Proof.
  intros Hpos Hfit.
  rewrite !length_app, length_take, length_fmap. cbn [length].
  rewrite length_drop, length_list_ascii_of_string. lia.
Qed.

Lemma record_lines_S cnt m d ts :
  record_lines c_printf mybuf (S cnt) m d = Some ts →
  ∃ t ts', ts = t :: ts' ∧ record_line c_printf m mybuf d = Some t ∧
           record_lines c_printf mybuf cnt (int_add m (size_one d)) d = Some ts'.
Proof.
  cbn [record_lines]. intros Hts.
  destruct (record_line c_printf m mybuf d) as [t|]; [|done].
  cbn [mbind option_bind] in Hts.
  destruct (record_lines c_printf mybuf cnt _ d) as [ts'|]; [|done].
  injection Hts as <-. by exists t, ts'.
Qed.

(** With lines that fit and an aligned capacity no store leaves the buffer:
    the loop returns. *)
Lemma convert_string_loop_defined cnt : ∀ m offset d ts,
  sbuf_wf d → sbuf_aligned d → 0 ≤ offset ≤ maxsbuf d →
  record_lines c_printf mybuf cnt m d = Some ts → lines_fit ts →
  ∃ r d', convert_string_loop c_printf cnt m offset mybuf d = Some (r, d').
Proof.
  induction cnt as [|cnt IH]; intros m offset d ts Hwf Hal Hoff Hts Hfit.
  - by eexists _, _.
  - apply record_lines_S in Hts as (t & ts' & -> & Hline & Hts').
    apply Forall_cons in Hfit as [Ht Hfit].
    pose proof (sbuf_aligned_room d Hwf Hal) as Hroom.
    destruct (ensure_line offset d) as [d1|] eqn:Hens.
    + destruct (ensure_line_Some _ _ _ Hwf Hens)
        as (cap & cells & -> & Hlen & Hmax & Hcap & _).
      unfold MAXSMALLINT, ONELINE, DELTA in *.
      rewrite int_add_small in Hcap by lia.
      rewrite (convert_string_loop_formats _ _ _ _ _ _ _ Hens Hline)
        by (unfold MAXSMALLINT; lia).
      eapply IH; [| | |by rewrite record_lines_set_sbuf|done].
      * split; cbn [sbuf maxsbuf set_sbuf]; [|done].
        rewrite length_written; lia.
      * unfold sbuf_aligned. cbn [maxsbuf set_sbuf].
        destruct Hcap as [[-> _]|[-> _]]; [done|].
        apply (sbuf_aligned_step d 1 Hal).
      * cbn [maxsbuf set_sbuf]. lia.
    + rewrite convert_string_loop_refused by done. by eexists _, _.
Qed.

(** When a capacity [maxsbuf d + j DELTA] below the ceiling has room for
    [ONELINE] bytes at the offset of every record, the loop formats all the
    records and the capacity stays at or below it. *)
Lemma convert_string_loop_within cnt : ∀ m offset d ts j,
  sbuf_wf d → 0 ≤ offset ≤ maxsbuf d →
  record_lines c_printf mybuf cnt m d = Some ts → lines_fit ts →
  0 ≤ j → maxsbuf d + j * DELTA ≤ MAXSMALLINT →
  (∀ k, (k < cnt)%nat →
     offset + total_length (take k ts) + ONELINE ≤ maxsbuf d + j * DELTA) →
  ∃ d',
    convert_string_loop c_printf cnt m offset mybuf d
    = Some (offset + total_length ts, d') ∧
    maxsbuf d' ≤ maxsbuf d + j * DELTA.
Proof.
  induction cnt as [|cnt IH];
    intros m offset d ts j Hwf Hoff Hts Hfit Hj Hceil Hroom.
  - cbn in Hts. injection Hts as <-. exists d. unfold total_length. cbn.
    rewrite Z.add_0_r. split; [done|]. unfold DELTA. lia.
  - apply record_lines_S in Hts as (t & ts' & -> & Hline & Hts').
    apply Forall_cons in Hfit as [Ht Hfit].
    pose proof (Hroom 0%nat ltac:(lia)) as Hroom0.
    unfold total_length in Hroom0. cbn in Hroom0.
    unfold MAXSMALLINT, ONELINE, DELTA in *.
    destruct (ensure_line offset d) as [d1|] eqn:Hens.
    + destruct (ensure_line_Some _ _ _ Hwf Hens)
        as (cap & cells & -> & Hlen & Hmax & Hcap & _).
      unfold MAXSMALLINT, ONELINE, DELTA in *.
      rewrite int_add_small in Hcap by lia.
      rewrite (convert_string_loop_formats _ _ _ _ _ _ _ Hens Hline)
        by (unfold MAXSMALLINT; lia).
      assert (∃ j', 0 ≤ j' ∧ cap + j' * 1048576 = maxsbuf d + j * 1048576)
        as (j' & Hj' & Hcap').
      { destruct Hcap as [[-> _]|[-> ?]]; [by exists j|].
        exists (j - 1). lia. }
      edestruct (IH (int_add m (size_one d))
                   (offset + Z.of_nat (String.length t))
                   (set_sbuf cap
                      (take (Z.to_nat offset) cells
                         ++ (Some <$> list_ascii_of_string t)
                         ++ Some zero
                            :: drop (Z.to_nat offset + String.length t + 1)
                                 cells) d) ts' j') as (d' & Hrun & Hd').
      * split; cbn [sbuf maxsbuf set_sbuf]; [|done].
        rewrite length_written; lia.
      * cbn [maxsbuf set_sbuf]. lia.
      * by rewrite record_lines_set_sbuf.
      * done.
      * done.
      * cbn [maxsbuf set_sbuf]. unfold DELTA. lia.
      * intros k Hk. cbn [maxsbuf set_sbuf]. unfold DELTA.
        pose proof (Hroom (S k) ltac:(lia)) as HSk.
        cbn [take] in HSk. rewrite total_length_cons in HSk. lia.
      * exists d'. rewrite Hrun, total_length_cons.
        cbn [maxsbuf set_sbuf] in Hd'. unfold DELTA in Hd'.
        split; [f_equal; f_equal; lia|lia].
    + apply ensure_line_None in Hens as [Hgrow Hc].
      unfold MAXSMALLINT, ONELINE, DELTA in *.
      rewrite int_add_small in Hgrow by lia. lia.
Qed.

Lemma record_lines_add k : ∀ j m d ts,
  record_lines c_printf mybuf (k + j) m d = Some ts →
  record_lines c_printf mybuf k m d = Some (take k ts) ∧
  record_lines c_printf mybuf j (advance k m (size_one d)) d = Some (drop k ts).
Proof.
  induction k as [|k IH]; intros j m d ts Hts.
  - by rewrite take_0, drop_0.
  - cbn [Nat.add] in Hts.
    apply record_lines_S in Hts as (t & ts' & -> & Hline & Hts').
    apply IH in Hts' as [Htake Hdrop].
    cbn [record_lines take drop]. rewrite Hline, Htake, advance_S. done.
Qed.

Lemma lines_fit_take k ts : lines_fit ts → lines_fit (take k ts).
Proof. apply Forall_take. Qed.

(** Under the hypotheses of the previous lemma every prefix of the batch is
    formatted in full. *)
Lemma convert_string_prefix n d ts j k :
  sbuf_wf d →
  record_lines c_printf mybuf (Z.to_nat n) 0 d = Some ts → lines_fit ts →
  0 ≤ j → maxsbuf d + j * DELTA ≤ MAXSMALLINT →
  (∀ k, (k < Z.to_nat n)%nat →
     total_length (take k ts) + ONELINE ≤ maxsbuf d + j * DELTA) →
  0 ≤ k ≤ n →
  ∃ dk,
    convert_string c_printf k mybuf d
    = Some (total_length (take (Z.to_nat k) ts), dk) ∧
    sbuf_wf dk ∧
    take (length (text_of (take (Z.to_nat k) ts))) (sbuf dk)
    = Some <$> text_of (take (Z.to_nat k) ts) ∧
    maxsbuf d ≤ maxsbuf dk ∧ maxsbuf dk ≤ maxsbuf d + j * DELTA.
Proof.
  intros Hwf Hts Hfit Hj Hceil Hroom Hk.
  assert (0 ≤ maxsbuf d) as Hcap0 by (destruct Hwf as [<- _]; lia).
  assert (Z.to_nat n = Z.to_nat k + Z.to_nat (n - k))%nat as Hsplit by lia.
  rewrite Hsplit in Hts. apply record_lines_add in Hts as [Htk _].
  destruct (convert_string_loop_within _ 0 0 d (take (Z.to_nat k) ts) j Hwf
              ltac:(lia) Htk (lines_fit_take _ _ Hfit) Hj Hceil)
    as (dk & Hrunk & Hdk).
  { intros k' Hk'. rewrite Z.add_0_l, take_take.
    replace (k' `min` Z.to_nat k)%nat with k' by lia. apply Hroom. lia. }
  rewrite Z.add_0_l in Hrunk.
  pose proof (total_length_nonneg (take (Z.to_nat k) ts)) as Hnnk.
  fold (convert_string c_printf k mybuf d) in Hrunk.
  destruct (convert_string_content _ _ _ _ Hwf Hrunk ltac:(lia))
    as (tsk & Htsk & _ & _ & Hwfk & Hbufk & _ & (ik & Hik & Hcapk) & _).
  assert (tsk = take (Z.to_nat k) ts) as -> by congruence.
  exists dk. split; [done|]. split; [done|]. split; [done|].
  unfold DELTA in *. lia.
Qed.

(** C3, with the bound on a line counting the null character that ends it
    (at most [ONELINE - 1] characters of text): for a batch whose text is
    longer than the initial capacity, and for which some capacity
    [maxsbuf + j DELTA] at or below [MAXSMALLINT] leaves room for [ONELINE]
    bytes at the offset of every record, [convert_string] returns the length
    of the whole text, not -1; the capacity it leaves is
    the initial one plus at least one and at most [j] increments of [DELTA],
    the buffer holds the text, and along the call the capacity never
    decreases: the capacity after [k] records is at most the capacity after
    [k'] records for [k <= k'], the first being the initial capacity for
    [k = 0]. *)
Theorem convert_string_grows n d ts j :
  sbuf_wf d →
  record_lines c_printf mybuf (Z.to_nat n) 0 d = Some ts → lines_fit ts →
  maxsbuf d < total_length ts →
  0 ≤ j → maxsbuf d + j * DELTA ≤ MAXSMALLINT →
  (∀ k, (k < Z.to_nat n)%nat →
     total_length (take k ts) + ONELINE ≤ maxsbuf d + j * DELTA) →
  (∃ d',
     convert_string c_printf n mybuf d = Some (total_length ts, d') ∧
     total_length ts ≠ -1 ∧
     (∃ i, 1 ≤ i ≤ j ∧ maxsbuf d' = maxsbuf d + i * DELTA) ∧
     Z.of_nat (length (sbuf d')) = maxsbuf d' ∧
     read_cells (sbuf d') (Z.to_nat (total_length ts)) = Some (text_of ts)) ∧
  convert_string c_printf 0 mybuf d = Some (0, d) ∧
  ∀ k k', 0 ≤ k ≤ k' → k' ≤ n →
    ∃ o dk o' dk',
      convert_string c_printf k mybuf d = Some (o, dk) ∧ o ≠ -1 ∧
      convert_string c_printf k' mybuf d = Some (o', dk') ∧ o' ≠ -1 ∧
      maxsbuf dk ≤ maxsbuf dk'.
Proof.
  intros Hwf Hts Hfit Hlong Hj Hceil Hroom.
  pose proof (total_length_nonneg ts) as Hnn.
  assert (0 ≤ n) as Hn.
  { destruct (Z.le_gt_cases 0 n) as [|Hneg]; [done|].
    replace (Z.to_nat n) with 0%nat in Hts by lia. cbn in Hts.
    injection Hts as <-. destruct Hwf as [Hlen0 _].
    change (total_length []) with 0 in Hlong. lia. }
  split; [|split; [done|]].
  - destruct (convert_string_prefix n d ts j n Hwf Hts Hfit Hj Hceil Hroom
                ltac:(lia)) as (d' & Hrun & Hwf' & _ & _ & Hd').
    assert (length ts = Z.to_nat n) as Hlen.
    { clear -Hts. revert Hts. generalize 0 at 1. revert ts.
      induction (Z.to_nat n) as [|c IH]; intros ts m Hts.
      - cbn in Hts. by injection Hts as <-.
      - apply record_lines_S in Hts as (t & ts' & -> & _ & Hts').
        cbn. f_equal. by eapply IH. }
    rewrite take_ge in Hrun by lia.
    destruct (convert_string_content _ _ _ _ Hwf Hrun ltac:(lia))
      as (ts2 & Hts2 & _ & Hle & [Hlen' _] & _ & Hread & (i & Hi & Hcap) & _).
    assert (ts2 = ts) as -> by congruence.
    exists d'. split; [done|]. split; [lia|].
    split; [exists i; unfold DELTA in *; lia|]. done.
  - intros k k' Hk Hk'.
    destruct (convert_string_prefix n d ts j k Hwf Hts Hfit Hj Hceil Hroom
                ltac:(lia)) as (dk & Hrunk & Hwfk & Hbufk & _).
    destruct (convert_string_prefix n d ts j k' Hwf Hts Hfit Hj Hceil Hroom
                ltac:(lia)) as (dk' & Hrunk' & _).
    pose proof (total_length_nonneg (take (Z.to_nat k) ts)) as Hnnk.
    pose proof (total_length_nonneg (take (Z.to_nat k') ts)) as Hnnk'.
    eexists _, dk, _, dk'. split; [done|]. split; [lia|].
    split; [done|]. split; [lia|].
    set (o' := total_length (take (Z.to_nat k') ts)) in *.
    unfold convert_string in Hrunk, Hrunk'.
    replace (Z.to_nat k') with (Z.to_nat k + Z.to_nat (k' - k))%nat in Hrunk'
      by lia.
    rewrite (convert_string_loop_add _ _ _ _ _ _ _ Hrunk ltac:(lia)) in Hrunk'.
    eapply (convert_string_loop_content _ _ _ _
              (text_of (take (Z.to_nat k) ts))) in Hrunk'
      as (_ & _ & _ & _ & _ & _ & (i' & Hi' & Hcap') & _);
      [unfold DELTA in *; lia|done|done|done|lia].
Qed.

(** C10, with the bound on a line counting the null character that ends it
    (at most [ONELINE - 1] characters of text): the call returns, so no
    store leaves the buffer; a returned offset other than -1 is at most the
    capacity; and at every record reached the call either returns -1 before
    touching the buffer or formats the record in a buffer whose capacity is
    at least [offset + ONELINE], the last byte stored lying inside it. *)
Theorem convert_string_in_bounds n d ts :
  sbuf_wf d → sbuf_aligned d →
  record_lines c_printf mybuf (Z.to_nat n) 0 d = Some ts → lines_fit ts →
  (∃ r d',
     convert_string c_printf n mybuf d = Some (r, d') ∧
     (r ≠ -1 →
        0 ≤ r ≤ maxsbuf d' ∧ Z.of_nat (length (sbuf d')) = maxsbuf d')) ∧
  ∀ k o dk,
    0 ≤ k < n →
    convert_string c_printf k mybuf d = Some (o, dk) → o ≠ -1 →
    convert_string c_printf (k + 1) mybuf d = Some (-1, dk) ∨
    ∃ t d1,
      ts !! Z.to_nat k = Some t ∧
      convert_string c_printf (k + 1) mybuf d
      = Some (o + Z.of_nat (String.length t), d1) ∧
      Z.of_nat (length (sbuf d1)) = maxsbuf d1 ∧
      o + ONELINE ≤ maxsbuf d1 ∧
      o + Z.of_nat (String.length t) + 1 ≤ maxsbuf d1.
Proof.
  intros Hwf Hal Hts Hfit.
  assert (0 ≤ maxsbuf d) as Hcap0 by (destruct Hwf as [<- _]; lia).
  split.
  - destruct (convert_string_loop_defined _ 0 0 d ts Hwf Hal ltac:(lia) Hts Hfit)
      as (r & d' & Hrun).
    exists r, d'. split; [done|]. intros Hr.
    destruct (convert_string_content _ _ _ _ Hwf Hrun Hr)
      as (ts2 & _ & -> & Hle & [Hlen' _] & _).
    pose proof (total_length_nonneg ts2). lia.
  - intros k o dk Hk Hrunk Ho.
    destruct (convert_string_content _ _ _ _ Hwf Hrunk Ho)
      as (tsk & _ & Hok & Hle & Hwfk & _ & _ & (ik & Hik & Hcapk) & Hdk).
    pose proof (total_length_nonneg tsk) as Hnnk.
    assert (sbuf_aligned dk) as Halk.
    { unfold sbuf_aligned. rewrite Hcapk. by apply sbuf_aligned_step. }
    pose proof (sbuf_aligned_room dk Hwfk Halk) as Hroomk.
    assert (Z.to_nat n = Z.to_nat k + S (Z.to_nat (n - k - 1)))%nat as Hsplit
      by lia.
    rewrite Hsplit in Hts. apply record_lines_add in Hts as [_ Hrest].
    apply record_lines_S in Hrest as (t & ts' & Hdrop & Hline & _).
    assert (ts !! Z.to_nat k = Some t) as Ht.
    { rewrite <- (Nat.add_0_r (Z.to_nat k)), <- lookup_drop, Hdrop. done. }
    assert (Z.of_nat (String.length t) + 1 ≤ ONELINE) as Hbound.
    { eapply Forall_lookup_1 in Hfit; [|exact Ht]. done. }
    unfold convert_string in *.
    replace (Z.to_nat (k + 1)) with (Z.to_nat k + 1)%nat by lia.
    rewrite (convert_string_loop_add _ _ _ _ _ _ _ Hrunk Ho).
    assert (size_one d = size_one dk) as Hstride by (by rewrite Hdk).
    rewrite Hstride in *.
    assert (record_line c_printf (advance (Z.to_nat k) 0 (size_one dk)) mybuf dk
            = Some t) as Hlinek
      by (rewrite Hdk at 2; by rewrite record_line_set_sbuf).
    destruct (ensure_line o dk) as [d1|] eqn:Hens.
    + right.
      destruct (ensure_line_Some _ _ _ Hwfk Hens)
        as (cap & cells & -> & Hlen & Hmax & Hcap & _).
      unfold MAXSMALLINT, ONELINE, DELTA in *.
      rewrite int_add_small in Hcap by lia.
      rewrite (convert_string_loop_formats _ _ _ _ _ _ _ Hens Hlinek)
        by (unfold MAXSMALLINT; lia).
      eexists t, _. split; [done|]. split; [done|].
      cbn [sbuf maxsbuf set_sbuf]. rewrite length_written by lia. lia.
    + left. by apply convert_string_loop_refused.
Qed.

End Convert.

(** ** Batches of equal records *)

Lemma at_index_batch n (rec : list float) i j :
  length rec = 5%nat → 0 ≤ i < n → (j < 5)%nat →
  at_index (batch n rec) (5 * i + Z.of_nat j) = rec !! j.
Proof.
  intros Hrec Hi Hj. unfold batch.
  replace (5 * i + Z.of_nat j) with (Z.of_nat (5 * Z.to_nat i + j)) by lia.
  rewrite at_index_nat.
  rewrite <- (right_id_L [] (++) (seqZ 0 n ≫= _)).
  apply (lookup_records (λ _, rec) _ _ _ (0 + Z.of_nat (Z.to_nat i)));
    [done| |done].
  apply lookup_seqZ_lt. lia.
Qed.

Lemma total_length_replicate k t :
  total_length (replicate k t) = Z.of_nat k * Z.of_nat (String.length t).
Proof.
  induction k as [|k IH]; [done|].
  cbn [replicate]. rewrite total_length_cons, IH. lia.
Qed.

Section Batch.

Variable c_printf : string → string → float → float → float → string.
Variables (n : Z) (id ty x y z : float) (t : Z) (f s : string).
Variable d : DumpEXTXYZ.
Hypothesis Hformat : format d = Some f.
Hypothesis Hstride : size_one d = 5.
Hypothesis Htype : double_to_int ty = Some t.
Hypothesis Hlabel : label d t = Some s.
Hypothesis Hn : 5 * n ≤ MAXSMALLINT.

Lemma record_line_batch i :
  0 ≤ i < n →
  record_line c_printf (5 * i) (batch n [id; ty; x; y; z]) d
  = Some (c_printf f s x y z).
Proof.
  intros Hi. unfold record_line, MAXSMALLINT in *. rewrite Hformat.
  cbn [mbind option_bind].
  rewrite !int_add_small by lia.
  rewrite (at_index_batch n _ i 1), (at_index_batch n _ i 2),
    (at_index_batch n _ i 3), (at_index_batch n _ i 4) by (done || lia).
  cbn [lookup list_lookup mbind option_bind].
  rewrite Htype. cbn [mbind option_bind]. by rewrite Hlabel.
Qed.

Lemma record_lines_batch cnt : ∀ i,
  0 ≤ i → i + Z.of_nat cnt ≤ n →
  record_lines c_printf (batch n [id; ty; x; y; z]) cnt (5 * i) d
  = Some (replicate cnt (c_printf f s x y z)).
Proof.
  induction cnt as [|cnt IH]; intros i Hi Hcnt; [done|].
  cbn [record_lines replicate].
  rewrite record_line_batch by lia. cbn [mbind option_bind].
  rewrite Hstride. unfold MAXSMALLINT in *.
  rewrite int_add_small by lia.
  replace (5 * i + 5) with (5 * (i + 1)) by lia.
  by rewrite IH by lia.
Qed.

End Batch.

(** ** Lines of exactly [ONELINE] characters *)

Lemma ensure_line_room offset d :
  0 ≤ offset → offset + ONELINE ≤ maxsbuf d → maxsbuf d ≤ MAXSMALLINT →
  ensure_line offset d = Some (set_sbuf (maxsbuf d) (sbuf d) d).
Proof.
  intros Hpos Hroom Hmax. unfold ensure_line, ONELINE, MAXSMALLINT in *.
  rewrite int_add_small by lia.
  destruct (Z.gtb_spec (offset + 128) (maxsbuf d)); [lia|]. by destruct d.
Qed.

(** When lines of 128 characters fill the buffer exactly, the null character
    of the last one is stored in the cell after the last. *)
Lemma convert_string_loop_full_lines c_printf mybuf t cnt : ∀ m offset d,
  String.length t = 128%nat →
  sbuf_wf d → 0 ≤ offset →
  offset + 128 * Z.of_nat (S cnt) = maxsbuf d →
  record_lines c_printf mybuf (S cnt) m d = Some (replicate (S cnt) t) →
  convert_string_loop c_printf (S cnt) m offset mybuf d = None.
Proof.
  induction cnt as [|cnt IH]; intros m offset d Ht Hwf Hpos Hfull Hts;
    apply record_lines_S in Hts as (t' & ts' & [= <- <-] & Hline & Hts');
    pose proof Hwf as [Hlen Hmax];
    pose proof (ensure_line_room offset d Hpos
                  ltac:(unfold ONELINE; lia) Hmax) as Hens.
  - eapply convert_string_loop_overflows; eauto. rewrite Ht. lia.
  - rewrite (convert_string_loop_formats _ _ _ _ _ _ _ _ _ Hens Hline)
      by (rewrite ?Ht; lia).
    apply IH; try (done || lia).
    + split; cbn [sbuf maxsbuf set_sbuf]; [|done].
      rewrite length_written; rewrite ?Ht; lia.
    + cbn [maxsbuf set_sbuf]. rewrite Ht. lia.
    + by rewrite record_lines_set_sbuf.
Qed.

(** From the empty buffer, [k] lines of 128 characters with
    [128 k = DELTA]: the first iteration grows the buffer to [DELTA] cells
    and the last one stores past them. *)
Lemma convert_string_loop_full_buffer c_printf mybuf t cnt m d :
  String.length t = 128%nat →
  sbuf_wf d → maxsbuf d = 0 →
  128 * Z.of_nat (S (S cnt)) = DELTA →
  record_lines c_printf mybuf (S (S cnt)) m d = Some (replicate (S (S cnt)) t) →
  convert_string_loop c_printf (S (S cnt)) m 0 mybuf d = None.
Proof.
  intros Ht Hwf Hcap Hfull Hts.
  apply record_lines_S in Hts as (t' & ts' & [= <- <-] & Hline & Hts').
  destruct (ensure_line 0 d) as [d1|] eqn:Hens.
  - destruct (ensure_line_Some _ _ _ Hwf Hens)
      as (cap & cells & -> & Hlen & Hmax & Hgrow & _).
    unfold ONELINE, DELTA, MAXSMALLINT in *.
    rewrite int_add_small in Hgrow by lia.
    rewrite (convert_string_loop_formats _ _ _ _ _ _ _ _ _ Hens Hline)
      by (rewrite ?Ht; unfold MAXSMALLINT; lia).
    apply convert_string_loop_full_lines with (t := t); try (done || lia).
    + split; cbn [sbuf maxsbuf set_sbuf]; [|done].
      rewrite length_written; rewrite ?Ht; lia.
    + cbn [maxsbuf set_sbuf]. rewrite Ht. lia.
    + by rewrite record_lines_set_sbuf.
  - apply ensure_line_None in Hens as [_ Hc].
    unfold DELTA, MAXSMALLINT in *. lia.
Qed.

(** * The properties on the worked instances *)

(** The conversions between [int] and [double] at the ends of the [int]
    range, and the truncation of [static_cast<int>]. *)
Example double_of_int_max :
  double_to_int (double_of_int 2147483647) = Some 2147483647.
Proof. vm_compute. reflexivity. Qed.

Example double_of_int_min :
  double_to_int (double_of_int (- 2147483648)) = Some (- 2147483648).
Proof. vm_compute. reflexivity. Qed.

Example double_to_int_truncates :
  double_to_int (- 2.5)%float = Some (- 2) ∧ double_to_int 2.5%float = Some 2.
Proof. vm_compute. split; reflexivity. Qed.

(** The group of [three_atoms] and what the two pack functions leave in
    [buf] with lower bounds (1,-2,0). *)
Example three_atoms_group : group_atoms three_atoms dump_shifted = [0; 2].
Proof. vm_compute. reflexivity. Qed.

Example pack_three_atoms :
  (buf ∘ fst) <$> pack three_atoms None dump_shifted
  = Some [7; 1; 2; 5; 3; 9; 2; 4; 8; 7]%float.
Proof. vm_compute. reflexivity. Qed.

Example pack_triclinic_three_atoms :
  (buf ∘ fst) <$> pack_triclinic three_atoms None dump_shifted
  = Some [7; 1; 3; 3; 3; 9; 2; 5; 6; 7]%float.
Proof. vm_compute. reflexivity. Qed.

(** No record: both paths write nothing and the offset is 0. *)
Example convert_string_no_record :
  convert_string demo_printf 0 [] dump1 = Some (0, dump1) ∧
  write_lines demo_printf 0 (Doubles []) dump1 = Some dump1.
Proof. split; reflexivity. Qed.

(** One and two records in a buffer of 300 cells. *)
Example convert_string_one_record :
  fst <$> convert_string demo_printf 1 two_records dump_small = Some 8 ∧
  (fp <$> write_lines demo_printf 1 (Doubles two_records) dump_small)
  = Some (list_ascii_of_string ("1 2 5 3" +:+ newline)).
Proof. vm_compute. split; reflexivity. Qed.

Example convert_string_two_records :
  fst <$> convert_string demo_printf 2 two_records dump_small = Some 16 ∧
  (fp <$> write_lines demo_printf 2 (Doubles two_records) dump_small)
  = Some (text_of two_lines).
Proof. vm_compute. split; reflexivity. Qed.

(** The two records as they sit in the buffer: the text of the second record
    overwrites the null character of the first. *)
Example convert_string_two_records_cells :
  (take 17 ∘ sbuf ∘ snd) <$> convert_string demo_printf 2 two_records dump_small
  = Some ((Some <$> text_of two_lines) ++ [Some zero]).
Proof. vm_compute. reflexivity. Qed.

Lemma init_style_default_labels_witness :
  1 ≤ ntypes (fresh_dump 0 10 0 5 0 2 0 0 0) < MAXSMALLINT ∧
  label dump1 1 = Some "1"%string ∧ label dump1 2 = Some "2"%string.
Proof.
  split; [cbn; unfold MAXSMALLINT; lia|].
  destruct (init_style_default_labels orthogonal (fresh_dump 0 10 0 5 0 2 0 0 0))
    as [Hdefault _]; [cbn; unfold MAXSMALLINT; lia|].
  destruct (Hdefault eq_refl) as [_ Hlabel].
  split; [apply (Hlabel 1)|apply (Hlabel 2)]; cbn; lia.
Defined.

Lemma modify_param_too_few_labels_witness :
  at_index ["element"; "Si"]%string 0 = Some "element"%string ∧
  0 ≤ ntypes dump1 < MAXSMALLINT ∧ 2 - 1 < ntypes dump1 ∧
  modify_param 2 ["element"; "Si"]%string dump1
  = Throws "Dump modify element names do not match atom types" dump1.
Proof.
  assert (0 ≤ ntypes dump1 < MAXSMALLINT) as Hn by (vm_compute; split; congruence).
  assert (2 - 1 < ntypes dump1) as Hfew by (vm_compute; congruence).
  split; [reflexivity|]. split; [exact Hn|]. split; [exact Hfew|].
  apply (modify_param_too_few_labels 2 ["element"; "Si"]%string dump1);
    [reflexivity|exact Hn|exact Hfew].
Defined.

Lemma modify_param_replaces_labels_witness :
  at_index ["element"; "Si"; "O"]%string 0 = Some "element"%string ∧
  0 ≤ ntypes dump1 < MAXSMALLINT ∧
  3 = Z.of_nat (length ["element"; "Si"; "O"]%string) ∧
  ntypes dump1 ≤ 3 - 1 ∧
  ∃ d', modify_param 3 ["element"; "Si"; "O"]%string dump1 = Returns 3 d' ∧
        label d' 1 = Some "Si"%string ∧ label d' 2 = Some "O"%string.
Proof.
  assert (0 ≤ ntypes dump1 < MAXSMALLINT) as Hn by (vm_compute; split; congruence).
  assert (ntypes dump1 ≤ 3 - 1) as Hfit by (vm_compute; congruence).
  split; [reflexivity|]. split; [exact Hn|]. split; [reflexivity|].
  split; [exact Hfit|].
  destruct (modify_param_replaces_labels 3 ["element"; "Si"; "O"]%string dump1
              eq_refl Hn eq_refl Hfit) as (d' & Hret & _ & Hlabel & _).
  exists d'. split; [exact Hret|].
  split; [apply (Hlabel 1)|apply (Hlabel 2)]; vm_compute; split; congruence.
Defined.

Lemma write_header_emits_witness :
  header_choice dump1 = Some Header_binary ∧
  ∃ d', write_header demo_fmt_double 42 dump1 = Some d' ∧
        fp d' = list_ascii_of_string
                  ("42" +:+ newline +:+ "Lattice=" +:+ quote
                     +:+ "10 0.0 0.0 0.0 5 0.0 0.0 0.0 2" +:+ quote +:+ " "
                     +:+ newline).
Proof.
  split; [reflexivity|].
  destruct (write_header_emits demo_fmt_double 42 dump1 Header_binary eq_refl)
    as [Hme _].
  destruct (Hme eq_refl) as (d' & Hrun & Hfp & _).
  exists d'. split; [exact Hrun|]. rewrite Hfp. vm_compute. reflexivity.
Defined.

Lemma header_variants_agree_witness :
  fp dump1_tilted = fp dump1 ∧
  boxxlo dump1_tilted = boxxlo dump1 ∧ boxxhi dump1_tilted = boxxhi dump1 ∧
  boxylo dump1_tilted = boxylo dump1 ∧ boxyhi dump1_tilted = boxyhi dump1 ∧
  boxzlo dump1_tilted = boxzlo dump1 ∧ boxzhi dump1_tilted = boxzhi dump1 ∧
  fp (header_binary_triclinic demo_fmt_double 42 dump1_tilted)
  = fp (header_binary demo_fmt_double 42 dump1).
Proof.
  do 7 (split; [reflexivity|]).
  apply (header_variants_agree demo_fmt_double 42 dump1_tilted dump1);
    reflexivity.
Defined.

Lemma three_atoms_wf : atom_wf three_atoms.
Proof.
  unfold atom_wf. cbn. repeat split; try lia.
  repeat constructor.
Defined.

Lemma pack_record_slots_witness :
  atom_wf three_atoms ∧
  Z.of_nat (5 * length (group_atoms three_atoms dump_shifted))
    ≤ Z.of_nat (length (buf dump_shifted)) ∧
  Z.of_nat (length (buf dump_shifted)) ≤ MAXSMALLINT ∧
  ∃ d1 d2,
    fst <$> pack three_atoms None dump_shifted = Some d1 ∧
    fst <$> pack_triclinic three_atoms None dump_shifted = Some d2 ∧
    at_index (buf d1) 0 = Some 7%float ∧ at_index (buf d1) 1 = Some 1%float ∧
    at_index (buf d1) 2 = Some 2%float ∧ at_index (buf d1) 3 = Some 5%float ∧
    at_index (buf d1) 4 = Some 3%float ∧
    at_index (buf d2) 2 = Some 3%float ∧ at_index (buf d2) 3 = Some 3%float ∧
    at_index (buf d2) 4 = Some 3%float.
Proof.
  assert (Z.of_nat (5 * length (group_atoms three_atoms dump_shifted))
          ≤ Z.of_nat (length (buf dump_shifted))) as Hroom
    by (vm_compute; congruence).
  assert (Z.of_nat (length (buf dump_shifted)) ≤ MAXSMALLINT) as Hcap
    by (vm_compute; congruence).
  split; [exact three_atoms_wf|]. split; [exact Hroom|]. split; [exact Hcap|].
  destruct (pack_record_slots three_atoms three_atoms_wf None dump_shifted
              Hroom Hcap ltac:(intros a [=]))
    as (d1 & ids1 & d2 & ids2 & Hp & Hpt & _ & _ & Hslots).
  exists d1, d2. rewrite Hp, Hpt. split; [reflexivity|]. split; [reflexivity|].
  destruct (Hslots 0%nat 0 7 1 3%float 3%float 3%float []
              eq_refl eq_refl eq_refl eq_refl)
    as [(H0 & H1 & H2 & H3 & H4) (_ & _ & T2 & T3 & T4)].
  repeat split; assumption.
Defined.

Lemma two_lines_fit : lines_fit two_lines.
Proof.
  unfold lines_fit, two_lines.
  repeat (apply Forall_cons; split; [vm_compute; congruence|]).
  apply Forall_nil_2.
Defined.

Lemma dump1_wf : sbuf_wf dump1.
Proof. split; vm_compute; congruence. Defined.

Lemma dump1_aligned : sbuf_aligned dump1.
Proof. vm_compute. reflexivity. Defined.

Lemma convert_string_matches_write_lines_witness :
  sbuf_wf dump_small ∧
  (∃ d', convert_string demo_printf 2 two_records dump_small = Some (16, d') ∧
         fp <$> write_string 16 (Chars (sbuf d')) d'
         = fp <$> write_lines demo_printf 2 (Doubles two_records) dump_small ∧
         read_cells (sbuf d') 16 = Some (text_of two_lines)).
Proof.
  assert (sbuf_wf dump_small) as Hwf by (split; vm_compute; congruence).
  split; [exact Hwf|].
  destruct (convert_string demo_printf 2 two_records dump_small)
    as [[r d']|] eqn:Hrun; [|vm_compute in Hrun; discriminate].
  assert (r = 16) as -> by (vm_compute in Hrun; congruence).
  exists d'. split; [reflexivity|].
  destruct (convert_string_matches_write_lines demo_printf two_records 2
              dump_small 16 d' Hwf Hrun ltac:(discriminate))
    as (ts & Hts & _ & Hread & Hlines & Hstring & Hfp).
  assert (ts = two_lines) as ->
    by (vm_compute in Hts; injection Hts as <-; reflexivity).
  rewrite Hlines, Hstring. cbn [fmap option_fmap option_map].
  rewrite Hfp. split; [reflexivity|exact Hread].
Defined.

Lemma convert_string_grows_witness :
  sbuf_wf dump1 ∧
  record_lines demo_printf two_records (Z.to_nat 2) 0 dump1 = Some two_lines ∧
  lines_fit two_lines ∧
  maxsbuf dump1 < total_length two_lines ∧
  maxsbuf dump1 + 1 * DELTA ≤ MAXSMALLINT ∧
  ∃ d', convert_string demo_printf 2 two_records dump1 = Some (16, d') ∧
        maxsbuf d' = DELTA ∧
        read_cells (sbuf d') 16 = Some (text_of two_lines).
Proof.
  assert (record_lines demo_printf two_records (Z.to_nat 2) 0 dump1
          = Some two_lines) as Hts by (vm_compute; reflexivity).
  assert (maxsbuf dump1 < total_length two_lines) as Hlong
    by (vm_compute; reflexivity).
  assert (maxsbuf dump1 + 1 * DELTA ≤ MAXSMALLINT) as Hceil
    by (vm_compute; congruence).
  split; [exact dump1_wf|]. split; [exact Hts|]. split; [exact two_lines_fit|].
  split; [exact Hlong|]. split; [exact Hceil|].
  destruct (convert_string_grows demo_printf two_records 2 dump1 two_lines 1
              dump1_wf Hts two_lines_fit Hlong ltac:(lia) Hceil)
    as [(d' & Hrun & _ & (i & Hi & Hcap) & _ & Hread) _].
  { intros [|[|k]] Hk; [vm_compute; congruence..|exfalso; lia]. }
  exists d'. split; [exact Hrun|]. split; [|exact Hread].
  rewrite Hcap. replace i with 1 by lia. reflexivity.
Defined.

Lemma convert_string_in_bounds_witness :
  sbuf_wf dump1 ∧ sbuf_aligned dump1 ∧
  record_lines demo_printf two_records (Z.to_nat 2) 0 dump1 = Some two_lines ∧
  lines_fit two_lines ∧
  ∃ r d', convert_string demo_printf 2 two_records dump1 = Some (r, d') ∧
          (r ≠ -1 → 0 ≤ r ≤ maxsbuf d').
Proof.
  assert (record_lines demo_printf two_records (Z.to_nat 2) 0 dump1
          = Some two_lines) as Hts by (vm_compute; reflexivity).
  split; [exact dump1_wf|]. split; [exact dump1_aligned|].
  split; [exact Hts|]. split; [exact two_lines_fit|].
  destruct (convert_string_in_bounds demo_printf two_records 2 dump1 two_lines
              dump1_wf dump1_aligned Hts two_lines_fit)
    as [(r & d' & Hrun & Hbound) _].
  exists r, d'. split; [exact Hrun|]. intros Hr. apply (Hbound Hr).
Defined.

(** ** A batch too large for the buffer *)

Lemma one_line_printed :
  demo_printf ("%s %g %g %g" +:+ newline) "1" 1 1 1 = one_line.
Proof. vm_compute. reflexivity. Qed.

Lemma big_batch_lines k :
  0 ≤ k ≤ big_n →
  record_lines demo_printf big_batch (Z.to_nat k) 0 dump1
  = Some (replicate (Z.to_nat k) one_line).
Proof.
  intros Hk. rewrite <- one_line_printed. change 0 with (5 * 0) at 1.
  apply record_lines_batch with (t := 1); try reflexivity;
    unfold big_n, MAXSMALLINT in *; lia.
Qed.

Lemma one_line_fits k : lines_fit (replicate k one_line).
Proof. apply Forall_replicate. vm_compute. congruence. Qed.

(** The first 268304369 records fill the buffer up to its largest
    capacity below the ceiling. *)
Lemma big_batch_prefix :
  ∃ dk,
    convert_string demo_printf 268304369 big_batch dump1
    = Some (2146434952, dk) ∧
    maxsbuf dk = 2146435072.
Proof.
  destruct (convert_string_loop_within demo_printf big_batch
              (Z.to_nat 268304369) 0 0 dump1
              (replicate (Z.to_nat 268304369) one_line) 2047)
    as (dk & Hrun & Hcap).
  - exact dump1_wf.
  - change (maxsbuf dump1) with 0. lia.
  - apply big_batch_lines. unfold big_n. lia.
  - apply one_line_fits.
  - lia.
  - change (maxsbuf dump1) with 0. unfold DELTA, MAXSMALLINT. lia.
  - intros k Hk. change (maxsbuf dump1) with 0.
    rewrite take_replicate, total_length_replicate.
    change (Z.of_nat (String.length one_line)) with 8.
    unfold ONELINE, DELTA. lia.
  - rewrite total_length_replicate in Hrun.
    change (Z.of_nat (String.length one_line)) with 8 in Hrun.
    replace (0 + Z.of_nat (Z.to_nat 268304369) * 8) with 2146434952 in Hrun
      by lia.
    exists dk. split; [exact Hrun|].
    change (maxsbuf dump1) with 0 in Hcap.
    destruct (convert_string_content demo_printf big_batch 268304369 dump1
                _ _ dump1_wf Hrun ltac:(lia))
      as (ts & _ & _ & Hle & _ & _ & _ & (i & Hi & Hi') & _).
    change (maxsbuf dump1) with 0 in Hi'. unfold DELTA in *. lia.
Qed.

Lemma convert_string_ceiling_witness :
  ∃ dk,
    sbuf_wf dump1 ∧
    0 ≤ 268304369 < big_n ∧
    convert_string demo_printf 268304369 big_batch dump1
    = Some (2146434952, dk) ∧
    2146434952 ≠ -1 ∧
    maxsbuf dk < int_add 2146434952 ONELINE ∧
    MAXSMALLINT < maxsbuf dk + DELTA ∧
    convert_string demo_printf big_n big_batch dump1 = Some (-1, dk).
Proof.
  destruct big_batch_prefix as (dk & Hrun & Hcap).
  assert (0 ≤ 268304369 < big_n) as Hk by (unfold big_n; lia).
  assert (maxsbuf dk < int_add 2146434952 ONELINE) as Hgrow
    by (rewrite Hcap; vm_compute; reflexivity).
  assert (MAXSMALLINT < maxsbuf dk + DELTA) as Hceil
    by (rewrite Hcap; vm_compute; reflexivity).
  exists dk. split; [exact dump1_wf|]. split; [exact Hk|].
  split; [exact Hrun|]. split; [discriminate|]. split; [exact Hgrow|].
  split; [exact Hceil|].
  apply (convert_string_ceiling demo_printf big_batch big_n 268304369 dump1
           2146434952 dk dump1_wf Hk Hrun ltac:(discriminate) Hgrow Hceil).
Defined.

(** The whole batch: [write_lines] writes its 2.4 GB, [convert_string]
    returns -1. *)
Lemma big_batch_not_buffered :
  write_lines demo_printf big_n (Doubles big_batch) dump1
  = Some (emit (text_of (replicate (Z.to_nat big_n) one_line)) dump1) ∧
  total_length (replicate (Z.to_nat big_n) one_line) = 2400000000 ∧
  ∃ d', convert_string demo_printf big_n big_batch dump1 = Some (-1, d').
Proof.
  pose proof (big_batch_lines big_n ltac:(unfold big_n; lia)) as Hts.
  assert (total_length (replicate (Z.to_nat big_n) one_line) = 2400000000)
    as Htotal.
  { rewrite total_length_replicate.
    change (Z.of_nat (String.length one_line)) with 8. unfold big_n. lia. }
  split; [|split; [exact Htotal|]].
  - unfold write_lines. by rewrite write_lines_loop_spec, Hts.
  - destruct (convert_string_loop_defined demo_printf big_batch
                (Z.to_nat big_n) 0 0 dump1 _ dump1_wf dump1_aligned
                ltac:(change (maxsbuf dump1) with 0; lia) Hts
                (one_line_fits _)) as (r & d' & Hrun).
    fold (convert_string demo_printf big_n big_batch dump1) in Hrun.
    destruct (decide (r = -1)) as [->|Hr]; [by exists d'|].
    destruct (convert_string_content demo_printf big_batch big_n dump1
                _ _ dump1_wf Hrun Hr)
      as (ts & Hts' & -> & Hle & [_ Hmax] & _).
    assert (ts = replicate (Z.to_nat big_n) one_line) as -> by congruence.
    unfold MAXSMALLINT in Hmax. lia.
Qed.

(** ** A line of exactly 128 characters *)

Lemma full_line_printed :
  demo_printf ("%s %g %g %g" +:+ newline) long_label 1 1 1 = full_line.
Proof. vm_compute. reflexivity. Qed.

Lemma line_of_128_bytes_overruns :
  sbuf_wf dump_long ∧ sbuf_aligned dump_long ∧
  record_lines demo_printf (batch 8192 one_record) (Z.to_nat 8192) 0 dump_long
  = Some (replicate (Z.to_nat 8192) full_line) ∧
  Forall (λ t, Z.of_nat (String.length t) ≤ ONELINE)
    (replicate (Z.to_nat 8192) full_line) ∧
  convert_string demo_printf 8192 (batch 8192 one_record) dump_long = None.
Proof.
  assert (sbuf_wf dump_long) as Hwf by (split; vm_compute; congruence).
  assert (record_lines demo_printf (batch 8192 one_record) (Z.to_nat 8192) 0
            dump_long = Some (replicate (Z.to_nat 8192) full_line)) as Hts.
  { rewrite <- full_line_printed. change 0 with (5 * 0) at 1.
    apply record_lines_batch with (t := 1); try reflexivity;
      unfold MAXSMALLINT; lia. }
  split; [exact Hwf|]. split; [vm_compute; reflexivity|]. split; [exact Hts|].
  split; [apply Forall_replicate; vm_compute; congruence|].
  unfold convert_string.
  replace (Z.to_nat 8192) with (S (S (Z.to_nat 8190))) in * by lia.
  apply convert_string_loop_full_buffer with (t := full_line);
    [reflexivity|exact Hwf|reflexivity|unfold DELTA; lia|exact Hts].
Qed.

(** The same batch meets what the growth of the buffer asks for: its text,
    one mebibyte, is longer than the initial capacity, and one increment of
    [DELTA], far below the ceiling, leaves [ONELINE] bytes at the offset of
    every record.  The call does not return the length of the text: the null
    character of the last line is stored outside the buffer. *)
Lemma full_lines_overrun_while_growing :
  sbuf_wf dump_long ∧
  record_lines demo_printf (batch 8192 one_record) (Z.to_nat 8192) 0 dump_long
  = Some (replicate (Z.to_nat 8192) full_line) ∧
  Forall (λ t, Z.of_nat (String.length t) ≤ ONELINE)
    (replicate (Z.to_nat 8192) full_line) ∧
  maxsbuf dump_long < total_length (replicate (Z.to_nat 8192) full_line) ∧
  maxsbuf dump_long + 1 * DELTA ≤ MAXSMALLINT ∧
  (∀ k, (k < Z.to_nat 8192)%nat →
     total_length (take k (replicate (Z.to_nat 8192) full_line)) + ONELINE
     ≤ maxsbuf dump_long + 1 * DELTA) ∧
  convert_string demo_printf 8192 (batch 8192 one_record) dump_long = None.
Proof.
  assert (sbuf_wf dump_long) as Hwf by (split; vm_compute; congruence).
  assert (record_lines demo_printf (batch 8192 one_record) (Z.to_nat 8192) 0
            dump_long = Some (replicate (Z.to_nat 8192) full_line)) as Hts.
  { rewrite <- full_line_printed. change 0 with (5 * 0) at 1.
    apply record_lines_batch with (t := 1); try reflexivity;
      unfold MAXSMALLINT; lia. }
  assert (Z.of_nat (String.length full_line) = 128) as Hlen by reflexivity.
  assert (maxsbuf dump_long = 0) as Hcap by reflexivity.
  split; [exact Hwf|]. split; [exact Hts|].
  split; [apply Forall_replicate; vm_compute; congruence|].
  rewrite Hcap. unfold DELTA, MAXSMALLINT, ONELINE.
  split; [rewrite total_length_replicate, Hlen; lia|]. split; [lia|]. split.
  - intros k Hk. rewrite take_replicate, total_length_replicate, Hlen. lia.
  - unfold convert_string.
    replace (Z.to_nat 8192) with (S (S (Z.to_nat 8190))) in * by lia.
    apply convert_string_loop_full_buffer with (t := full_line);
      [reflexivity|exact Hwf|reflexivity|unfold DELTA; lia|exact Hts].
Qed.

(** * Further properties *)

(** ** Integers held in doubles *)

Lemma digits2_pos_size p : digits2_pos p = Pos.size p.
Proof. induction p as [p IH|p IH|]; cbn; by rewrite ?IH. Qed.

Lemma digits2_pos_iter_xO p k :
  digits2_pos (Pos.iter xO p k) = (digits2_pos p + k)%positive.
Proof.
  induction k as [|k IH] using Pos.peano_ind.
  - cbn. by rewrite Pos.add_1_r.
  - rewrite Pos.iter_succ. cbn [digits2_pos]. rewrite IH. lia.
Qed.

Lemma pos_iter_xO_value p k :
  Z.pos (Pos.iter xO p k) = Z.pos p * 2 ^ Z.pos k.
Proof.
  induction k as [|k IH] using Pos.peano_ind.
  - cbn. lia.
  - rewrite Pos.iter_succ, Pos2Z.inj_xO, IH, Pos2Z.inj_succ, Z.pow_succ_r by lia.
    lia.
Qed.

Lemma digits2_pos_le p n :
  0 ≤ n → Z.pos p < 2 ^ n → Z.pos (digits2_pos p) ≤ n.
Proof.
  intros Hn Hp. rewrite digits2_pos_size.
  pose proof (Pos.size_le p) as Hle.
  apply Pos2Z.pos_le_pos in Hle.
  rewrite Pos2Z.inj_pow, (Pos2Z.inj_xO p) in Hle.
  destruct (Z.le_gt_cases (Z.pos (Pos.size p)) n) as [|Hgt]; [done|].
  assert (2 ^ (n + 1) ≤ 2 ^ Z.pos (Pos.size p)) by (apply Z.pow_le_mono_r; lia).
  rewrite Z.pow_add_r in * by lia. change (2 ^ 1) with 2 in *. lia.
Qed.

(** The double that the conversion gives for a positive integer below 2^32:
    the integer itself, shifted to a mantissa of 53 bits. *)
Lemma Prim2SF_of_pos p :
  Z.pos p < 2 ^ 32 →
  Prim2SF (PrimFloat.of_uint63 (Uint63.of_Z (Z.pos p)))
  = S754_finite false (Pos.iter xO p (53 - digits2_pos p))
      (Z.pos (digits2_pos p) - 53).
Proof.
  intros Hp.
  pose proof (digits2_pos_le p 32 ltac:(lia) Hp) as Hd.
  rewrite of_uint63_spec, Uint63.of_Z_spec.
  rewrite Z.mod_small by (change Uint63.wB with (2 ^ 63); lia).
  unfold binary_normalize, binary_round, fexp, SpecFloat.emin.
  change prec with 53. change emax with 1024.
  rewrite Z.add_0_r.
  rewrite Z.max_l by lia.
  unfold shl_align.
  replace (Z.pos (digits2_pos p) - 53 - 0) with (Z.neg (53 - digits2_pos p)) by lia.
  unfold binary_round_aux, shr_fexp, fexp, SpecFloat.emin, Zdigits2.
  rewrite digits2_pos_iter_xO.
  replace (Z.pos (digits2_pos p + (53 - digits2_pos p))
           + (Z.pos (digits2_pos p) - 53)) with (Z.pos (digits2_pos p)) by lia.
  rewrite Z.max_l by lia. rewrite Z.sub_diag.
  cbn [shr shr_record_of_loc shr_m loc_of_shr_record round_nearest_even shr_r shr_s].
  rewrite digits2_pos_iter_xO.
  replace (Z.pos (digits2_pos p + (53 - digits2_pos p))
           + (Z.pos (digits2_pos p) - 53)) with (Z.pos (digits2_pos p)) by lia.
  rewrite Z.max_l by lia. rewrite Z.sub_diag.
  cbn [shr shr_record_of_loc shr_m].
  destruct (Z.leb_spec (Z.pos (digits2_pos p) - 53) (1024 - 53)); [done|lia].
Qed.

Lemma double_to_int_of_int z :
  - 2147483648 ≤ z ≤ 2147483647 → double_to_int (double_of_int z) = Some z.
Proof.
  intros Hz. unfold double_to_int, double_of_int.
  assert (∀ p, Z.pos p < 2 ^ 32 →
            (if 0 <=? Z.pos (digits2_pos p) - 53
             then Z.pos (Pos.iter xO p (53 - digits2_pos p))
                  * 2 ^ (Z.pos (digits2_pos p) - 53)
             else Z.pos (Pos.iter xO p (53 - digits2_pos p))
                  / 2 ^ (- (Z.pos (digits2_pos p) - 53))) = Z.pos p) as Hval.
  { intros p Hp. pose proof (digits2_pos_le p 32 ltac:(lia) Hp) as Hd.
    destruct (Z.leb_spec 0 (Z.pos (digits2_pos p) - 53)); [lia|].
    rewrite pos_iter_xO_value.
    replace (- (Z.pos (digits2_pos p) - 53)) with (Z.pos (53 - digits2_pos p)) by lia.
    apply Z.div_mul. apply Z.pow_nonzero; lia. }
  destruct z as [|p|p]; cbn [Z.ltb Z.compare].
  - reflexivity.
  - rewrite (Prim2SF_of_pos p) by lia. cbv zeta. rewrite Hval by lia.
    destruct (Z.leb_spec (-2147483648) (Z.pos p)), (Z.leb_spec (Z.pos p) 2147483647);
      (done || lia).
  - change (- Z.neg p) with (Z.pos p).
    rewrite opp_spec, (Prim2SF_of_pos p) by lia. cbn [SFopp negb].
    cbv zeta. rewrite Hval by lia.
    change (- Z.pos p) with (Z.neg p).
    destruct (Z.leb_spec (-2147483648) (Z.neg p)), (Z.leb_spec (Z.neg p) 2147483647);
      (done || lia).
Qed.

(** X1. An [int] stored in a double, as [pack] stores the type code, and
    read back with [static_cast<int>], as [convert_string] and [write_lines]
    read it, is the same [int]; so two different [int]s are stored as
    different doubles. *)
Theorem int_double_round_trip z1 z2 :
  - 2147483648 ≤ z1 ≤ 2147483647 → - 2147483648 ≤ z2 ≤ 2147483647 →
  double_to_int (double_of_int z1) = Some z1 ∧
  (double_of_int z1 = double_of_int z2 → z1 = z2).
Proof.
  intros Hz1 Hz2. split; [by apply double_to_int_of_int|].
  intros Heq. apply (f_equal double_to_int) in Heq.
  rewrite !double_to_int_of_int in Heq by done. congruence.
Qed.

Lemma float_sub_zero (v : float) : (v - 0)%float = v.
Proof.
  apply Prim2SF_inj. rewrite sub_spec.
  change (Prim2SF 0) with (S754_zero false).
  by destruct (Prim2SF v) as [[]|[]| |].
Qed.

(** ** More on packing *)

Lemma group_atoms_as_range atom d :
  group_atoms atom d = group_range atom d 0 (Z.to_nat (nlocal atom)).
Proof.
  unfold group_atoms, group_range, seqZ. by rewrite Nat2Z.id.
Qed.

Lemma length_bind_records (f : Z → list float) (l : list Z) :
  (∀ i, length (f i) = 5%nat) → length (l ≫= f) = (5 * length l)%nat.
Proof.
  intros Hf. induction l as [|i l IH]; [done|].
  rewrite bind_cons, length_app, Hf, IH. cbn [length]. lia.
Qed.

(** With lower bounds +0 the two loops store the same values. *)
Lemma pack_loop_zero_bounds atom cnt : ∀ i m n ids d,
  boxxlo d = 0%float → boxylo d = 0%float → boxzlo d = 0%float →
  pack_loop cnt i m n atom ids d = pack_triclinic_loop cnt i m n atom ids d.
Proof.
  induction cnt as [|cnt IH]; intros i m n ids d Hx Hy Hz; [done|].
  cbn [pack_loop pack_triclinic_loop].
  rewrite Hx, Hy, Hz.
  destruct (at_index (mask atom) i) as [mk|]; cbn [mbind option_bind]; [|done].
  destruct (Z.land mk (groupbit d) =? 0); [by apply IH|].
  destruct (at_index (tag atom) i) as [tg|]; cbn [mbind option_bind]; [|done].
  destruct (at_index (type atom) i) as [ty|]; cbn [mbind option_bind]; [|done].
  destruct (at_index (x atom) i) as [xi|]; cbn [mbind option_bind]; [|done].
  destruct (at_index xi 0) as [x0|]; cbn [mbind option_bind]; [|done].
  destruct (at_index xi 1) as [x1|]; cbn [mbind option_bind]; [|done].
  destruct (at_index xi 2) as [x2|]; cbn [mbind option_bind]; [|done].
  rewrite !float_sub_zero.
  destruct (store (buf d) m (double_of_int tg)) as [b0|]; cbn [mbind option_bind]; [|done].
  cbn [mbind option_bind].
  destruct (store b0 _ (double_of_int ty)) as [b1|]; cbn [mbind option_bind]; [|done].
  cbn [mbind option_bind].
  destruct (store b1 _ x0) as [b2|]; cbn [mbind option_bind]; [|done].
  destruct (store b2 _ x1) as [b3|]; cbn [mbind option_bind]; [|done].
  destruct (store b3 _ x2) as [b4|]; cbn [mbind option_bind]; [|done].
  destruct ids as [a|].
  - destruct (store a n tg) as [a'|]; [|done]. cbn [mbind option_bind].
    by apply IH.
  - by apply IH.
Qed.

(** X2. In a box whose lower bounds are +0 on the three axes, [pack] and
    [pack_triclinic] behave alike on every input: the same buffer, the same
    identifiers, or both undefined. *)
Theorem pack_zero_bounds atom ids d :
  boxxlo d = 0%float → boxylo d = 0%float → boxzlo d = 0%float →
  pack atom ids d = pack_triclinic atom ids d.
Proof. intros. by apply pack_loop_zero_bounds. Qed.

Lemma store_length {A} (a : list A) i v a' :
  store a i v = Some a' →
  0 ≤ i < Z.of_nat (length a) ∧ length a' = length a.
Proof.
  intros Hst. apply store_Some in Hst as [Hi ->].
  by rewrite length_insert.
Qed.

(** A buffer with fewer than five free slots per remaining atom of the group
    makes a store fall outside it. *)
Lemma pack_loop_short atom cnt : ∀ i m n ids d,
  Z.of_nat (length (buf d)) ≤ MAXSMALLINT →
  m ≤ Z.of_nat (length (buf d)) →
  Z.of_nat (length (buf d))
    < m + 5 * Z.of_nat (length (group_range atom d i cnt)) →
  pack_loop cnt i m n atom ids d = None ∧
  pack_triclinic_loop cnt i m n atom ids d = None.
Proof.
  induction cnt as [|cnt IH]; intros i m n ids d Hmax Hm Hshort.
  { rewrite group_range_0 in Hshort. cbn in Hshort. lia. }
  rewrite group_range_S in Hshort. unfold in_group in Hshort.
  cbn [pack_loop pack_triclinic_loop]. unfold MAXSMALLINT in *.
  destruct (at_index (mask atom) i) as [mk|]; cbn [mbind option_bind]; [|done].
  destruct (Z.land mk (groupbit d) =? 0); cbn [negb] in Hshort;
    [by apply IH|].
  cbn [length] in Hshort.
  destruct (at_index (tag atom) i) as [tg|]; cbn [mbind option_bind]; [|done].
  destruct (at_index (type atom) i) as [ty|]; cbn [mbind option_bind]; [|done].
  destruct (at_index (x atom) i) as [xi|]; cbn [mbind option_bind]; [|done].
  destruct (at_index xi 0) as [x0|]; cbn [mbind option_bind]; [|done].
  destruct (at_index xi 1) as [x1|]; cbn [mbind option_bind]; [|done].
  destruct (at_index xi 2) as [x2|]; cbn [mbind option_bind]; [|done].
  assert (∀ v0 v1 v2 v3 v4 (k : list float → option (DumpEXTXYZ * option (list Z))),
            (∀ b, length b = length (buf d) →
                  0 ≤ m ∧ m + 5 ≤ Z.of_nat (length (buf d)) → k b = None) →
            (b ← store (buf d) m v0;
             b ← store b (int_add m 1) v1;
             b ← store b (int_add (int_add m 1) 1) v2;
             b ← store b (int_add (int_add (int_add m 1) 1) 1) v3;
             b ← store b (int_add (int_add (int_add (int_add m 1) 1) 1) 1) v4;
             k b) = None) as Hchain.
  { intros v0 v1 v2 v3 v4 k Hk.
    destruct (store (buf d) m v0) as [b0|] eqn:H0; cbn [mbind option_bind]; [|done].
    apply store_length in H0 as [Hi0 Hl0]. cbn [mbind option_bind].
    rewrite (int_add_small m 1) by lia.
    destruct (store b0 (m + 1) v1) as [b1|] eqn:H1; cbn [mbind option_bind]; [|done].
    apply store_length in H1 as [Hi1 Hl1]. cbn [mbind option_bind].
    rewrite (int_add_small (m + 1) 1) by lia.
    destruct (store b1 (m + 1 + 1) v2) as [b2|] eqn:H2; cbn [mbind option_bind]; [|done].
    apply store_length in H2 as [Hi2 Hl2]. cbn [mbind option_bind].
    rewrite (int_add_small (m + 1 + 1) 1) by lia.
    destruct (store b2 (m + 1 + 1 + 1) v3) as [b3|] eqn:H3; cbn [mbind option_bind]; [|done].
    apply store_length in H3 as [Hi3 Hl3]. cbn [mbind option_bind].
    rewrite (int_add_small (m + 1 + 1 + 1) 1) by lia.
    destruct (store b3 (m + 1 + 1 + 1 + 1) v4) as [b4|] eqn:H4; cbn [mbind option_bind]; [|done].
    apply store_length in H4 as [Hi4 Hl4]. cbn [mbind option_bind].
    apply Hk; lia. }
  assert (∀ b, length b = length (buf d) →
            0 ≤ m ∧ m + 5 ≤ Z.of_nat (length (buf d)) →
            ∀ n' ids',
              pack_loop cnt (i + 1)
                (int_add (int_add (int_add (int_add (int_add m 1) 1) 1) 1) 1)
                n' atom ids' (set_buf b d) = None ∧
              pack_triclinic_loop cnt (i + 1)
                (int_add (int_add (int_add (int_add (int_add m 1) 1) 1) 1) 1)
                n' atom ids' (set_buf b d) = None) as Hrest.
  { intros b Hb Hroom n' ids'.
    rewrite (int_add_small m 1), (int_add_small (m + 1) 1),
      (int_add_small (m + 1 + 1) 1), (int_add_small (m + 1 + 1 + 1) 1),
      (int_add_small (m + 1 + 1 + 1 + 1) 1) by lia.
    apply IH; cbn [buf set_buf]; rewrite ?group_range_set_buf, ?Hb; lia. }
  split.
  - apply Hchain; intros b Hb Hroom; destruct ids as [a|];
      [destruct (store a n tg) as [a'|]; cbn [mbind option_bind]; [|done]|];
      exact (proj1 (Hrest b Hb Hroom _ _)).
  - apply Hchain; intros b Hb Hroom; destruct ids as [a|];
      [destruct (store a n tg) as [a'|]; cbn [mbind option_bind]; [|done]|];
      exact (proj2 (Hrest b Hb Hroom _ _)).
Qed.

(** X3. When [buf] has fewer than five slots per atom of the dump group,
    both pack functions store outside it: their behaviour is undefined. *)
Theorem pack_needs_five_slots atom ids d :
  Z.of_nat (length (buf d)) ≤ MAXSMALLINT →
  Z.of_nat (length (buf d)) < 5 * Z.of_nat (length (group_atoms atom d)) →
  pack atom ids d = None ∧ pack_triclinic atom ids d = None.
Proof.
  intros Hmax Hshort. rewrite group_atoms_as_range in Hshort.
  unfold pack, pack_triclinic. apply pack_loop_short; lia.
Qed.

(** The whole effect of the two pack functions when there is room. *)
Lemma pack_whole atom ids d :
  atom_wf atom →
  Z.of_nat (5 * length (group_atoms atom d)) ≤ Z.of_nat (length (buf d)) →
  Z.of_nat (length (buf d)) ≤ MAXSMALLINT →
  (∀ a, ids = Some a →
     (length (group_atoms atom d) ≤ length a)%nat ∧
     Z.of_nat (length a) ≤ MAXSMALLINT) →
  pack atom ids d
  = Some (set_buf ((group_atoms atom d ≫= packed atom d)
                     ++ drop (5 * length (group_atoms atom d)) (buf d)) d,
          (λ a, group_tags atom d ++ drop (length (group_atoms atom d)) a)
            <$> ids) ∧
  pack_triclinic atom ids d
  = Some (set_buf ((group_atoms atom d ≫= packed_triclinic atom)
                     ++ drop (5 * length (group_atoms atom d)) (buf d)) d,
          (λ a, group_tags atom d ++ drop (length (group_atoms atom d)) a)
            <$> ids).
Proof.
  intros Hwf Hroom Hcap Hids. unfold group_tags.
  rewrite group_atoms_as_range in *.
  set (K := length (group_range atom d 0 (Z.to_nat (nlocal atom)))) in *.
  assert (ids_fit ids 0 [] (take K (default [] ids)) (drop K (default [] ids)) K)
    as Hfit.
  { intros a ->. destruct (Hids a eq_refl) as [HK Ha]. cbn.
    rewrite take_drop, length_take. repeat split; (done || lia). }
  assert (buf d = [] ++ take (5 * K) (buf d) ++ drop (5 * K) (buf d)) as Hbuf
    by (by rewrite take_drop).
  assert (length (take (5 * K) (buf d)) = (5 * K)%nat) as Hmid
    by (rewrite length_take; lia).
  pose proof Hwf as [Hn _].
  unfold pack, pack_triclinic.
  erewrite pack_loop_spec, pack_triclinic_loop_spec; eauto; try lia.
  by destruct ids.
Qed.

(** X4. With room in [buf] and in [ids], the pack functions fill the first
    5K slots of [buf] with the records of the K atoms of the group and, when
    [ids] is given, its first K entries with their identifiers in the same
    order; the rest of both arrays and every other member keep their values,
    and a null [ids] stays null. *)
Theorem pack_fills_prefix atom ids d :
  atom_wf atom →
  Z.of_nat (5 * length (group_atoms atom d)) ≤ Z.of_nat (length (buf d)) →
  Z.of_nat (length (buf d)) ≤ MAXSMALLINT →
  (∀ a, ids = Some a →
     (length (group_atoms atom d) ≤ length a)%nat ∧
     Z.of_nat (length a) ≤ MAXSMALLINT) →
  pack atom ids d
  = Some (set_buf ((group_atoms atom d ≫= packed atom d)
                     ++ drop (5 * length (group_atoms atom d)) (buf d)) d,
          (λ a, group_tags atom d ++ drop (length (group_atoms atom d)) a)
            <$> ids) ∧
  pack_triclinic atom ids d
  = Some (set_buf ((group_atoms atom d ≫= packed_triclinic atom)
                     ++ drop (5 * length (group_atoms atom d)) (buf d)) d,
          (λ a, group_tags atom d ++ drop (length (group_atoms atom d)) a)
            <$> ids).
Proof. apply pack_whole. Qed.

(** ** From the engine's arrays to the lines of the file *)

Section Lines.

Variable c_printf : string → string → float → float → float → string.

(** The lines of a buffer of records whose type codes have labels. *)
Lemma record_lines_records (f : Z → list float) (line : Z → string)
    (all : list Z) post d fmt :
  format d = Some fmt → size_one d = 5 →
  5 * Z.of_nat (length all) ≤ MAXSMALLINT →
  (∀ i, length (f i) = 5%nat) →
  (∀ i, i ∈ all →
     ∃ id ty s x y z,
       f i = [id; double_of_int ty; x; y; z] ∧
       - 2147483648 ≤ ty ≤ 2147483647 ∧ label d ty = Some s ∧
       line i = c_printf fmt s x y z) →
  ∀ l pre, all = pre ++ l →
    record_lines c_printf ((all ≫= f) ++ post) (length l)
      (5 * Z.of_nat (length pre)) d
    = Some (line <$> l).
Proof.
  intros Hfmt Hstride Hmax Hlen Hrec. unfold MAXSMALLINT in Hmax.
  induction l as [|i l IH]; intros pre Hall; [done|].
  assert (all !! length pre = Some i) as Hi
    by (subst all; by rewrite list_lookup_middle).
  assert (length all = (length pre + S (length l))%nat) as Hn
    by (subst all; rewrite length_app; done).
  destruct (Hrec i) as (id & ty & s & x & y & z & Hf & Hty & Hs & Hline).
  { subst all. apply elem_of_app. right. apply list_elem_of_here. }
  cbn [length record_lines]. unfold record_line at 1.
  rewrite Hfmt, Hstride. cbn [mbind option_bind].
  rewrite !int_add_small by lia.
  change 1 with (Z.of_nat 1) at 1. change 2 with (Z.of_nat 2) at 1.
  change 3 with (Z.of_nat 3) at 1. change 4 with (Z.of_nat 4) at 1.
  rewrite !slot_index, !at_index_nat.
  rewrite !(lookup_records f all post (length pre) i) by (done || lia).
  rewrite Hf. cbn [lookup list_lookup mbind option_bind].
  rewrite double_to_int_of_int by done. cbn [mbind option_bind].
  rewrite Hs. cbn [mbind option_bind].
  replace (5 * Z.of_nat (length pre) + 5)
    with (5 * Z.of_nat (length (pre ++ [i])))
    by (rewrite length_app; cbn [length]; lia).
  rewrite IH by (by rewrite <- (assoc_L (++))).
  cbn [mbind option_bind fmap list_fmap]. by rewrite Hline.
Qed.

Lemma record_lines_packed atom b d f post :
  format d = Some f → size_one d = 5 →
  5 * Z.of_nat (length (group_atoms atom d)) ≤ MAXSMALLINT →
  group_labelled atom d →
  record_lines c_printf ((group_atoms atom d ≫= packed atom d) ++ post)
    (length (group_atoms atom d)) 0 (set_buf b d)
  = Some (atom_line c_printf atom d f <$> group_atoms atom d) ∧
  record_lines c_printf ((group_atoms atom d ≫= packed_triclinic atom) ++ post)
    (length (group_atoms atom d)) 0 (set_buf b d)
  = Some (atom_line_triclinic c_printf atom d f <$> group_atoms atom d).
Proof.
  intros Hfmt Hstride Hmax Hlab.
  unfold group_labelled in Hlab. rewrite Forall_forall in Hlab.
  split.
  - apply (record_lines_records (packed atom d) (atom_line c_printf atom d f)
             (group_atoms atom d) post (set_buf b d) f Hfmt Hstride Hmax)
      with (pre := []); [done| |done].
    intros i Hi. destruct (Hlab i Hi) as (ty & s & Hty & Hrange & Hs).
    eexists _, ty, s, _, _, _. unfold packed, atom_line, atom_label.
    rewrite Hty. cbn [default mbind option_bind]. rewrite Hs. done.
  - apply (record_lines_records (packed_triclinic atom)
             (atom_line_triclinic c_printf atom d f)
             (group_atoms atom d) post (set_buf b d) f Hfmt Hstride Hmax)
      with (pre := []); [done| |done].
    intros i Hi. destruct (Hlab i Hi) as (ty & s & Hty & Hrange & Hs).
    eexists _, ty, s, _, _, _. unfold packed_triclinic, atom_line_triclinic, atom_label.
    rewrite Hty. cbn [default mbind option_bind]. rewrite Hs. done.
Qed.

(** X5. Packing and then writing the buffer line by line appends one line
    per atom of the group, in the order of the engine's arrays: the label of
    the atom's type and, after [pack], its coordinates minus the lower box
    bounds, after [pack_triclinic] its coordinates as they are. *)
Theorem pack_then_write_lines atom ids d f :
  atom_wf atom →
  Z.of_nat (5 * length (group_atoms atom d)) ≤ Z.of_nat (length (buf d)) →
  Z.of_nat (length (buf d)) ≤ MAXSMALLINT →
  (∀ a, ids = Some a →
     (length (group_atoms atom d) ≤ length a)%nat ∧
     Z.of_nat (length a) ≤ MAXSMALLINT) →
  format d = Some f → size_one d = 5 → group_labelled atom d →
  ∃ d1 ids1 d2 ids2,
    pack atom ids d = Some (d1, ids1) ∧
    pack_triclinic atom ids d = Some (d2, ids2) ∧
    write_lines c_printf (Z.of_nat (length (group_atoms atom d)))
      (Doubles (buf d1)) d1
    = Some (emit (text_of (atom_line c_printf atom d f <$> group_atoms atom d))
              d1) ∧
    write_lines c_printf (Z.of_nat (length (group_atoms atom d)))
      (Doubles (buf d2)) d2
    = Some (emit (text_of (atom_line_triclinic c_printf atom d f
                             <$> group_atoms atom d)) d2).
Proof.
  intros Hwf Hroom Hcap Hids Hfmt Hstride Hlab.
  destruct (pack_whole atom ids d Hwf Hroom Hcap Hids) as [-> ->].
  eexists _, _, _, _. split; [done|]. split; [done|].
  unfold write_lines. rewrite Nat2Z.id, !write_lines_loop_spec.
  cbn [buf set_buf].
  destruct (record_lines_packed atom
              ((group_atoms atom d ≫= packed atom d)
                 ++ drop (5 * length (group_atoms atom d)) (buf d))
              d f (drop (5 * length (group_atoms atom d)) (buf d)))
    as [-> _]; [done|done|lia|done|].
  destruct (record_lines_packed atom
              ((group_atoms atom d ≫= packed_triclinic atom)
                 ++ drop (5 * length (group_atoms atom d)) (buf d))
              d f (drop (5 * length (group_atoms atom d)) (buf d)))
    as [_ ->]; [done|done|lia|done|].
  done.
Qed.

End Lines.

(** ** A whole frame *)

Section Frame.

Variable c_printf : string → string → float → float → float → string.
Variable fmt_double : float → string.

Lemma write_header_first n d h :
  me d = 0 → header_choice d = Some h →
  write_header fmt_double n d
  = Some (set_fp (fp d ++ header_text fmt_double n d) d).
Proof.
  intros Hme Hh. unfold write_header. rewrite Hme, Hh. cbn [Z.eqb].
  change (header_binary_triclinic fmt_double n d)
    with (header_binary fmt_double n d).
  rewrite header_binary_fp. by destruct h.
Qed.

Lemma total_length_take k ts : total_length (take k ts) ≤ total_length ts.
Proof.
  rewrite <- (take_drop k ts) at 2. rewrite total_length_app.
  pose proof (total_length_nonneg (drop k ts)). lia.
Qed.

(** X6. One frame on process 0: [write_header], then [pack], then the
    records written through [write_data].  When [write_choice] is
    [write_lines] the packed records are written directly; when it is
    [write_string], and the character buffer can grow to hold the text,
    [convert_string] first formats them, returning the length of the text
    and not -1, and the buffer is written.  Either way the file receives the
    particle count, the lattice line and one line per atom of the group, and
    nothing else. *)
Theorem frame_text n atom ids d h w f :
  me d = 0 → header_choice d = Some h → write_choice d = Some w →
  atom_wf atom →
  Z.of_nat (5 * length (group_atoms atom d)) ≤ Z.of_nat (length (buf d)) →
  Z.of_nat (length (buf d)) ≤ MAXSMALLINT →
  (∀ a, ids = Some a →
     (length (group_atoms atom d) ≤ length a)%nat ∧
     Z.of_nat (length a) ≤ MAXSMALLINT) →
  format d = Some f → size_one d = 5 → group_labelled atom d →
  (w = Write_string →
   buffer_can_hold d (atom_line c_printf atom d f <$> group_atoms atom d)) →
  ∃ dh dp ids1 dw,
    write_header fmt_double n d = Some dh ∧
    pack atom ids dh = Some (dp, ids1) ∧
    match w with
    | Write_lines =>
        write_data c_printf (Z.of_nat (length (group_atoms atom d)))
          (Doubles (buf dp)) dp = Some dw
    | Write_string =>
        ∃ r dc,
          convert_string c_printf (Z.of_nat (length (group_atoms atom d)))
            (buf dp) dp = Some (r, dc) ∧
          r ≠ -1 ∧
          r = total_length (atom_line c_printf atom d f <$> group_atoms atom d) ∧
          write_data c_printf r (Chars (sbuf dc)) dc = Some dw
    end ∧
    fp dw = fp d ++ header_text fmt_double n d
              ++ text_of (atom_line c_printf atom d f <$> group_atoms atom d).
Proof.
  intros Hme Hh Hw Hwf Hroom Hcap Hids Hfmt Hstride Hlab Hbuf.
  rewrite (write_header_first n d h Hme Hh).
  set (dh := set_fp (fp d ++ header_text fmt_double n d) d).
  destruct (pack_whole atom ids dh Hwf Hroom Hcap Hids) as [Hpack _].
  change (group_atoms atom dh) with (group_atoms atom d) in Hpack.
  change (packed atom dh) with (packed atom d) in Hpack.
  change (buf dh) with (buf d) in Hpack.
  set (post := drop (5 * length (group_atoms atom d)) (buf d)) in *.
  set (b := (group_atoms atom d ≫= packed atom d) ++ post) in *.
  assert (5 * Z.of_nat (length (group_atoms atom d)) ≤ MAXSMALLINT) as Hmax
    by lia.
  destruct (record_lines_packed c_printf atom b dh f post Hfmt Hstride Hmax Hlab)
    as [Hlines _].
  change (group_atoms atom dh) with (group_atoms atom d) in Hlines.
  change (packed atom dh) with (packed atom d) in Hlines.
  change (atom_line c_printf atom dh f)
    with (atom_line c_printf atom d f) in Hlines.
  fold b in Hlines.
  set (lines := atom_line c_printf atom d f <$> group_atoms atom d) in *.
  destruct w.
  - (* the buffered path *)
    destruct (Hbuf eq_refl) as (Hsb & Hfit & j & Hj & Hceil & Hspace).
    pose proof (total_length_nonneg lines) as Hnn.
    assert (0 ≤ maxsbuf d) as Hpos by (destruct Hsb as [<- _]; lia).
    destruct (convert_string_loop_within c_printf b
                (length (group_atoms atom d)) 0 0 (set_buf b dh) lines j)
      as (dc & Hconv & _); [exact Hsb|done|exact Hlines|exact Hfit|exact Hj
                           |exact Hceil| |].
    { intros k _. pose proof (total_length_take k lines).
      change (maxsbuf (set_buf b dh)) with (maxsbuf d). lia. }
    rewrite Z.add_0_l in Hconv.
    assert (convert_string c_printf (Z.of_nat (length (group_atoms atom d))) b
              (set_buf b dh) = Some (total_length lines, dc)) as Hrun
      by (unfold convert_string; by rewrite Nat2Z.id).
    assert (total_length lines ≠ -1) as Hr by lia.
    destruct (convert_string_content c_printf b _ (set_buf b dh) _ dc
                Hsb Hrun Hr)
      as (ts & Hts & _ & _ & _ & _ & Hread & _ & Hdc).
    rewrite Nat2Z.id, Hlines in Hts. injection Hts as <-.
    eexists dh, _, _, _. split; [done|]. split; [exact Hpack|].
    cbn [buf set_buf]. split.
    + exists (total_length lines), dc. split; [exact Hrun|].
      split; [exact Hr|]. split; [done|].
      unfold write_data.
      replace (write_choice dc) with (write_choice d) by (by rewrite Hdc).
      rewrite Hw. unfold write_string.
      destruct (Z.ltb_spec (total_length lines) 0); [lia|].
      rewrite Hread. reflexivity.
    + rewrite Hdc. cbn. by rewrite <- (assoc_L (++)).
  - (* the direct path *)
    eexists dh, _, _, _. split; [done|]. split; [exact Hpack|].
    cbn [buf set_buf]. split.
    + unfold write_data.
      change (write_choice (set_buf b dh)) with (write_choice d). rewrite Hw.
      unfold write_lines. rewrite Nat2Z.id, write_lines_loop_spec, Hlines.
      reflexivity.
    + cbn. by rewrite <- (assoc_L (++)).
Qed.

End Frame.

(** ** More on the label table *)

Lemma pretty_N_go_length k : ∀ x s,
  (x < 10 ^ N.of_nat k)%N →
  (String.length (pretty_N_go x s) ≤ k + String.length s)%nat.
Proof.
  induction k as [|k IH]; intros x s Hx.
  - assert (x = 0%N) as -> by (cbn in Hx; lia). by rewrite pretty_N_go_0.
  - destruct (decide (x = 0%N)) as [->|Hx0]; [rewrite pretty_N_go_0; lia|].
    rewrite pretty_N_go_step by lia.
    etrans; [apply IH|cbn [String.length]; lia].
    rewrite Nat2N.inj_succ, N.pow_succ_r' in Hx.
    apply N.Div0.div_lt_upper_bound. lia.
Qed.

Lemma pretty_positive_length (p : positive) :
  Z.pos p ≤ 2147483648 → (String.length (pretty p) ≤ 10)%nat.
Proof.
  intros Hp. unfold pretty, pretty_positive, pretty, pretty_N.
  rewrite decide_False by done.
  etrans; [apply (pretty_N_go_length 10)|cbn; lia].
  change (10 ^ N.of_nat 10)%N with 10000000000%N. lia.
Qed.

(** "A 32-bit int can be maximally 10 digits plus sign." *)
Lemma pretty_int_length (t : Z) :
  - 2147483648 ≤ t ≤ 2147483647 → (String.length (pretty t) ≤ 11)%nat.
Proof.
  intros Ht. unfold pretty, pretty_Z. destruct t as [|p|p].
  - cbn. lia.
  - pose proof (pretty_positive_length p). lia.
  - pose proof (pretty_positive_length p).
    change ("-" +:+ pretty p) with (String "-" (pretty p)).
    cbn [String.length]. lia.
Qed.

Lemma label_outside d (l : list (option string)) t :
  typenames d = Some (None :: l) → t < 1 ∨ Z.of_nat (length l) < t →
  label d t = None.
Proof.
  intros Htbl Ht. unfold label. rewrite Htbl. cbn [mbind option_bind].
  unfold at_index. destruct (Z.ltb_spec t 0); [done|].
  destruct (decide (t = 0)) as [->|]; [done|].
  rewrite lookup_ge_None_2; [done|]. cbn [length]. lia.
Qed.

Lemma init_style_label dom d t :
  0 ≤ ntypes d < MAXSMALLINT → typenames d = None →
  label (init_style dom d) t
  = if (1 <=? t) && (t <=? ntypes d) then Some (pretty t) else None.
Proof.
  intros Hn Hnone. pose proof (init_style_table dom d Hn Hnone) as Htbl.
  destruct (Z.leb_spec 1 t); cbn [andb]; [destruct (Z.leb_spec t (ntypes d))|].
  - rewrite (label_tail _ _ _ Htbl) by lia.
    rewrite list_lookup_fmap, lookup_seqZ_lt by lia. cbn. do 2 f_equal. lia.
  - apply (label_outside _ _ _ Htbl). right. rewrite length_fmap, length_seqZ. lia.
  - apply (label_outside _ _ _ Htbl). left. lia.
Qed.

(** X7. The default labels fit their allocation and tell the types apart:
    when [init_style] builds the table for a type count for which
    [ntypes + 1] is an [int], a slot that holds a label is one of the slots
    1..ntypes, its label is the decimal string of its index, the label with
    its null character takes at most the twelve bytes of [new char[12]], and
    no other slot holds the same label. *)
Theorem default_labels_fit dom d t s :
  typenames d = None → 0 ≤ ntypes d < MAXSMALLINT →
  label (init_style dom d) t = Some s →
  1 ≤ t ≤ ntypes d ∧ s = pretty t ∧ (String.length s + 1 ≤ 12)%nat ∧
  ∀ t', label (init_style dom d) t' = Some s → t' = t.
Proof.
  intros Hnone Hn Hs.
  rewrite init_style_label in Hs by done. unfold MAXSMALLINT in Hn.
  destruct (Z.leb_spec 1 t); [|done].
  destruct (Z.leb_spec t (ntypes d)); [|done].
  cbn in Hs. injection Hs as <-.
  split; [done|]. split; [done|]. split.
  - pose proof (pretty_int_length t). lia.
  - intros t' Hs'.
    rewrite init_style_label in Hs' by (unfold MAXSMALLINT; done).
    destruct ((1 <=? t') && (t' <=? ntypes d)); [|done].
    injection Hs' as Heq. by apply (inj pretty) in Heq.
Qed.

Ltac members :=
  cbn [me ntypes typenames format_default format_line_user format
       buffer_flag size_one groupbit boxxlo boxxhi boxylo boxyhi boxzlo
       boxzhi boxxy boxxz boxyz buf maxsbuf sbuf header_choice pack_choice
       write_choice fp default].

(** [init_style] member by member. *)
Lemma init_style_members dom d :
  init_style dom d
  = {| me := me d; ntypes := ntypes d;
       typenames :=
         match typenames d with
         | None => Some (init_style_loop (Z.to_nat (ntypes d)) 1
                           (new_table (int_add (ntypes d) 1)))
         | Some tbl => Some tbl
         end;
       format_default := format_default d;
       format_line_user := format_line_user d;
       format :=
         Some (default (format_default d) (format_line_user d)
                 +:+ String "010" "");
       buffer_flag := buffer_flag d; size_one := size_one d;
       groupbit := groupbit d;
       boxxlo := boxxlo d; boxxhi := boxxhi d; boxylo := boxylo d;
       boxyhi := boxyhi d; boxzlo := boxzlo d; boxzhi := boxzhi d;
       boxxy := boxxy d; boxxz := boxxz d; boxyz := boxyz d;
       buf := buf d; maxsbuf := maxsbuf d; sbuf := sbuf d;
       header_choice :=
         if triclinic dom =? 0 then Some Header_binary
         else if triclinic dom =? 1 then Some Header_binary_triclinic
         else header_choice d;
       pack_choice :=
         if triclinic dom =? 0 then Some Pack
         else if triclinic dom =? 1 then Some Pack_triclinic
         else pack_choice d;
       write_choice :=
         Some (if buffer_flag d =? 1 then Write_string else Write_lines);
       fp := fp d |}.
Proof.
  unfold init_style.
  destruct (format_line_user d) eqn:Hu, (typenames d) eqn:Ht;
    unfold set_format; members; rewrite ?Ht;
    unfold set_typenames; members;
    destruct (buffer_flag d =? 1), (triclinic dom =? 0), (triclinic dom =? 1);
    unfold set_choices; members; rewrite ?Hu, ?Ht; reflexivity.
Qed.

Lemma init_style_ntypes dom d : ntypes (init_style dom d) = ntypes d.
Proof. by rewrite init_style_members. Qed.

(** Storing a table after [init_style] or before it gives the same object,
    whatever the table was before. *)
Lemma init_style_set_typenames dom tbl v d :
  init_style dom (set_typenames (Some tbl) (set_typenames v d))
  = set_typenames (Some tbl) (init_style dom d).
Proof. by rewrite !init_style_members. Qed.

(** X8. Running [init_style] again changes nothing: the format is rebuilt
    from the same source, the label table that now exists is kept, and the
    function pointers are chosen as before. *)
Theorem init_style_idempotent dom d :
  init_style dom (init_style dom d) = init_style dom d.
Proof.
  rewrite (init_style_members dom (init_style dom d)).
  rewrite (init_style_members dom d). members.
  by destruct (typenames d), (triclinic dom =? 0), (triclinic dom =? 1).
Qed.

(** [modify_param] without the detour through the null table. *)
Lemma modify_param_members narg arg d :
  modify_param narg arg d
  = match at_index arg 0 with
    | None => Undefined
    | Some arg0 =>
        if String.eqb arg0 "element" then
          if narg <? int_add (ntypes d) 1 then
            Throws "Dump modify element names do not match atom types" d
          else
            match modify_param_loop (Z.to_nat (ntypes d)) 1 arg
                    (new_table (int_add (ntypes d) 1)) with
            | None => Undefined
            | Some tbl =>
                Returns (int_add (ntypes d) 1) (set_typenames (Some tbl) d)
            end
        else Returns 0 d
    end.
Proof. unfold modify_param. by destruct (typenames d). Qed.

(** X9. [modify_param] and [init_style] commute: a request handled before
    the initialisation leaves, once [init_style] has run, the object that the
    same request handled after the initialisation leaves, with the same
    return value or the same error. *)
Theorem modify_param_init_style_commute dom narg arg d :
  modify_param narg arg (init_style dom d)
  = outcome_map (init_style dom) (modify_param narg arg d).
Proof.
  rewrite !modify_param_members, init_style_ntypes.
  destruct (at_index arg 0) as [arg0|]; [|done].
  destruct (String.eqb arg0 "element"); [|done].
  destruct (narg <? int_add (ntypes d) 1); [done|].
  destruct (modify_param_loop _ _ _ _) as [tbl|]; [|done].
  cbn [outcome_map]. f_equal. symmetry.
  apply (init_style_set_typenames dom tbl None d).
Qed.

Lemma modify_param_loop_reads cnt : ∀ itype arg tbl tbl',
  0 ≤ itype → itype + Z.of_nat cnt ≤ MAXSMALLINT →
  modify_param_loop cnt itype arg tbl = Some tbl' →
  cnt = 0%nat ∨ (Z.to_nat itype + cnt ≤ length arg)%nat.
Proof.
  unfold MAXSMALLINT.
  induction cnt as [|cnt IH]; intros itype arg tbl tbl' Hi Hmax Hloop;
    [by left|].
  right. cbn [modify_param_loop] in Hloop.
  destruct (at_index arg itype) as [s|] eqn:Hs; [|done].
  cbn [mbind option_bind] in Hloop. rewrite int_add_small in Hloop by lia.
  apply at_index_Some in Hs. apply IH in Hloop as [->|Hle]; lia.
Qed.

(** What a request that returns leaves. *)
Lemma modify_param_returns narg arg d r d' :
  0 ≤ ntypes d < MAXSMALLINT →
  modify_param narg arg d = Returns r d' → r ≠ 0 →
  at_index arg 0 = Some "element"%string ∧
  r = ntypes d + 1 ∧ r ≤ narg ∧ (Z.to_nat r ≤ length arg)%nat ∧
  d' = set_typenames
         (Some (None :: (Some <$> take (Z.to_nat (ntypes d)) (drop 1 arg)))) d.
Proof.
  intros Hn Hret Hr. unfold MAXSMALLINT in Hn.
  rewrite modify_param_members in Hret.
  destruct (at_index arg 0) as [arg0|] eqn:Harg; [|done].
  destruct (String.eqb_spec arg0 "element") as [->|]; [|by injection Hret as <-].
  rewrite int_add_small in Hret by lia.
  destruct (Z.ltb_spec narg (ntypes d + 1)); [done|].
  rewrite new_table_succ in Hret by lia.
  change (None :: replicate (Z.to_nat (ntypes d)) None)
    with ([None] ++ replicate (Z.to_nat (ntypes d)) (@None string)) in Hret.
  destruct (modify_param_loop _ _ _ _) as [tbl|] eqn:Hloop; [|done].
  injection Hret as <- <-.
  apply at_index_Some in Harg.
  pose proof (modify_param_loop_reads (Z.to_nat (ntypes d)) 1 _ _ _
                ltac:(lia) ltac:(unfold MAXSMALLINT; lia) Hloop) as Hreads.
  rewrite modify_param_loop_fill in Hloop
    by (unfold MAXSMALLINT; cbn [length]; lia).
  injection Hloop as <-.
  repeat split; (done || lia).
Qed.

Section Outside.

Variable c_printf : string → string → float → float → float → string.

Lemma record_line_unlabelled mybuf d v t :
  at_index mybuf 1 = Some v → double_to_int v = Some t → label d t = None →
  record_line c_printf 0 mybuf d = None.
Proof.
  intros Hv Ht Hl. unfold record_line.
  destruct (format d); [|done]. cbn [mbind option_bind].
  change (int_add 0 1) with 1. rewrite Hv. cbn [mbind option_bind].
  rewrite Ht. cbn [mbind option_bind]. by rewrite Hl.
Qed.

(** X10. The label table has a label for the type codes 1..ntypes only:
    after the default initialisation as after an element request, a type
    code below 1 or above [ntypes] has no label (slot 0 is never assigned,
    the others lie outside the table), and writing a record with such a type
    code is undefined. *)
Theorem type_code_outside_table dom narg arg d r d' t v mybuf n :
  0 ≤ ntypes d < MAXSMALLINT →
  t < 1 ∨ ntypes d < t →
  at_index mybuf 1 = Some v → double_to_int v = Some t → 0 < n →
  (typenames d = None →
     label (init_style dom d) t = None ∧
     write_lines c_printf n (Doubles mybuf) (init_style dom d) = None) ∧
  (modify_param narg arg d = Returns r d' → r ≠ 0 →
     label d' t = None ∧
     write_lines c_printf n (Doubles mybuf) d' = None).
Proof.
  intros Hn Ht Hv Hty Hpos.
  assert (∀ d1, label d1 t = None →
            write_lines c_printf n (Doubles mybuf) d1 = None) as Hwrite.
  { intros d1 Hl. unfold write_lines.
    replace (Z.to_nat n) with (S (Z.to_nat (n - 1))) by lia.
    cbn [write_lines_loop].
    by rewrite (record_line_unlabelled mybuf d1 v t). }
  split.
  - intros Hnone.
    assert (label (init_style dom d) t = None) as Hl.
    { rewrite init_style_label by (done || lia).
      destruct (Z.leb_spec 1 t); [|done].
      destruct (Z.leb_spec t (ntypes d)); [lia|done]. }
    auto.
  - intros Hret Hr.
    destruct (modify_param_returns _ _ _ _ _ Hn Hret Hr)
      as (_ & _ & _ & Hlen & ->).
    assert (label (set_typenames
                     (Some (None :: (Some <$> take (Z.to_nat (ntypes d))
                                                (drop 1 arg)))) d) t = None)
      as Hl.
    { apply (label_outside _ (Some <$> take (Z.to_nat (ntypes d)) (drop 1 arg)));
        [done|].
      rewrite length_fmap, length_take, length_drop. lia. }
    auto.
Qed.

End Outside.

(** ** Construction *)

(** X11. An object that the constructor returns was requested with five
    arguments for a text file that is not split by process; the base class
    is told that the style buffers and sorts by identifier, and once
    [init_style] has run without a user format the object formats with
    ["%s %g %g %g\n"], takes five values per atom, writes through
    [write_string], and, for a type count for which [ntypes + 1] is an
    [int], labels the types 1..ntypes, and only those, with their decimal
    strings. *)
Theorem constructed_session narg nt b d0 b' d dom :
  new_DumpEXTXYZ narg nt b d0 = Constructed b' d →
  format_line_user d0 = None → 0 ≤ nt < MAXSMALLINT →
  (narg = 5 ∧ binary b = 0 ∧ multiproc b = 0) ∧
  (buffer_allow b' = 1 ∧ sort_flag b' = 1 ∧ sortcol b' = 0) ∧
  format (init_style dom d) = Some ("%s %g %g %g" +:+ newline) ∧
  size_one (init_style dom d) = 5 ∧
  write_choice (init_style dom d) = Some Write_string ∧
  ∀ t, label (init_style dom d) t
       = if (1 <=? t) && (t <=? nt) then Some (pretty t) else None.
Proof.
  intros Hnew Huser Hnt. unfold new_DumpEXTXYZ in Hnew.
  destruct (Z.eqb_spec narg 5) as [Hnarg|]; [|done].
  destruct (Z.eqb_spec (binary b) 0) as [Hbin|]; [|done].
  destruct (Z.eqb_spec (multiproc b) 0) as [Hmulti|]; [|done].
  cbn [negb orb] in Hnew. injection Hnew as <- <-.
  split; [done|]. split; [done|].
  split; [|split; [|split]].
  - rewrite init_style_members. members. by rewrite Huser.
  - by rewrite init_style_members.
  - by rewrite init_style_members.
  - intros t. by rewrite init_style_label.
Qed.

(** ** Writing *)

Lemma read_cells_inv n : ∀ cells cs,
  read_cells cells n = Some cs →
  length cs = n ∧ take n cells = Some <$> cs.
Proof.
  induction n as [|n IH]; intros cells cs Hread.
  - cbn in Hread. injection Hread as <-. by rewrite take_0.
  - cbn [read_cells] in Hread. destruct cells as [|[c|] cells]; try done.
    destruct (read_cells cells n) as [cs'|] eqn:Hcs; [|done].
    cbn [mbind option_bind] in Hread. injection Hread as <-.
    apply IH in Hcs as [Hlen Htake]. cbn. by rewrite Hlen, Htake.
Qed.

(** X12. [write_string n] on a character buffer is defined exactly when [n]
    is not negative and the first [n] cells of the buffer exist and are
    initialised; it then appends those [n] bytes to the file and changes
    nothing else.  With a null pointer it does nothing, whatever [n]. *)
Theorem write_string_bytes n cells d d' :
  (write_string n (Chars cells) d = Some d' ↔
   0 ≤ n ∧ ∃ cs, length cs = Z.to_nat n ∧
                 take (Z.to_nat n) cells = Some <$> cs ∧ d' = emit cs d) ∧
  write_string n Null d = Some d.
Proof.
  split; [|done]. unfold write_string. split.
  - destruct (Z.ltb_spec n 0); [done|]. intros Hw.
    destruct (read_cells cells (Z.to_nat n)) as [cs|] eqn:Hcs; [|done].
    cbn [mbind option_bind] in Hw. injection Hw as <-.
    apply read_cells_inv in Hcs as [Hlen Htake]. eauto.
  - intros (Hn & cs & Hlen & Htake & ->).
    destruct (Z.ltb_spec n 0); [lia|].
    rewrite <- Hlen in *. by rewrite (read_cells_take cs cells Htake).
Qed.

Section Writing.

Variable c_printf : string → string → float → float → float → string.
Variable fmt_double : float → string.

(** X13. The output functions only append: whatever [write_header] and
    [write_data] do when they are defined, the bytes already in the file
    stay where they are and no member other than the file changes. *)
Theorem output_appends n p d d' :
  (write_header fmt_double n d = Some d' → ∃ text, d' = emit text d) ∧
  (write_data c_printf n p d = Some d' → ∃ text, d' = emit text d).
Proof.
  split.
  - unfold write_header. destruct (me d =? 0).
    + change (header_binary_triclinic fmt_double n d)
        with (header_binary fmt_double n d).
      rewrite header_binary_fp.
      destruct (header_choice d) as [[]|]; intros [= <-]; by eexists.
    + intros [= <-]. exists []. by rewrite emit_nil.
  - unfold write_data. destruct (write_choice d) as [[]|]; [| |done].
    + destruct p as [|a|cells]; cbn [write_string]; [| done |].
      * intros [= <-]. exists []. by rewrite emit_nil.
      * destruct (n <? 0); [done|].
        destruct (read_cells cells (Z.to_nat n)) as [cs|]; [|done].
        intros [= <-]. by eexists.
    + assert (Some d = Some d' → ∃ text, d' = emit text d) as Hnone
        by (intros [= <-]; exists []; by rewrite emit_nil).
      destruct p as [|a|cells]; cbn [write_lines];
        [by destruct (n <=? 0)| |by destruct (n <=? 0)].
      rewrite write_lines_loop_spec.
      destruct (record_lines _ _ _ _ _) as [ts|]; [|done].
      intros [= <-]. by eexists.
Qed.

(** Reading a record in the first and in the second of two buffers laid end
    to end. *)
Lemma at_index_app_l {A} (a1 a2 : list A) i :
  0 ≤ i < Z.of_nat (length a1) → at_index (a1 ++ a2) i = at_index a1 i.
Proof.
  intros Hi. unfold at_index. destruct (Z.ltb_spec i 0); [lia|].
  apply lookup_app_l. lia.
Qed.

Lemma at_index_app_r {A} (a1 a2 : list A) i :
  0 ≤ i → at_index (a1 ++ a2) (Z.of_nat (length a1) + i) = at_index a2 i.
Proof.
  intros Hi. unfold at_index.
  destruct (Z.ltb_spec (Z.of_nat (length a1) + i) 0); [lia|].
  destruct (Z.ltb_spec i 0); [lia|].
  rewrite lookup_app_r by lia. f_equal. lia.
Qed.

Lemma record_lines_app_l a1 a2 d cnt : ∀ i,
  size_one d = 5 → 0 ≤ i →
  5 * (i + Z.of_nat cnt) ≤ Z.of_nat (length a1) →
  Z.of_nat (length a1) ≤ MAXSMALLINT →
  record_lines c_printf (a1 ++ a2) cnt (5 * i) d
  = record_lines c_printf a1 cnt (5 * i) d.
Proof.
  unfold MAXSMALLINT.
  induction cnt as [|cnt IH]; intros i Hs Hi Hlen Hmax; [done|].
  cbn [record_lines]. unfold record_line. rewrite Hs.
  rewrite !int_add_small by lia.
  rewrite !(at_index_app_l a1 a2) by lia.
  replace (5 * i + 5) with (5 * (i + 1)) by lia.
  by rewrite IH by lia.
Qed.

Lemma record_lines_app_r a1 a2 d n1 cnt : ∀ i,
  size_one d = 5 → 0 ≤ i → 0 ≤ n1 →
  Z.of_nat (length a1) = 5 * n1 →
  5 * (n1 + i + Z.of_nat cnt) ≤ MAXSMALLINT →
  record_lines c_printf (a1 ++ a2) cnt (5 * (n1 + i)) d
  = record_lines c_printf a2 cnt (5 * i) d.
Proof.
  unfold MAXSMALLINT.
  induction cnt as [|cnt IH]; intros i Hs Hi Hn1 Hlen Hmax; [done|].
  cbn [record_lines]. unfold record_line. rewrite Hs.
  rewrite !int_add_small by lia.
  replace (5 * (n1 + i) + 1) with (Z.of_nat (length a1) + (5 * i + 1)) by lia.
  replace (5 * (n1 + i) + 2) with (Z.of_nat (length a1) + (5 * i + 2)) by lia.
  replace (5 * (n1 + i) + 3) with (Z.of_nat (length a1) + (5 * i + 3)) by lia.
  replace (5 * (n1 + i) + 4) with (Z.of_nat (length a1) + (5 * i + 4)) by lia.
  rewrite !(at_index_app_r a1 a2) by lia.
  replace (5 * (n1 + i) + 5) with (5 * (n1 + (i + 1))) by lia.
  replace (5 * i + 5) with (5 * (i + 1)) by lia.
  by rewrite IH by lia.
Qed.

Lemma record_lines_split mybuf d k : ∀ j i,
  size_one d = 5 → 0 ≤ i →
  5 * (i + Z.of_nat (k + j)) ≤ MAXSMALLINT →
  record_lines c_printf mybuf (k + j) (5 * i) d
  = ts1 ← record_lines c_printf mybuf k (5 * i) d;
    ts2 ← record_lines c_printf mybuf j (5 * (i + Z.of_nat k)) d;
    Some (ts1 ++ ts2).
Proof.
  unfold MAXSMALLINT.
  induction k as [|k IH]; intros j i Hs Hi Hmax.
  - cbn [plus record_lines mbind option_bind].
    replace (i + Z.of_nat 0) with i by lia.
    by destruct (record_lines _ _ _ _ _).
  - cbn [plus record_lines].
    destruct (record_line c_printf (5 * i) mybuf d) as [t|]; [|done].
    cbn [mbind option_bind]. rewrite Hs.
    rewrite int_add_small by lia.
    replace (5 * i + 5) with (5 * (i + 1)) by lia.
    rewrite IH by lia.
    replace (i + 1 + Z.of_nat k) with (i + Z.of_nat (S k)) by lia.
    destruct (record_lines c_printf mybuf k _ d) as [ts1|]; [|done].
    cbn [mbind option_bind].
    by destruct (record_lines c_printf mybuf j _ d).
Qed.

(** X14. Writing two buffers of records one after the other leaves the same
    file as writing the records of both from one buffer: for buffers [a1] of
    [n1] records and [a2] of [n2], [write_lines (n1 + n2)] on [a1] followed
    by [a2] is [write_lines n1] on [a1] and then [write_lines n2] on [a2],
    undefined when one of the two is. *)
Theorem write_lines_concat a1 a2 n1 n2 d :
  size_one d = 5 → 0 ≤ n1 → 0 ≤ n2 →
  Z.of_nat (length a1) = 5 * n1 → 5 * (n1 + n2) ≤ MAXSMALLINT →
  write_lines c_printf (n1 + n2) (Doubles (a1 ++ a2)) d
  = d1 ← write_lines c_printf n1 (Doubles a1) d;
    write_lines c_printf n2 (Doubles a2) d1.
Proof.
  intros Hs Hn1 Hn2 Hlen Hmax. unfold write_lines.
  rewrite !write_lines_loop_spec.
  replace (Z.to_nat (n1 + n2)) with (Z.to_nat n1 + Z.to_nat n2)%nat by lia.
  pose proof (record_lines_split (a1 ++ a2) d (Z.to_nat n1) (Z.to_nat n2) 0
                Hs ltac:(lia) ltac:(lia)) as Hsplit.
  pose proof (record_lines_app_l a1 a2 d (Z.to_nat n1) 0
                Hs ltac:(lia) ltac:(lia)
                ltac:(unfold MAXSMALLINT in *; lia)) as Hl.
  pose proof (record_lines_app_r a1 a2 d n1 (Z.to_nat n2) 0
                Hs ltac:(lia) Hn1 Hlen ltac:(lia)) as Hr.
  replace (0 + Z.of_nat (Z.to_nat n1)) with (n1 + 0) in Hsplit by lia.
  change (5 * 0) with 0 in *.
  rewrite Hsplit, Hl, Hr.
  destruct (record_lines c_printf a1 _ _ d) as [ts1|]; [|done].
  cbn [mbind option_bind]. rewrite write_lines_loop_spec, record_lines_emit.
  destruct (record_lines c_printf a2 _ _ d) as [ts2|]; [|done].
  cbn [mbind option_bind]. by rewrite emit_emit, text_of_app.
Qed.

End Writing.

(** ** The character buffer after [convert_string] *)

Lemma grow_same {A} (a : list (option A)) n :
  Z.of_nat (length a) = n → grow a n = a.
Proof.
  intros <-. unfold grow. rewrite Nat2Z.id, firstn_all, Nat.sub_diag.
  apply (right_id_L [] (++)).
Qed.

Lemma grow_app {A} (a : list (option A)) n :
  Z.of_nat (length a) ≤ n →
  grow a n = a ++ replicate (Z.to_nat n - length a) None.
Proof. intros Hn. unfold grow. by rewrite take_ge by lia. Qed.

Lemma grow_grow {A} (a : list (option A)) n k :
  Z.of_nat (length a) ≤ n → n ≤ k → grow (grow a n) k = grow a k.
Proof.
  intros Hn Hk. rewrite (grow_app (grow a n)) by (rewrite length_grow; lia).
  rewrite length_grow, !grow_app by lia.
  rewrite <- (assoc_L (++)), <- replicate_add. do 2 f_equal. lia.
Qed.

Section Buffer.

Variable c_printf : string → string → float → float → float → string.
Variable mybuf : list float.

(** One iteration of the loop: it returns -1 at once, or formats one line
    into the buffer, reallocated or not, and goes on. *)
Lemma convert_string_loop_step cnt m offset d r d' :
  sbuf_wf d →
  convert_string_loop c_printf (S cnt) m offset mybuf d = Some (r, d') →
  (r = -1 ∧ d' = d ∧ MAXSMALLINT < maxsbuf d + DELTA) ∨
  ∃ cap text,
    (cap = maxsbuf d ∨ cap = maxsbuf d + DELTA) ∧ cap ≤ MAXSMALLINT ∧
    record_line c_printf m mybuf d = Some text ∧
    0 ≤ offset ∧ offset + Z.of_nat (String.length text) + 1 ≤ cap ∧
    convert_string_loop c_printf cnt (int_add m (size_one d))
      (offset + Z.of_nat (String.length text)) mybuf
      (set_sbuf cap
         (take (Z.to_nat offset) (grow (sbuf d) cap)
            ++ (Some <$> list_ascii_of_string text)
            ++ Some zero
               :: drop (Z.to_nat offset + String.length text + 1)
                    (grow (sbuf d) cap)) d)
    = Some (r, d').
Proof.
  intros Hwf Hrun. cbn [convert_string_loop] in Hrun.
  destruct (ensure_line offset d) as [d1|] eqn:Hens.
  - right.
    destruct (ensure_line_Some _ _ _ Hwf Hens)
      as (cap & cells1 & -> & Hlen1 & Hmax1 & Hcap & _).
    assert (cells1 = grow (sbuf d) cap) as ->.
    { unfold ensure_line in Hens. destruct Hwf as [Hlen Hmax].
      pose proof (f_equal (fmap sbuf) Hens) as Hs.
      pose proof (f_equal (fmap maxsbuf) Hens) as Hm.
      destruct (int_add offset ONELINE >? maxsbuf d).
      - destruct (maxsbuf d + DELTA >? MAXSMALLINT); [done|].
        cbn in Hs, Hm. congruence.
      - cbn in Hs, Hm. injection Hs as <-. injection Hm as <-.
        by rewrite grow_same. }
    rewrite record_line_set_sbuf in Hrun.
    cbn [sbuf maxsbuf size_one set_sbuf] in Hrun.
    destruct (record_line c_printf m mybuf d) as [text|] eqn:Hline; [|done].
    cbn [mbind option_bind] in Hrun.
    destruct (sprintf_at _ offset text) as [cells|] eqn:Hcells; [|done].
    cbn [mbind option_bind] in Hrun.
    pose proof (sprintf_at_Some _ _ _ _ Hcells) as [Hpos Hfit].
    rewrite sprintf_at_in_range in Hcells by done. injection Hcells as <-.
    unfold MAXSMALLINT in *.
    rewrite (int_add_small offset) in Hrun by lia.
    rewrite set_sbuf_set_sbuf in Hrun.
    exists cap, text. repeat split; (done || lia).
  - left. injection Hrun as <- <-.
    apply ensure_line_None in Hens as [_ Hceil]. done.
Qed.

Lemma sbuf_wf_written d cap offset text :
  sbuf_wf d → maxsbuf d ≤ cap → cap ≤ MAXSMALLINT →
  0 ≤ offset → offset + Z.of_nat (String.length text) + 1 ≤ cap →
  sbuf_wf
    (set_sbuf cap
       (take (Z.to_nat offset) (grow (sbuf d) cap)
          ++ (Some <$> list_ascii_of_string text)
          ++ Some zero
             :: drop (Z.to_nat offset + String.length text + 1)
                  (grow (sbuf d) cap)) d).
Proof.
  intros [Hlen Hmax] Hcap Hceil Hoff Hfit. split; cbn [sbuf maxsbuf set_sbuf]; [|done].
  rewrite length_written by (rewrite ?length_grow; lia).
  rewrite length_grow. lia.
Qed.

(** Whatever the loop returns. *)
Lemma convert_string_loop_outcome cnt : ∀ m offset d r d',
  sbuf_wf d → 0 ≤ offset ≤ maxsbuf d →
  convert_string_loop c_printf cnt m offset mybuf d = Some (r, d') →
  sbuf_wf d' ∧
  (∃ i, 0 ≤ i ∧ maxsbuf d' = maxsbuf d + i * DELTA) ∧
  d' = set_sbuf (maxsbuf d') (sbuf d') d ∧
  (r = -1 ∧ MAXSMALLINT < maxsbuf d' + DELTA ∨ offset ≤ r ≤ maxsbuf d').
Proof.
  induction cnt as [|cnt IH]; intros m offset d r d' Hwf Hoff Hrun.
  - cbn in Hrun. injection Hrun as <- <-.
    split; [done|]. split; [exists 0; lia|]. split; [by destruct d|]. right. lia.
  - destruct (convert_string_loop_step _ _ _ _ _ _ Hwf Hrun)
      as [(-> & -> & Hceil)|(cap & text & Hcap & Hmax & Hline & Hpos & Hfit & Hrest)].
    + split; [done|]. split; [exists 0; lia|]. split; [by destruct d|]. by left.
    + apply IH in Hrest as (Hwf' & (i & Hi & Hcap') & Hd' & Hr).
      * cbn [maxsbuf set_sbuf] in *.
        split; [done|]. split; [|split].
        -- unfold DELTA in *. destruct Hcap as [->| ->]; [exists i|exists (i + 1)]; lia.
        -- by rewrite Hd'.
        -- destruct Hr as [Hr|Hr]; [by left|right; lia].
      * apply sbuf_wf_written; try (done || lia).
        unfold DELTA in *. destruct Hcap as [->| ->]; lia.
      * cbn [maxsbuf set_sbuf]. lia.
Qed.

(** X15. The return value of [convert_string] is unambiguous: on a buffer of
    [maxsbuf] cells a call that returns gives -1 only when the capacity it
    leaves cannot grow by [DELTA] without exceeding [MAXSMALLINT], and
    otherwise an offset between 0 and the capacity; in both cases the
    capacity has grown by a whole number of [DELTA]s, the buffer has that
    many cells, and no member other than the buffer and its capacity has
    changed. *)
Theorem convert_string_return_value n d r d' :
  sbuf_wf d →
  convert_string c_printf n mybuf d = Some (r, d') →
  (r = -1 ∧ 0 < n ∧ MAXSMALLINT < maxsbuf d' + DELTA ∨ 0 ≤ r ≤ maxsbuf d') ∧
  sbuf_wf d' ∧
  (∃ i, 0 ≤ i ∧ maxsbuf d' = maxsbuf d + i * DELTA) ∧
  d' = set_sbuf (maxsbuf d') (sbuf d') d.
Proof.
  intros Hwf Hrun. unfold convert_string in Hrun.
  assert (0 ≤ maxsbuf d) as Hcap by (destruct Hwf as [<- _]; lia).
  destruct (convert_string_loop_outcome _ _ 0 _ _ _ Hwf (conj (Z.le_refl 0) Hcap) Hrun)
    as (Hwf' & Hi & Hd' & Hr).
  split; [|done].
  destruct Hr as [[-> Hceil]|Hr]; [left|by right].
  split; [done|]. split; [|done].
  destruct (decide (0 < n)) as [|Hn]; [done|].
  replace (Z.to_nat n) with 0%nat in Hrun by lia. by cbn in Hrun.
Qed.

Lemma drop_written (cells : list (option ascii)) offset text k :
  0 ≤ offset →
  offset + Z.of_nat (String.length text) + 1 ≤ Z.of_nat (length cells) →
  (Z.to_nat offset + String.length text + 1 ≤ k)%nat →
  drop k (take (Z.to_nat offset) cells
            ++ (Some <$> list_ascii_of_string text)
            ++ Some zero
               :: drop (Z.to_nat offset + String.length text + 1) cells)
  = drop k cells.
Proof.
  intros Hoff Hfit Hk.
  rewrite (cons_middle (Some zero)), !(assoc_L (++)).
  rewrite drop_app_ge;
    rewrite !length_app, length_take, length_fmap,
      length_list_ascii_of_string; cbn [length]; [|lia].
  rewrite drop_drop. f_equal. lia.
Qed.

(** The cells after the last null character are those of the buffer the
    call was given, reallocated to the capacity it leaves. *)
Lemma convert_string_loop_tail cnt : ∀ m offset d r d',
  sbuf_wf d → 0 ≤ offset ≤ maxsbuf d →
  convert_string_loop c_printf cnt m offset mybuf d = Some (r, d') → r ≠ -1 →
  drop (Z.to_nat r + 1) (sbuf d')
  = drop (Z.to_nat r + 1) (grow (sbuf d) (maxsbuf d')).
Proof.
  induction cnt as [|cnt IH]; intros m offset d r d' Hwf Hoff Hrun Hr.
  - cbn in Hrun. injection Hrun as <- <-.
    destruct Hwf as [Hlen _]. by rewrite grow_same.
  - destruct (convert_string_loop_step _ _ _ _ _ _ Hwf Hrun)
      as [(-> & _)|(cap & text & Hcap & Hmax & Hline & Hpos & Hfit & Hrest)];
      [done|].
    pose proof Hwf as [Hlen Hceil].
    assert (maxsbuf d ≤ cap) as Hle
      by (unfold DELTA in *; destruct Hcap as [->| ->]; lia).
    pose proof (sbuf_wf_written d cap offset text Hwf Hle Hmax Hpos Hfit) as Hwf2.
    match type of Hwf2 with
    | sbuf_wf ?d2 =>
        assert (0 ≤ offset + Z.of_nat (String.length text) ≤ maxsbuf d2)
          as Hoff2 by (cbn [maxsbuf set_sbuf]; lia)
    end.
    destruct (convert_string_loop_outcome _ _ _ _ _ _ Hwf2 Hoff2 Hrest)
      as (Hwf' & (i & Hi & Hcap') & _ & [[-> _]|Hr']); [done|].
    cbn [maxsbuf set_sbuf] in Hcap'.
    rewrite (IH _ _ _ _ _ Hwf2 Hoff2 Hrest Hr).
    cbn [sbuf set_sbuf].
    assert (cap ≤ maxsbuf d') as Hle' by (unfold DELTA in *; lia).
    rewrite <- (grow_grow (sbuf d) cap (maxsbuf d')) by lia.
    set (G := grow (sbuf d) cap) in *.
    assert (length G = Z.to_nat cap) as HG by apply length_grow.
    pose proof (drop_written G offset text (Z.to_nat r + 1) Hpos
                  ltac:(lia) ltac:(lia)) as HW.
    pose proof (length_written G offset text Hpos ltac:(lia)) as HL.
    match type of HL with length ?w = _ => set (W := w) in * end.
    rewrite !(grow_app _ (maxsbuf d')) by lia.
    by rewrite !drop_app, HW, HL.
Qed.

(** After at least one record the text in the buffer ends with a null
    character. *)
Lemma convert_string_loop_nul cnt : ∀ m offset d r d',
  sbuf_wf d → 0 ≤ offset ≤ maxsbuf d →
  convert_string_loop c_printf (S cnt) m offset mybuf d = Some (r, d') →
  r ≠ -1 →
  sbuf d' !! Z.to_nat r = Some (Some zero).
Proof.
  induction cnt as [|cnt IH]; intros m offset d r d' Hwf Hoff Hrun Hr;
    (destruct (convert_string_loop_step _ _ _ _ _ _ Hwf Hrun)
      as [(-> & _)|(cap & text & Hcap & Hmax & Hline & Hpos & Hfit & Hrest)];
      [done|]);
    (assert (maxsbuf d ≤ cap) as Hle
       by (unfold DELTA in *; destruct Hcap as [->| ->]; lia)).
  - cbn in Hrest. injection Hrest as <- <-. cbn [sbuf set_sbuf].
    rewrite (assoc_L (++)).
    apply list_lookup_middle.
    rewrite length_app, length_take, length_fmap, length_grow,
      length_list_ascii_of_string. lia.
  - apply IH in Hrest; [done| | |done].
    + by apply sbuf_wf_written.
    + cbn [maxsbuf set_sbuf]. lia.
Qed.

(** X16. The buffer that [convert_string] leaves after at least one record
    and a return other than -1 is the text of the records, a null character,
    and then, untouched, the cells that the buffer it was given had from that
    index on, new cells being uninitialised. *)
Theorem convert_string_buffer n d r d' :
  sbuf_wf d → 0 < n →
  convert_string c_printf n mybuf d = Some (r, d') → r ≠ -1 →
  ∃ ts,
    record_lines c_printf mybuf (Z.to_nat n) 0 d = Some ts ∧
    r = total_length ts ∧
    sbuf d'
    = (Some <$> text_of ts)
        ++ Some zero
           :: drop (Z.to_nat r + 1)
                (sbuf d ++ replicate (Z.to_nat (maxsbuf d' - maxsbuf d)) None).
Proof.
  intros Hwf Hn Hrun Hr.
  destruct (convert_string_content _ _ _ _ _ _ Hwf Hrun Hr)
    as (ts & Hts & Hrt & _ & Hwf' & Htake & _ & (i & Hi & Hcap) & _).
  exists ts. split; [done|]. split; [done|].
  pose proof Hwf as [Hlen Hceil].
  assert (0 ≤ maxsbuf d) as Hpos by lia.
  unfold convert_string in Hrun.
  pose proof (convert_string_loop_tail _ _ _ _ _ _ Hwf
                (conj (Z.le_refl 0) Hpos) Hrun Hr) as Htail.
  replace (Z.to_nat n) with (S (Z.to_nat (n - 1))) in Hrun by lia.
  pose proof (convert_string_loop_nul _ _ _ _ _ _ Hwf
                (conj (Z.le_refl 0) Hpos) Hrun Hr) as Hnul.
  rewrite grow_app in Htail by (unfold DELTA in *; lia).
  replace (Z.to_nat (maxsbuf d') - length (sbuf d))%nat
    with (Z.to_nat (maxsbuf d' - maxsbuf d)) in Htail by lia.
  rewrite <- Htail.
  rewrite <- (take_drop (Z.to_nat r) (sbuf d')) at 1.
  assert (Z.to_nat r = length (text_of ts)) as Hlen'
    by (rewrite Hrt; unfold total_length; lia).
  rewrite Hlen' at 1. rewrite Htake. f_equal.
  rewrite (drop_S _ _ _ Hnul). do 2 f_equal. lia.
Qed.

(** A buffer with room for the text and one more line is not reallocated. *)
Lemma convert_string_loop_fits cnt : ∀ m offset d ts,
  sbuf_wf d → 0 ≤ offset →
  record_lines c_printf mybuf cnt m d = Some ts →
  offset + total_length ts + ONELINE ≤ maxsbuf d →
  ∃ cells,
    convert_string_loop c_printf cnt m offset mybuf d
    = Some (offset + total_length ts, set_sbuf (maxsbuf d) cells d) ∧
    length cells = length (sbuf d).
Proof.
  induction cnt as [|cnt IH]; intros m offset d ts Hwf Hoff Hts Hroom.
  - cbn in Hts. injection Hts as <-. exists (sbuf d).
    change (total_length []) with 0. rewrite Z.add_0_r.
    split; [|done]. cbn. by destruct d.
  - apply record_lines_S in Hts as (t & ts' & -> & Hline & Hts').
    rewrite total_length_cons in Hroom.
    pose proof (total_length_nonneg ts') as Hnn.
    pose proof Hwf as [Hlen Hceil]. unfold ONELINE in *.
    rewrite (convert_string_loop_formats _ _ _ _ _ _ (maxsbuf d) (sbuf d) t);
      [|apply ensure_line_room; unfold ONELINE; lia|done|done|lia|lia].
    destruct (IH (int_add m (size_one d))
                (offset + Z.of_nat (String.length t))
                (set_sbuf (maxsbuf d)
                   (take (Z.to_nat offset) (sbuf d)
                      ++ (Some <$> list_ascii_of_string t)
                      ++ Some zero
                         :: drop (Z.to_nat offset + String.length t + 1)
                              (sbuf d)) d) ts')
      as (cells & Hrun & Hcells).
    + split; cbn [sbuf maxsbuf set_sbuf]; [|done].
      rewrite length_written by lia. done.
    + lia.
    + by rewrite record_lines_set_sbuf.
    + cbn [maxsbuf set_sbuf]. lia.
    + exists cells. rewrite Hrun. cbn [maxsbuf sbuf set_sbuf] in *.
      rewrite total_length_cons, length_written in * by lia.
      split; [|done]. do 2 f_equal. lia.
Qed.

(** X17. A buffer that has room for the whole text of a batch and
    [ONELINE] bytes more is reused as it is: whatever the lengths of the
    lines, [convert_string] returns the length of the text and leaves the
    capacity and the size of the buffer unchanged. *)
Theorem convert_string_reuses_buffer n d ts :
  sbuf_wf d →
  record_lines c_printf mybuf (Z.to_nat n) 0 d = Some ts →
  total_length ts + ONELINE ≤ maxsbuf d →
  ∃ d',
    convert_string c_printf n mybuf d = Some (total_length ts, d') ∧
    maxsbuf d' = maxsbuf d ∧ length (sbuf d') = length (sbuf d) ∧
    d' = set_sbuf (maxsbuf d) (sbuf d') d.
Proof.
  intros Hwf Hts Hroom.
  destruct (convert_string_loop_fits _ 0 0 d ts Hwf ltac:(lia) Hts ltac:(lia))
    as (cells & Hrun & Hlen).
  eexists. unfold convert_string. rewrite Hrun. by cbn.
Qed.

End Buffer.

(** ** Destruction *)

Lemma delete_labels_loop_defined tbl cnt : ∀ i,
  0 ≤ i → i + Z.of_nat cnt ≤ MAXSMALLINT →
  (∀ j, i ≤ j < i + Z.of_nat cnt → ∃ s, at_index tbl j = Some (Some s)) →
  delete_labels_loop cnt i tbl = Some ().
Proof.
  unfold MAXSMALLINT.
  induction cnt as [|cnt IH]; intros i Hi Hmax Hslots; [done|].
  cbn [delete_labels_loop]. destruct (Hslots i) as [s ->]; [lia|].
  cbn [mbind option_bind]. rewrite int_add_small by lia.
  apply IH; [lia|lia|]. intros j Hj. apply Hslots. lia.
Qed.

Lemma label_slot d tbl t s :
  typenames d = Some tbl → label d t = Some s →
  at_index tbl t = Some (Some s).
Proof.
  intros Htbl. unfold label. rewrite Htbl. cbn [mbind option_bind].
  by destruct (at_index tbl t) as [[?|]|]; cbn; intros [= ->].
Qed.

Lemma delete_labelled d :
  0 ≤ ntypes d < MAXSMALLINT →
  (∀ t, 1 ≤ t ≤ ntypes d → ∃ s, label d t = Some s) →
  delete_DumpEXTXYZ d = Some ().
Proof.
  intros Hn Hlabels. unfold delete_DumpEXTXYZ.
  destruct (typenames d) as [tbl|] eqn:Htbl; [|done].
  apply delete_labels_loop_defined; [lia|lia|]. intros j Hj.
  destruct (Hlabels j) as [s Hs]; [lia|].
  exists s. by apply (label_slot d).
Qed.

(** X18. The destructor frees only what was allocated: on an object that
    was never initialised, on one whose label table [init_style] built, and
    on one whose table an element request filled, every pointer that its loop
    deletes lies in the table and was assigned, so its behaviour is
    defined. *)
Theorem destructor_defined dom narg arg d r d' :
  0 ≤ ntypes d < MAXSMALLINT →
  (typenames d = None →
     delete_DumpEXTXYZ d = Some () ∧
     delete_DumpEXTXYZ (init_style dom d) = Some ()) ∧
  (modify_param narg arg d = Returns r d' → r ≠ 0 →
     delete_DumpEXTXYZ d' = Some () ∧
     delete_DumpEXTXYZ (init_style dom d') = Some ()).
Proof.
  intros Hn. split.
  - intros Hnone. split; [unfold delete_DumpEXTXYZ; by rewrite Hnone|].
    apply delete_labelled; rewrite init_style_ntypes; [done|]. intros t Ht.
    rewrite init_style_label by done.
    destruct (Z.leb_spec 1 t); [|lia].
    destruct (Z.leb_spec t (ntypes d)); [|lia]. by eexists.
  - intros Hret Hr.
    destruct (modify_param_returns _ _ _ _ _ Hn Hret Hr)
      as (_ & -> & _ & Hlen & ->).
    assert (∀ t, 1 ≤ t ≤ ntypes d →
              ∃ s, label (set_typenames
                            (Some (None :: (Some <$> take (Z.to_nat (ntypes d))
                                                       (drop 1 arg)))) d) t
                   = Some s) as Hlabels.
    { intros t Ht.
      rewrite (label_tail _ (Some <$> take (Z.to_nat (ntypes d)) (drop 1 arg)))
        by (done || lia).
      rewrite list_lookup_fmap, lookup_take_lt, lookup_drop by lia.
      destruct (lookup_lt_is_Some_2 arg (1 + Z.to_nat (t - 1))) as [s ->]; [lia|].
      by exists s. }
    split; [by apply delete_labelled|].
    apply delete_labelled; rewrite init_style_ntypes; [done|]. intros t Ht.
    cbn [ntypes set_typenames] in Ht.
    destruct (Hlabels t Ht) as [s Hs]. exists s.
    unfold label in *. rewrite init_style_typenames. exact Hs.
Qed.

(** ** The header after initialisation *)

Section Initialised.

Variable fmt_double : float → string.

(** X19. [init_style] sets the header function in an orthogonal and in a
    triclinic domain, and only there: after it [write_header] on process 0
    appends the same two lines in both kinds of domain, while for any other
    value of [domain->triclinic] an object whose pointer was never set still
    has none, and the call through it is undefined. *)
Theorem init_style_then_write_header dom n d :
  me d = 0 →
  (triclinic dom = 0 ∨ triclinic dom = 1 →
     write_header fmt_double n (init_style dom d)
     = Some (emit (header_text fmt_double n d) (init_style dom d))) ∧
  (triclinic dom ≠ 0 → triclinic dom ≠ 1 → header_choice d = None →
     write_header fmt_double n (init_style dom d) = None).
Proof.
  intros Hme.
  assert (me (init_style dom d) = 0) as Hme'
    by (by rewrite init_style_members).
  split.
  - intros Hdom.
    assert (∃ h, header_choice (init_style dom d) = Some h) as [h Hh].
    { rewrite init_style_members. members.
      destruct Hdom as [-> | ->]; cbn; eauto. }
    rewrite (write_header_first fmt_double n _ h Hme' Hh).
    unfold emit. do 3 f_equal. by rewrite init_style_members.
  - intros H0 H1 Hnone. unfold write_header. rewrite Hme'. cbn [Z.eqb].
    rewrite init_style_members. members.
    destruct (Z.eqb_spec (triclinic dom) 0); [done|].
    destruct (Z.eqb_spec (triclinic dom) 1); [done|].
    by rewrite Hnone.
Qed.

End Initialised.

(** ** The further properties on the worked instances *)

Lemma int_double_round_trip_witness :
  double_to_int (double_of_int 7) = Some 7 ∧
  (double_of_int 7 = double_of_int 8 → 7 = 8).
Proof. apply (int_double_round_trip 7 8); lia. Defined.

Lemma pack_zero_bounds_witness :
  boxxlo dump1 = 0%float ∧ boxylo dump1 = 0%float ∧ boxzlo dump1 = 0%float ∧
  pack three_atoms None dump1 = pack_triclinic three_atoms None dump1.
Proof.
  split; [reflexivity|]. split; [reflexivity|]. split; [reflexivity|].
  apply (pack_zero_bounds three_atoms None dump1); reflexivity.
Defined.

Lemma pack_needs_five_slots_witness :
  Z.of_nat (length (buf (set_buf (replicate 9 0%float) dump_shifted)))
    ≤ MAXSMALLINT ∧
  Z.of_nat (length (buf (set_buf (replicate 9 0%float) dump_shifted)))
    < 5 * Z.of_nat (length (group_atoms three_atoms
                              (set_buf (replicate 9 0%float) dump_shifted))) ∧
  pack three_atoms None (set_buf (replicate 9 0%float) dump_shifted) = None.
Proof.
  assert (Z.of_nat (length (buf (set_buf (replicate 9 0%float) dump_shifted)))
          ≤ MAXSMALLINT) as Hmax by (vm_compute; congruence).
  assert (Z.of_nat (length (buf (set_buf (replicate 9 0%float) dump_shifted)))
          < 5 * Z.of_nat (length (group_atoms three_atoms
                                    (set_buf (replicate 9 0%float) dump_shifted))))
    as Hshort by (vm_compute; reflexivity).
  split; [exact Hmax|]. split; [exact Hshort|].
  apply (pack_needs_five_slots three_atoms None _ Hmax Hshort).
Defined.

Lemma three_atoms_room :
  Z.of_nat (5 * length (group_atoms three_atoms dump_shifted))
    ≤ Z.of_nat (length (buf dump_shifted)) ∧
  Z.of_nat (length (buf dump_shifted)) ≤ MAXSMALLINT.
Proof. split; vm_compute; congruence. Defined.

Lemma three_atoms_labelled : group_labelled three_atoms dump_shifted.
Proof.
  unfold group_labelled.
  assert (group_atoms three_atoms dump_shifted = [0; 2]) as ->
    by (vm_compute; reflexivity).
  repeat apply Forall_cons_2; [| |apply Forall_nil_2].
  - exists 1, "1"%string. split; [reflexivity|]. split; [lia|reflexivity].
  - exists 2, "2"%string. split; [reflexivity|]. split; [lia|reflexivity].
Defined.

Lemma pack_fills_prefix_witness :
  atom_wf three_atoms ∧
  Z.of_nat (5 * length (group_atoms three_atoms dump_shifted))
    ≤ Z.of_nat (length (buf dump_shifted)) ∧
  Z.of_nat (length (buf dump_shifted)) ≤ MAXSMALLINT ∧
  pack three_atoms (Some [0; 0; 0]) dump_shifted
  = Some (set_buf [7; 1; 2; 5; 3; 9; 2; 4; 8; 7]%float dump_shifted,
          Some [7; 9; 0]).
Proof.
  destruct three_atoms_room as [Hroom Hcap].
  split; [exact three_atoms_wf|]. split; [exact Hroom|]. split; [exact Hcap|].
  destruct (pack_fills_prefix three_atoms (Some [0; 0; 0]) dump_shifted
              three_atoms_wf Hroom Hcap) as [Hp _].
  { intros a [= <-]. split; vm_compute; [lia|congruence]. }
  rewrite Hp. vm_compute. reflexivity.
Defined.

Lemma pack_then_write_lines_witness :
  atom_wf three_atoms ∧
  format dump_shifted = Some ("%s %g %g %g" +:+ newline) ∧
  size_one dump_shifted = 5 ∧
  group_labelled three_atoms dump_shifted ∧
  ∃ d1 ids1,
    pack three_atoms None dump_shifted = Some (d1, ids1) ∧
    fp <$> write_lines demo_printf 2 (Doubles (buf d1)) d1
    = Some (list_ascii_of_string
              ("1 2 5 3" +:+ newline +:+ "2 4 8 7" +:+ newline)).
Proof.
  destruct three_atoms_room as [Hroom Hcap].
  split; [exact three_atoms_wf|]. split; [reflexivity|]. split; [reflexivity|].
  split; [exact three_atoms_labelled|].
  destruct (pack_then_write_lines demo_printf three_atoms None dump_shifted
              ("%s %g %g %g" +:+ newline) three_atoms_wf Hroom Hcap
              ltac:(intros a [=]) eq_refl eq_refl three_atoms_labelled)
    as (d1 & ids1 & _ & _ & Hp & _ & Hw & _).
  exists d1, ids1. split; [exact Hp|].
  change (Z.of_nat (length (group_atoms three_atoms dump_shifted))) with 2 in Hw.
  rewrite Hw. vm_compute in Hp. injection Hp as <- _.
  vm_compute. reflexivity.
Defined.

Lemma dump_direct_room :
  Z.of_nat (5 * length (group_atoms three_atoms dump_direct))
    ≤ Z.of_nat (length (buf dump_direct)) ∧
  Z.of_nat (length (buf dump_direct)) ≤ MAXSMALLINT.
Proof. split; vm_compute; congruence. Defined.

Lemma three_atoms_labelled_direct : group_labelled three_atoms dump_direct.
Proof.
  unfold group_labelled.
  assert (group_atoms three_atoms dump_direct = [0; 2]) as ->
    by (vm_compute; reflexivity).
  repeat apply Forall_cons_2; [| |apply Forall_nil_2].
  - exists 1, "1"%string. split; [reflexivity|]. split; [lia|reflexivity].
  - exists 2, "2"%string. split; [reflexivity|]. split; [lia|reflexivity].
Defined.

Lemma dump_shifted_can_hold :
  buffer_can_hold dump_shifted
    (atom_line demo_printf three_atoms dump_shifted ("%s %g %g %g" +:+ newline)
       <$> group_atoms three_atoms dump_shifted).
Proof.
  assert ((atom_line demo_printf three_atoms dump_shifted
             ("%s %g %g %g" +:+ newline)
             <$> group_atoms three_atoms dump_shifted)
          = ["1 2 5 3" +:+ newline; "2 4 8 7" +:+ newline]) as ->
    by (vm_compute; reflexivity).
  split; [split; vm_compute; congruence|]. split.
  - repeat (apply Forall_cons; split; [vm_compute; congruence|]).
    apply Forall_nil_2.
  - exists 1. split; [lia|]. split; vm_compute; congruence.
Defined.

Lemma frame_text_witness :
  (write_choice dump_shifted = Some Write_string ∧
   ∃ dh dp ids1 dc dw,
     write_header demo_fmt_double 2 dump_shifted = Some dh ∧
     pack three_atoms None dh = Some (dp, ids1) ∧
     convert_string demo_printf 2 (buf dp) dp = Some (16, dc) ∧
     write_data demo_printf 16 (Chars (sbuf dc)) dc = Some dw ∧
     fp dw = list_ascii_of_string frame_of_three_atoms) ∧
  (write_choice dump_direct = Some Write_lines ∧
   ∃ dh dp ids1 dw,
     write_header demo_fmt_double 2 dump_direct = Some dh ∧
     pack three_atoms None dh = Some (dp, ids1) ∧
     write_data demo_printf 2 (Doubles (buf dp)) dp = Some dw ∧
     fp dw = list_ascii_of_string frame_of_three_atoms).
Proof.
  split.
  - split; [reflexivity|].
    destruct three_atoms_room as [Hroom Hcap].
    destruct (frame_text demo_printf demo_fmt_double 2 three_atoms None
                dump_shifted Header_binary Write_string
                ("%s %g %g %g" +:+ newline)
                eq_refl eq_refl eq_refl three_atoms_wf Hroom Hcap
                ltac:(intros a [=]) eq_refl eq_refl three_atoms_labelled
                (λ _, dump_shifted_can_hold))
      as (dh & dp & ids1 & dw & Hh & Hp & (r & dc & Hrun & _ & Hr & Hw) & Hfp).
    assert (r = 16) as -> by (rewrite Hr; vm_compute; reflexivity).
    exists dh, dp, ids1, dc, dw. split; [exact Hh|]. split; [exact Hp|].
    split; [exact Hrun|]. split; [exact Hw|].
    rewrite Hfp. vm_compute. reflexivity.
  - split; [reflexivity|].
    destruct dump_direct_room as [Hroom Hcap].
    destruct (frame_text demo_printf demo_fmt_double 2 three_atoms None
                dump_direct Header_binary Write_lines
                ("%s %g %g %g" +:+ newline)
                eq_refl eq_refl eq_refl three_atoms_wf Hroom Hcap
                ltac:(intros a [=]) eq_refl eq_refl three_atoms_labelled_direct
                ltac:(intros [=]))
      as (dh & dp & ids1 & dw & Hh & Hp & Hw & Hfp).
    exists dh, dp, ids1, dw. split; [exact Hh|]. split; [exact Hp|].
    split; [exact Hw|]. rewrite Hfp. vm_compute. reflexivity.
Defined.

Lemma default_labels_fit_witness :
  typenames (fresh_dump 0 10 0 5 0 2 0 0 0) = None ∧
  0 ≤ ntypes (fresh_dump 0 10 0 5 0 2 0 0 0) < MAXSMALLINT ∧
  label dump1 2 = Some "2"%string ∧
  (String.length "2" + 1 ≤ 12)%nat ∧
  ∀ t, label dump1 t = Some "2"%string → t = 2.
Proof.
  assert (0 ≤ ntypes (fresh_dump 0 10 0 5 0 2 0 0 0) < MAXSMALLINT) as Hn
    by (cbn; unfold MAXSMALLINT; lia).
  split; [reflexivity|]. split; [exact Hn|]. split; [reflexivity|].
  destruct (default_labels_fit orthogonal (fresh_dump 0 10 0 5 0 2 0 0 0)
              2 "2" eq_refl Hn eq_refl) as (_ & _ & Hlen & Honly).
  split; [exact Hlen|exact Honly].
Defined.

Lemma type_code_outside_table_witness :
  0 ≤ ntypes (fresh_dump 0 10 0 5 0 2 0 0 0) < MAXSMALLINT ∧
  at_index [1; 3; 0; 0; 0]%float 1 = Some 3%float ∧
  double_to_int 3 = Some 3 ∧
  label dump1 3 = None ∧
  write_lines demo_printf 1 (Doubles [1; 3; 0; 0; 0]%float) dump1 = None.
Proof.
  assert (0 ≤ ntypes (fresh_dump 0 10 0 5 0 2 0 0 0) < MAXSMALLINT) as Hn
    by (cbn; unfold MAXSMALLINT; lia).
  split; [exact Hn|]. split; [reflexivity|]. split; [reflexivity|].
  destruct (type_code_outside_table demo_printf orthogonal 0 []
              (fresh_dump 0 10 0 5 0 2 0 0 0) 0 dump1 3 3%float
              [1; 3; 0; 0; 0]%float 1 Hn ltac:(right; vm_compute; reflexivity)
              eq_refl eq_refl ltac:(lia)) as [Hdefault _].
  exact (Hdefault eq_refl).
Defined.

Lemma constructed_session_witness :
  ∃ b' d,
    new_DumpEXTXYZ 5 2
      {| binary := 0; multiproc := 0; buffer_allow := 0; sort_flag := 0;
         sortcol := 0 |}
      (fresh_dump 0 10 0 5 0 2 0 0 0)
    = Constructed b' d ∧
    format (init_style orthogonal d) = Some ("%s %g %g %g" +:+ newline) ∧
    write_choice (init_style orthogonal d) = Some Write_string ∧
    label (init_style orthogonal d) 2 = Some "2"%string.
Proof.
  eexists _, _. split; [reflexivity|].
  match goal with
  | |- format (init_style _ ?d) = _ ∧ _ =>
      destruct (constructed_session 5 2
                  {| binary := 0; multiproc := 0; buffer_allow := 0;
                     sort_flag := 0; sortcol := 0 |}
                  (fresh_dump 0 10 0 5 0 2 0 0 0) _ d orthogonal
                  eq_refl eq_refl ltac:(unfold MAXSMALLINT; lia))
        as (_ & _ & Hformat & _ & Hwrite & Hlabel)
  end.
  split; [exact Hformat|]. split; [exact Hwrite|]. exact (Hlabel 2).
Defined.

Lemma write_lines_concat_witness :
  size_one dump1 = 5 ∧
  Z.of_nat (length [7; 1; 2; 5; 3]%float) = 5 * 1 ∧
  5 * (1 + 1) ≤ MAXSMALLINT ∧
  write_lines demo_printf (1 + 1)
    (Doubles ([7; 1; 2; 5; 3] ++ [9; 2; 5; 6; 7])%float) dump1
  = d1 ← write_lines demo_printf 1 (Doubles [7; 1; 2; 5; 3]%float) dump1;
    write_lines demo_printf 1 (Doubles [9; 2; 5; 6; 7]%float) d1.
Proof.
  assert (5 * (1 + 1) ≤ MAXSMALLINT) as Hmax by (vm_compute; congruence).
  split; [reflexivity|]. split; [reflexivity|]. split; [exact Hmax|].
  apply (write_lines_concat demo_printf [7; 1; 2; 5; 3]%float
           [9; 2; 5; 6; 7]%float 1 1 dump1 eq_refl ltac:(lia) ltac:(lia)
           eq_refl Hmax).
Defined.

Lemma dump_small_wf : sbuf_wf dump_small.
Proof. split; vm_compute; congruence. Defined.

Lemma convert_string_return_value_witness :
  sbuf_wf dump_small ∧
  ∃ d', convert_string demo_printf 2 two_records dump_small = Some (16, d') ∧
        0 ≤ 16 ≤ maxsbuf d' ∧ sbuf_wf d' ∧
        d' = set_sbuf (maxsbuf d') (sbuf d') dump_small.
Proof.
  split; [exact dump_small_wf|].
  destruct (convert_string demo_printf 2 two_records dump_small)
    as [[r d']|] eqn:Hrun; [|vm_compute in Hrun; discriminate].
  assert (r = 16) as -> by (vm_compute in Hrun; congruence).
  exists d'. split; [reflexivity|].
  destruct (convert_string_return_value demo_printf two_records 2 dump_small
              16 d' dump_small_wf Hrun) as ([[Hr _]|Hr] & Hwf & _ & Hd).
  - discriminate Hr.
  - split; [exact Hr|]. split; [exact Hwf|exact Hd].
Defined.

Lemma convert_string_buffer_witness :
  sbuf_wf dump_small ∧ 0 < 2 ∧
  ∃ d', convert_string demo_printf 2 two_records dump_small = Some (16, d') ∧
        sbuf d' = (Some <$> text_of two_lines) ++ Some zero
                    :: replicate 283 None.
Proof.
  split; [exact dump_small_wf|]. split; [lia|].
  destruct (convert_string demo_printf 2 two_records dump_small)
    as [[r d']|] eqn:Hrun; [|vm_compute in Hrun; discriminate].
  assert (r = 16) as -> by (vm_compute in Hrun; congruence).
  assert (maxsbuf d' = 300) as Hcap
    by (vm_compute in Hrun; injection Hrun as <-; reflexivity).
  exists d'. split; [reflexivity|].
  destruct (convert_string_buffer demo_printf two_records 2 dump_small 16 d'
              dump_small_wf ltac:(lia) Hrun ltac:(discriminate))
    as (ts & Hts & _ & Hbuf).
  assert (ts = two_lines) as ->
    by (vm_compute in Hts; injection Hts as <-; reflexivity).
  rewrite Hbuf, Hcap. vm_compute. reflexivity.
Defined.

Lemma convert_string_reuses_buffer_witness :
  sbuf_wf dump_small ∧
  record_lines demo_printf two_records (Z.to_nat 2) 0 dump_small
  = Some two_lines ∧
  total_length two_lines + ONELINE ≤ maxsbuf dump_small ∧
  ∃ d', convert_string demo_printf 2 two_records dump_small
        = Some (total_length two_lines, d') ∧
        maxsbuf d' = maxsbuf dump_small.
Proof.
  assert (record_lines demo_printf two_records (Z.to_nat 2) 0 dump_small
          = Some two_lines) as Hts by (vm_compute; reflexivity).
  assert (total_length two_lines + ONELINE ≤ maxsbuf dump_small) as Hroom
    by (vm_compute; congruence).
  split; [exact dump_small_wf|]. split; [exact Hts|]. split; [exact Hroom|].
  destruct (convert_string_reuses_buffer demo_printf two_records 2 dump_small
              two_lines dump_small_wf Hts Hroom) as (d' & Hrun & Hcap & _).
  exists d'. split; [exact Hrun|exact Hcap].
Defined.

Lemma destructor_defined_witness :
  0 ≤ ntypes (fresh_dump 0 10 0 5 0 2 0 0 0) < MAXSMALLINT ∧
  delete_DumpEXTXYZ (fresh_dump 0 10 0 5 0 2 0 0 0) = Some () ∧
  delete_DumpEXTXYZ dump1 = Some ().
Proof.
  assert (0 ≤ ntypes (fresh_dump 0 10 0 5 0 2 0 0 0) < MAXSMALLINT) as Hn
    by (cbn; unfold MAXSMALLINT; lia).
  split; [exact Hn|].
  destruct (destructor_defined orthogonal 0 [] (fresh_dump 0 10 0 5 0 2 0 0 0)
              0 dump1 Hn) as [Hdefault _].
  exact (Hdefault eq_refl).
Defined.

(** A table with a slot that was never assigned cannot be freed. *)
Example destructor_unassigned_slot :
  delete_DumpEXTXYZ (set_typenames (Some (new_table 3)) dump1) = None.
Proof. reflexivity. Qed.

Lemma init_style_then_write_header_witness :
  me (fresh_dump 0 10 0 5 0 2 1 2 3) = 0 ∧
  fp <$> write_header demo_fmt_double 42 dump1_tilted
  = Some (list_ascii_of_string
            ("42" +:+ newline +:+ "Lattice=" +:+ quote
               +:+ "10 0.0 0.0 0.0 5 0.0 0.0 0.0 2" +:+ quote +:+ " "
               +:+ newline)).
Proof.
  split; [reflexivity|].
  destruct (init_style_then_write_header demo_fmt_double {| triclinic := 1 |}
              42 (fresh_dump 0 10 0 5 0 2 1 2 3) eq_refl) as [Hset _].
  unfold dump1_tilted. rewrite (Hset ltac:(right; reflexivity)).
  vm_compute. reflexivity.
Defined.
